(** * Rootlink: the tunnel relay protocol, embedded in Rocq

    A shallow embedding of [server/index.js] (tunnel registry, request/response
    correlator, HTML path rewriter) and [client/index.js] (forwarding agent,
    reconnect back-off), with the properties of the relay protocol stated and
    proved over it.

    Conventions.
    - A JavaScript string is a [string] holding its UTF-8 code units; a
      [Buffer] is the same type read as raw bytes.  Every pattern the source
      matches is ASCII, and no byte of a multi-byte UTF-8 sequence is ASCII, so
      matching on code units and matching on bytes agree.
    - [Map] objects are [gmap]s.  Objects that the source shares between
      closures (a tunnel record, a timer) live in a store and are named by a
      reference.
    - Library calls whose code is outside the repository ([JSON.parse],
      [JSON.stringify], [new URL], header and status validation) are the
      fields of the class [Runtime]; what the local service answers and
      whether a socket write throws are arguments of the handlers. *)

From Stdlib Require Import ZArith QArith Qminmax Qpower Lqa.
From Stdlib Require Import String Ascii List Lia Bool DecimalString.
From stdpp Require Import base gmap strings list option.

Close Scope Q_scope.
Open Scope string_scope.

(** ** JavaScript string primitives *)

Module JsString.

Definition code (c : ascii) : nat := nat_of_ascii c.

Definition between (lo hi : nat) (c : ascii) : bool :=
  (lo <=? code c)%nat && (code c <=? hi)%nat.

Definition is_digit (c : ascii) : bool := between 48 57 c.
Definition is_upper (c : ascii) : bool := between 65 90 c.
Definition is_lower (c : ascii) : bool := between 97 122 c.

(** [\w] without the [u] and [i] flags: [[A-Za-z0-9_]]. *)
Definition is_word (c : ascii) : bool :=
  is_upper c || is_lower c || is_digit c || Ascii.eqb c "_".

Definition digit_val (c : ascii) : nat := code c - 48.

Definition lower_char (c : ascii) : ascii :=
  if is_upper c then ascii_of_nat (code c + 32) else c.

(** [String.prototype.toLowerCase], on the ASCII letters. *)
Fixpoint toLowerCase (s : string) : string :=
  match s with
  | EmptyString => EmptyString
  | String c r => String (lower_char c) (toLowerCase r)
  end.

(** [strip p s] is the rest of [s] after its prefix [p], when [s] starts
    with [p]. *)
Fixpoint strip (p s : string) : option string :=
  match p with
  | EmptyString => Some s
  | String a p' =>
      match s with
      | EmptyString => None
      | String b s' => if Ascii.eqb a b then strip p' s' else None
      end
  end.

(** As [strip], comparing letters without case (the [i] flag). *)
Fixpoint strip_ci (p s : string) : option string :=
  match p with
  | EmptyString => Some s
  | String a p' =>
      match s with
      | EmptyString => None
      | String b s' =>
          if Ascii.eqb (lower_char a) (lower_char b) then strip_ci p' s' else None
      end
  end.

Definition startsWith (p s : string) : bool :=
  match strip p s with Some _ => true | None => false end.

(** [String.prototype.includes]. *)
Fixpoint includes (needle s : string) : bool :=
  startsWith needle s ||
  match s with
  | EmptyString => false
  | String _ r => includes needle r
  end.

Fixpoint take (n : nat) (s : string) : string :=
  match n, s with
  | S k, String c r => String c (take k r)
  | _, _ => EmptyString
  end.

Fixpoint drop (n : nat) (s : string) : string :=
  match n, s with
  | S k, String _ r => drop k r
  | _, _ => s
  end.

(** Longest prefix whose characters satisfy [p], and what follows it. *)
Fixpoint span (p : ascii -> bool) (s : string) : string * string :=
  match s with
  | EmptyString => (EmptyString, EmptyString)
  | String c r =>
      if p c then let '(a, b) := span p r in (String c a, b)
      else (EmptyString, s)
  end.

Definition snoc (s : string) (c : ascii) : string := s ++ String c EmptyString.

End JsString.

Import JsString.

(** ** Regular-expression replacement, as [String.prototype.replace] does it *)

Module Regex.

(** A successful match anchored at the start of the subject: how many
    characters it consumes and what its capture groups hold. *)
Record rmatch := Match { m_len : nat; m_caps : list string }.

Definition matcher := string -> option rmatch.

Definition dquote : ascii := "034"%char.
Definition squote : ascii := "039"%char.
Definition DQ : string := String dquote EmptyString.
Definition NL : string := String "010"%char EmptyString.

Definition is_quote (c : ascii) : bool := Ascii.eqb c dquote || Ascii.eqb c squote.

(** *** GetSubstitution: the [$]-patterns of a replacement string *)
Section Substitution.
Variable caps : list string.
Variables matched before after : string.

Definition capture (n : nat) : option string :=
  if (1 <=? n)%nat then caps !! (n - 1)%nat else None.

(** [$$], [$&], [$`], [$'], [$n] and [$nn]; a two-digit index beyond the
    number of groups falls back to one digit followed by a literal digit;
    anything else after [$] leaves the [$] in place. *)
Fixpoint expand (tpl : string) : string :=
  match tpl with
  | EmptyString => EmptyString
  | String c t =>
      if negb (Ascii.eqb c "$") then String c (expand t) else
      match t with
      | EmptyString => String c EmptyString
      | String d t' =>
          if Ascii.eqb d "$" then String "$" (expand t')
          else if Ascii.eqb d "&" then matched ++ expand t'
          else if Ascii.eqb d "`" then before ++ expand t'
          else if Ascii.eqb d squote then after ++ expand t'
          else if is_digit d then
            let one :=
              match capture (digit_val d) with
              | Some g => g ++ expand t'
              | None => String c (expand t)
              end in
            match t' with
            | String e t'' =>
                if is_digit e then
                  let nn := (10 * digit_val d + digit_val e)%nat in
                  if (nn <=? List.length caps)%nat then
                    match capture nn with
                    | Some g => g ++ expand t''
                    | None => String c (expand t)
                    end
                  else one
                else one
            | EmptyString => one
            end
          else String c (expand t)
      end
  end.
End Substitution.

(** *** Replacement with the [g] flag

    The subject is scanned left to right; at a match the expanded template
    is emitted and the scan resumes after the match ([skip] counts the
    characters of the match still to be passed over).  [before] is the part
    of the subject already scanned, for [$`].  Every matcher below consumes
    at least one character. *)
Fixpoint replace_from (m : matcher) (tpl : string) (skip : nat)
    (before s : string) : string :=
  match s with
  | EmptyString => EmptyString
  | String c r =>
      match skip with
      | S k => replace_from m tpl k (snoc before c) r
      | O =>
          match m s with
          | Some mt =>
              expand (m_caps mt) (take (m_len mt) s) before (drop (m_len mt) s) tpl
                ++ replace_from m tpl (m_len mt - 1) (snoc before c) r
          | None => String c (replace_from m tpl 0 (snoc before c) r)
          end
      end
  end.

Definition replace_all (m : matcher) (tpl s : string) : string :=
  replace_from m tpl 0 EmptyString s.

(** *** Replacement without the [g] flag: the leftmost match only *)
Fixpoint replace_first_from (m : matcher) (tpl : string) (before s : string) : string :=
  match m s with
  | Some mt =>
      expand (m_caps mt) (take (m_len mt) s) before (drop (m_len mt) s) tpl
        ++ drop (m_len mt) s
  | None =>
      match s with
      | EmptyString => EmptyString
      | String c r => String c (replace_first_from m tpl (snoc before c) r)
      end
  end.

Definition replace_first (m : matcher) (tpl s : string) : string :=
  replace_first_from m tpl EmptyString s.

(** *** The three patterns of [rewriteHtml] *)

(** [[\w-]] *)
Definition is_data_char (c : ascii) : bool := is_word c || Ascii.eqb c "-".

(** [(?:src|href|action|content|data-[\w-]+)]: the length of the name and
    what follows it.  The alternatives start with five different letters, so
    at most one applies at a position; the run [[\w-]+] is taken whole,
    because the [=] that must follow is not in its class. *)
Definition attr_name (s : string) : option (nat * string) :=
  match strip "src" s with Some r => Some (3, r) | None =>
  match strip "href" s with Some r => Some (4, r) | None =>
  match strip "action" s with Some r => Some (6, r) | None =>
  match strip "content" s with Some r => Some (7, r) | None =>
  match strip "data-" s with
  | Some r =>
      let '(run, r') := span is_data_char r in
      match run with
      | EmptyString => None
      | _ => Some (5 + String.length run, r')
      end
  | None => None
  end end end end end%nat.

(** The first pattern: one of the names above, [=], a double or single
    quote (together group 1), then a slash that no second slash follows
    (the negative lookahead consumes nothing). *)
Definition match_attr : matcher := fun s =>
  match attr_name s with
  | Some (n, String eq (String q (String sl r))) =>
      if Ascii.eqb eq "=" && is_quote q && Ascii.eqb sl "/" && negb (startsWith "/" r)
      then Some (Match (n + 3) [take (n + 2) s])
      else None
  | _ => None
  end.

(** The second pattern: [url(], an optional double or single quote, then a
    slash that no second slash follows.  No capture group.  When the quote
    is there the optional item takes it; giving it back cannot help, since
    the next item wants a slash. *)
Definition match_url : matcher := fun s =>
  match strip "url(" s with
  | Some (String c r) =>
      if is_quote c then
        match r with
        | String sl r' =>
            if Ascii.eqb sl "/" && negb (startsWith "/" r') then Some (Match 6 []) else None
        | EmptyString => None
        end
      else if Ascii.eqb c "/" && negb (startsWith "/" r) then Some (Match 5 [])
      else None
  | _ => None
  end.

Fixpoint index_of (c : ascii) (s : string) : option nat :=
  match s with
  | EmptyString => None
  | String d r => if Ascii.eqb c d then Some 0%nat else S <$> index_of c r
  end.

(** [/(<head[^>]*>)/i]: group 1 is the whole match, up to the first [>]. *)
Definition match_head : matcher := fun s =>
  match strip_ci "<head" s with
  | Some r =>
      match index_of ">" r with
      | Some i => Some (Match (5 + i + 1) [take (5 + i + 1) s])
      | None => None
      end
  | None => None
  end.

End Regex.

Import Regex.

(** ** [rewriteHtml] (server/index.js) *)

Definition base_of (tunnelId : string) : string := "/t/" ++ tunnelId.

Definition base_tag_template (tunnelId : string) : string :=
  "$1" ++ NL ++ "  <base href=" ++ DQ ++ base_of tunnelId ++ "/" ++ DQ ++ ">".

Definition rewriteHtml (html tunnelId : string) : string :=
  let base := base_of tunnelId in
  let html := replace_all match_attr ("$1" ++ base ++ "/") html in
  let html := replace_all match_url ("url(" ++ base ++ "/") html in
  let html := replace_first match_head (base_tag_template tunnelId) html in
  html.

(** *** What the rewriter is compared with *)

(** The pattern [m] matches nowhere in [s]. *)
Definition no_match (m : matcher) (s : string) : Prop :=
  forall n, m (drop n s) = None.

(** [s] holds no [$], so as a replacement template it stands for itself. *)
Fixpoint dollar_free (s : string) : bool :=
  match s with
  | EmptyString => true
  | String c r => negb (Ascii.eqb c "$") && dollar_free r
  end.

(** The element [rewriteHtml] injects, for a tunnel id without [$]. *)
Definition base_tag (tunnelId : string) : string :=
  NL ++ "  <base href=" ++ DQ ++ base_of tunnelId ++ "/" ++ DQ ++ ">".

(** [ins] put right after the first opening tag that starts with [<head],
    and nothing else changed; no such tag, no change. *)
Fixpoint inject_after_head (ins s : string) : string :=
  match match_head s with
  | Some mt => take (m_len mt) s ++ ins ++ drop (m_len mt) s
  | None =>
      match s with
      | EmptyString => EmptyString
      | String c r => String c (inject_after_head ins r)
      end
  end.

(** ** Base64, as [Buffer.prototype.toString('base64')] and
       [Buffer.from(s, 'base64')] compute it *)

Module Base64.

Definition alphabet : string :=
  "ABCDEFGHIJKLMNOPQRSTUVWXYZabcdefghijklmnopqrstuvwxyz0123456789+/".

Definition char_of_sextet (v : N) : ascii :=
  match String.get (N.to_nat v) alphabet with
  | Some c => c
  | None => "="%char
  end.

(** The decoder also reads the URL-safe letters [-] and [_]. *)
Definition sextet_of_char (c : ascii) : option N :=
  if is_upper c then Some (N_of_ascii c - 65)%N
  else if is_lower c then Some (N_of_ascii c - 97 + 26)%N
  else if is_digit c then Some (N_of_ascii c - 48 + 52)%N
  else if Ascii.eqb c "+" || Ascii.eqb c "-" then Some 62%N
  else if Ascii.eqb c "/" || Ascii.eqb c "_" then Some 63%N
  else None.

Definition byte_of (n : N) : ascii := ascii_of_N n.

(** Three bytes become four sextets; one or two trailing bytes are padded
    with [=]. *)
Fixpoint encode (bytes : string) : string :=
  match bytes with
  | EmptyString => EmptyString
  | String a EmptyString =>
      let x := N_of_ascii a in
      String (char_of_sextet (x / 4))
        (String (char_of_sextet ((x mod 4) * 16)) "==")
  | String a (String b EmptyString) =>
      let x := N_of_ascii a in
      let y := N_of_ascii b in
      String (char_of_sextet (x / 4))
        (String (char_of_sextet ((x mod 4) * 16 + y / 16))
           (String (char_of_sextet ((y mod 16) * 4)) "="))
  | String a (String b (String c r)) =>
      let x := N_of_ascii a in
      let y := N_of_ascii b in
      let z := N_of_ascii c in
      String (char_of_sextet (x / 4))
        (String (char_of_sextet ((x mod 4) * 16 + y / 16))
           (String (char_of_sextet ((y mod 16) * 4 + z / 64))
              (String (char_of_sextet (z mod 64)) (encode r))))
  end%N.

(** The decoder is lenient: characters outside the alphabet are skipped and
    the first [=] ends the input.  Only the decoding of what [encode] returns
    is relied on below; on other input (bytes above 127, say) Node's decoder
    is not followed byte for byte. *)
Fixpoint sextets (s : string) : list N :=
  match s with
  | EmptyString => []
  | String c r =>
      if Ascii.eqb c "=" then []
      else match sextet_of_char c with
           | Some v => v :: sextets r
           | None => sextets r
           end
  end.

(** A byte is written as soon as its bits are complete, so a trailing
    group of two sextets gives one byte and one of three gives two. *)
Fixpoint bytes_of_sextets (l : list N) : string :=
  match l with
  | s0 :: s1 :: s2 :: s3 :: r =>
      String (byte_of (s0 * 4 + s1 / 16))
        (String (byte_of ((s1 mod 16) * 16 + s2 / 4))
           (String (byte_of ((s2 mod 4) * 64 + s3)) (bytes_of_sextets r)))
  | [s0; s1; s2] =>
      String (byte_of (s0 * 4 + s1 / 16))
        (String (byte_of ((s1 mod 16) * 16 + s2 / 4)) EmptyString)
  | [s0; s1] => String (byte_of (s0 * 4 + s1 / 16)) EmptyString
  | _ => EmptyString
  end%N.

Definition decode (s : string) : string := bytes_of_sextets (sextets s).

(** The letter of the sextet [v] is read back as [v], and is not the padding. *)
Definition sextet_ok (v : N) : bool :=
  match sextet_of_char (char_of_sextet v) with
  | Some w => N.eqb w v && negb (Ascii.eqb (char_of_sextet v) "=")
  | None => false
  end.

End Base64.

(** ** JSON values and the JavaScript operations applied to them *)

#[local] Set Warnings "-register-all".

Inductive json :=
| JNull
| JBool (b : bool)
| JNum (n : Z)
| JStr (s : string)
| JArr (items : list json)
| JObj (fields : list (string * json)).

(** A JavaScript value read out of a message: [None] is [undefined]. *)
Definition jsval := option json.

(** Evaluation of a handler body either returns or throws; the state changes
    made before a throw stay. *)
Inductive outcome (A : Type) :=
| Returned (a : A)
| Thrown (err : string).
Arguments Returned {A} a.
Arguments Thrown {A} err.

Module Js.

(** ToBoolean. *)
Definition truthy (v : jsval) : bool :=
  match v with
  | None | Some JNull => false
  | Some (JBool b) => b
  | Some (JNum n) => negb (n =? 0)%Z
  | Some (JStr s) => negb (String.eqb s "")
  | Some (JArr _) | Some (JObj _) => true
  end.

Fixpoint assoc (k : string) (l : list (string * json)) : jsval :=
  match l with
  | [] => None
  | (k', v) :: r => if String.eqb k k' then Some v else assoc k r
  end.

(** [v.k] for the keys the handlers read ([type], [reqId], [status],
    [headers], [body], [method], [path], [content-type]): none of them is a
    property of a boolean, number, string or array. *)
Definition prop (v : jsval) (k : string) : outcome jsval :=
  match v with
  | None => Thrown "TypeError: Cannot read properties of undefined"
  | Some JNull => Thrown "TypeError: Cannot read properties of null"
  | Some (JObj fields) => Returned (assoc k fields)
  | Some _ => Returned None
  end.

(** [v?.[k]] *)
Definition opt_prop (v : jsval) (k : string) : jsval :=
  match v with
  | Some (JObj fields) => assoc k fields
  | _ => None
  end.

(** [a || b] *)
Definition or_else (a : jsval) (b : json) : json :=
  match a with
  | Some x => if truthy a then x else b
  | None => b
  end.

Definition string_of_index (i : nat) : string :=
  DecimalString.NilZero.string_of_uint (Nat.to_uint i).

(** [Object.entries]: the fields of an object; index and element for an array,
    index and character for a string; nothing for the other values. *)
Definition entries (v : json) : list (string * json) :=
  match v with
  | JObj fields => fields
  | JArr items => imap (fun i x => (string_of_index i, x)) items
  | JStr s =>
      imap (fun i c => (string_of_index i, JStr (String c EmptyString)))
        (list_ascii_of_string s)
  | _ => []
  end.

(** [v.toLowerCase()]: only a string has the method. *)
Definition call_toLowerCase (v : json) : outcome string :=
  match v with
  | JStr s => Returned (toLowerCase s)
  | _ => Thrown "TypeError: toLowerCase is not a function"
  end.

(** ToString, as a template literal applies it to a string, a boolean,
    [null] or an integer below 1e21.  From 1e21 on JavaScript prints an
    exponent, and the ToPrimitive of an object can throw (a parsed object with
    a [toString] member that is no function); neither is followed here, and
    the statements that depend on the text take a string. *)
Fixpoint to_string (v : json) : string :=
  match v with
  | JNull => "null"
  | JBool true => "true"
  | JBool false => "false"
  | JNum n => DecimalString.NilZero.string_of_int (Z.to_int n)
  | JStr s => s
  | JArr items =>
      (fix join (l : list json) : string :=
         match l with
         | [] => ""
         | [x] => match x with JNull => "" | _ => to_string x end
         | x :: r => match x with JNull => "" | _ => to_string x end ++ "," ++ join r
         end) items
  | JObj _ => "[object Object]"
  end.

(** An object literal; a property whose value is [undefined] is one
    [JSON.stringify] leaves out. *)
Definition object (l : list (string * jsval)) : json :=
  JObj (omap (fun kv => match snd kv with Some v => Some (fst kv, v) | None => None end) l).

(** A message body as the protocol has it: absent, [null] or a string. *)
Definition is_payload (v : jsval) : bool :=
  match v with
  | None | Some JNull | Some (JStr _) => true
  | _ => false
  end.

(** [===] against a string literal. *)
Definition is_string (v : jsval) (lit : string) : bool :=
  match v with
  | Some (JStr s) => String.eqb s lit
  | _ => false
  end.

End Js.

(** ** The runtime the two programs run on

    What Node, Express and the [ws] and [uuid] packages contribute and the
    repository does not define.  The fields are the calls; the laws are the
    facts about them the handlers rely on. *)

(** The fields of a [URL] object the client reads. *)
Record ParsedUrl := mkParsedUrl {
  protocol : string;
  hostname : string;
  port : string;
  host : string;
  pathname : string;
  search : string
}.

Class Runtime := {
  (** [new URL(s)]; [None] is the [TypeError] of an invalid URL. *)
  URL_parse : string -> option ParsedUrl;
  (** [JSON.parse]; [None] is a [SyntaxError]. *)
  JSON_parse : string -> option json;
  (** [JSON.stringify] of a value built by the handlers. *)
  JSON_stringify : json -> string;
  (** Whether [res.setHeader(name, value)] accepts the pair; it throws
      otherwise. *)
  setHeader_ok : string -> json -> bool;
  (** Whether the response head can be written with this status code; the
      write throws otherwise. *)
  status_ok : json -> bool;
  (** [Buffer.from(v, 'base64')] for a [v] that is not a string; [None] is a
      [TypeError]. *)
  Buffer_from_other : json -> option string;
  (** A three-digit status code is accepted. *)
  status_ok_number : forall n : Z, (100 <= n <= 999)%Z -> status_ok (JNum n) = true;
  (** A numeric [content-length] is accepted. *)
  content_length_ok : forall n : Z, setHeader_ok "content-length" (JNum n) = true
}.

(** [Buffer.from(body, 'base64')] *)
Definition Buffer_from `{Runtime} (body : json) : outcome string :=
  match body with
  | JStr s => Returned (Base64.decode s)
  | v =>
      match Buffer_from_other v with
      | Some b => Returned b
      | None => Thrown "TypeError: The first argument must be of type string"
      end
  end.

(** [chunks.length ? Buffer.concat(chunks).toString('base64') : null] *)
Definition encode_body (chunks : list string) : json :=
  match chunks with
  | [] => JNull
  | _ => JStr (Base64.encode (String.concat "" chunks))
  end.

(** ** The relay (server/index.js) *)

Module Relay.

Definition WsId := nat.
Definition ResId := nat.
Definition TimerId := nat.
Definition TunnelRef := nat.

(** [ws.readyState] *)
Inductive ReadyState := CONNECTING | OPEN | CLOSING | CLOSED.

Definition is_open (rs : option ReadyState) : bool :=
  match rs with Some OPEN => true | _ => false end.

(** A value of [tunnel.pendingRequests]: [{ res, tunnelId }], then [timeout]. *)
Record Pending := mkPending {
  p_res : ResId;
  p_tunnelId : string;
  p_timeout : option TimerId
}.

(** A value of [tunnels]: [{ ws, pendingRequests: new Map() }].  The record is
    an object shared by the registry and by the closures of the requests
    dispatched on it, so it lives in [heap] under a reference. *)
Record Tunnel := mkTunnel {
  t_ws : WsId;
  pendingRequests : gmap string Pending
}.

(** The closure passed to [setTimeout] in the tunnel request handler. *)
Record Timer := mkTimer {
  tm_tunnel : TunnelRef;
  tm_reqId : string;
  tm_res : ResId;
  tm_delay : Z
}.

(** The inbound request as the handler reads it. *)
Record HttpReq := mkHttpReq {
  method : string;
  originalUrl : string;
  req_headers : list (string * json)
}.

(** A tunnel request handler suspended at [await], with what it has bound. *)
Record Suspended := mkSuspended {
  su_tunnelId : string;
  su_tunnel : TunnelRef;
  su_reqId : string;
  su_req : HttpReq
}.

(** What has been set on a [res] object and not yet written. *)
Record Exchange := mkExchange {
  statusCode : json;
  headers : list (string * json)
}.

Definition new_exchange : Exchange := mkExchange (JNum 200) [].

(** A response as a handler hands it to Express: the status it set, the
    headers it set with [res.setHeader], the body it passed to [res.send] (the
    empty body for [res.end()]).  What Express and the middleware make of it on
    the wire is not part of the record: headers of their own ([x-powered-by],
    [Access-Control-Allow-Origin], [Content-Length], [ETag]), the answer 304
    without body to a conditional [GET] whose validator matches, no body for
    [HEAD]. *)
Record HttpResponse := mkHttpResponse {
  resp_status : json;
  resp_headers : list (string * json);
  resp_body : string
}.

Record Server := mkServer {
  tunnels : gmap string TunnelRef;
  heap : gmap TunnelRef Tunnel;
  next_ref : TunnelRef;
  sockets : gmap WsId ReadyState;
  handlers : gmap WsId string;
  timers : gmap TimerId Timer;
  next_timer : TimerId;
  suspended : gmap ResId Suspended;
  exchanges : gmap ResId Exchange;
  http_out : list (ResId * HttpResponse);
  ws_out : list (WsId * string);
  console : list string
}.

Definition initial : Server :=
  mkServer ∅ ∅ 0 ∅ ∅ ∅ 0 ∅ ∅ [] [] [].

Definition with_tunnels (f : gmap string TunnelRef -> gmap string TunnelRef) (s : Server) : Server :=
  mkServer (f (tunnels s)) (heap s) (next_ref s) (sockets s) (handlers s) (timers s)
    (next_timer s) (suspended s) (exchanges s) (http_out s) (ws_out s) (console s).

Definition with_heap (f : gmap TunnelRef Tunnel -> gmap TunnelRef Tunnel) (s : Server) : Server :=
  mkServer (tunnels s) (f (heap s)) (next_ref s) (sockets s) (handlers s) (timers s)
    (next_timer s) (suspended s) (exchanges s) (http_out s) (ws_out s) (console s).

Definition with_next_ref (n : TunnelRef) (s : Server) : Server :=
  mkServer (tunnels s) (heap s) n (sockets s) (handlers s) (timers s)
    (next_timer s) (suspended s) (exchanges s) (http_out s) (ws_out s) (console s).

Definition with_sockets (f : gmap WsId ReadyState -> gmap WsId ReadyState) (s : Server) : Server :=
  mkServer (tunnels s) (heap s) (next_ref s) (f (sockets s)) (handlers s) (timers s)
    (next_timer s) (suspended s) (exchanges s) (http_out s) (ws_out s) (console s).

Definition with_handlers (f : gmap WsId string -> gmap WsId string) (s : Server) : Server :=
  mkServer (tunnels s) (heap s) (next_ref s) (sockets s) (f (handlers s)) (timers s)
    (next_timer s) (suspended s) (exchanges s) (http_out s) (ws_out s) (console s).

Definition with_timers (f : gmap TimerId Timer -> gmap TimerId Timer) (s : Server) : Server :=
  mkServer (tunnels s) (heap s) (next_ref s) (sockets s) (handlers s) (f (timers s))
    (next_timer s) (suspended s) (exchanges s) (http_out s) (ws_out s) (console s).

Definition with_next_timer (n : TimerId) (s : Server) : Server :=
  mkServer (tunnels s) (heap s) (next_ref s) (sockets s) (handlers s) (timers s)
    n (suspended s) (exchanges s) (http_out s) (ws_out s) (console s).

Definition with_suspended (f : gmap ResId Suspended -> gmap ResId Suspended) (s : Server) : Server :=
  mkServer (tunnels s) (heap s) (next_ref s) (sockets s) (handlers s) (timers s)
    (next_timer s) (f (suspended s)) (exchanges s) (http_out s) (ws_out s) (console s).

Definition with_exchanges (f : gmap ResId Exchange -> gmap ResId Exchange) (s : Server) : Server :=
  mkServer (tunnels s) (heap s) (next_ref s) (sockets s) (handlers s) (timers s)
    (next_timer s) (suspended s) (f (exchanges s)) (http_out s) (ws_out s) (console s).

Definition with_http_out (f : list (ResId * HttpResponse) -> list (ResId * HttpResponse)) (s : Server) : Server :=
  mkServer (tunnels s) (heap s) (next_ref s) (sockets s) (handlers s) (timers s)
    (next_timer s) (suspended s) (exchanges s) (f (http_out s)) (ws_out s) (console s).

Definition with_ws_out (f : list (WsId * string) -> list (WsId * string)) (s : Server) : Server :=
  mkServer (tunnels s) (heap s) (next_ref s) (sockets s) (handlers s) (timers s)
    (next_timer s) (suspended s) (exchanges s) (http_out s) (f (ws_out s)) (console s).

Definition with_console (f : list string -> list string) (s : Server) : Server :=
  mkServer (tunnels s) (heap s) (next_ref s) (sockets s) (handlers s) (timers s)
    (next_timer s) (suspended s) (exchanges s) (http_out s) (ws_out s) (f (console s)).

(** *** Handler bodies: state and exceptions *)

Definition M (A : Type) : Type := Server -> outcome A * Server.

Definition ret {A} (a : A) : M A := fun s => (Returned a, s).

Definition bind {A B} (m : M A) (k : A -> M B) : M B := fun s =>
  match m s with
  | (Returned a, s') => k a s'
  | (Thrown e, s') => (Thrown e, s')
  end.

Definition throw {A} (e : string) : M A := fun s => (Thrown e, s).

Definition lift {A} (o : outcome A) : M A := fun s => (o, s).

Definition get : M Server := fun s => (Returned s, s).

Definition modify (f : Server -> Server) : M unit := fun s => (Returned tt, f s).

(** [try { body } catch (err) { handler(err) }] *)
Definition try_catch (body : M unit) (handler : string -> M unit) : M unit := fun s =>
  match body s with
  | (Returned _, s') => (Returned tt, s')
  | (Thrown e, s') => handler e s'
  end.

(** [list.forEach(f)] *)
Fixpoint for_each {A} (f : A -> M unit) (l : list A) : M unit :=
  match l with
  | [] => ret tt
  | x :: r => bind (f x) (fun _ => for_each f r)
  end.

#[global] Instance M_ret : MRet M := @ret.
#[global] Instance M_bind : MBind M := fun A B k m => bind m k.

(** *** The objects the handlers call *)

Section Handlers.
Context `{Runtime}.

Definition exchange_of (s : Server) (res : ResId) : Exchange :=
  default new_exchange (exchanges s !! res).

(** [res.status(code)] *)
Definition res_status (res : ResId) (code : json) : M unit :=
  modify (fun s =>
    with_exchanges <[res := mkExchange code (headers (exchange_of s res))]> s).

(** [res.setHeader(name, value)]; the calls are kept in order, a name set
    again included. *)
Definition res_setHeader (res : ResId) (name : string) (value : json) : M unit :=
  if setHeader_ok name value then
    modify (fun s =>
      with_exchanges
        <[res := mkExchange (statusCode (exchange_of s res))
                   (headers (exchange_of s res) ++ [(name, value)])%list]> s)
  else throw "TypeError: invalid header".

(** [res.send(body)]: the call is recorded with the status and the headers
    set so far on the exchange and the body passed.  Every call is recorded;
    that no exchange is answered twice is a property of the handlers, proved
    below, not of this function (Node throws on a second write of the head;
    no handler gets there). *)
Definition res_send (res : ResId) (body : string) : M unit :=
  s ← get;
  let ex := exchange_of s res in
  if status_ok (statusCode ex) then
    modify (with_http_out
      (fun o => (o ++ [(res, mkHttpResponse (statusCode ex) (headers ex) body)])%list))
  else throw "RangeError: invalid status code".

(** [res.end()] *)
Definition res_end (res : ResId) : M unit := res_send res "".

(** [res.json(v)] *)
Definition res_json (res : ResId) (v : json) : M unit := res_send res (JSON_stringify v).

Definition console_error (msg : string) : M unit :=
  modify (with_console (fun c => (c ++ [msg])%list)).

(** [setTimeout(callback, delay)]: a new timer object. *)
Definition setTimeout (cb : Timer) : M TimerId := fun s =>
  (Returned (next_timer s),
   with_next_timer (S (next_timer s)) (with_timers <[next_timer s := cb]> s)).

(** [clearTimeout(t)]; [undefined] is accepted and ignored. *)
Definition clearTimeout (t : option TimerId) : M unit :=
  match t with
  | Some t => modify (with_timers (delete t))
  | None => ret tt
  end.

(** [ws.send(data)]; whether it throws is the socket's business, given by
    [throws]. *)
Definition ws_send (ws : WsId) (data : string) (throws : bool) : M unit :=
  if throws then throw "Error: WebSocket send failed"
  else modify (with_ws_out (fun o => (o ++ [(ws, data)])%list)).

Definition on_pending (k : TunnelRef)
    (f : gmap string Pending -> gmap string Pending) : M unit :=
  modify (with_heap (alter (fun t => mkTunnel (t_ws t) (f (pendingRequests t))) k)).

(** [tunnel.pendingRequests.has(reqId)] *)
Definition pending_has (s : Server) (k : TunnelRef) (reqId : string) : bool :=
  match heap s !! k with
  | Some t => bool_decide (is_Some (pendingRequests t !! reqId))
  | None => false
  end.

(** [tunnels.get(tunnelId)]: the reference and the object behind it. *)
Definition lookup_tunnel (s : Server) (tunnelId : string) : option (TunnelRef * Tunnel) :=
  match tunnels s !! tunnelId with
  | Some k =>
      match heap s !! k with
      | Some t => Some (k, t)
      | None => None
      end
  | None => None
  end.

(** [map.get(key)] with a key read from a message: only a string can be equal
    to a key of the map. *)
Definition pending_get (t : Tunnel) (reqId : jsval) : option (string * Pending) :=
  match reqId with
  | Some (JStr r) =>
      match pendingRequests t !! r with
      | Some p => Some (r, p)
      | None => None
      end
  | _ => None
  end.

(** *** REST API *)

(** [!!tunnels.get(tunnelId)] *)
Definition connected (s : Server) (tunnelId : string) : bool :=
  match tunnels s !! tunnelId with
  | Some _ => true
  | None => false
  end.

(** [app.get('/api/status/:tunnelId')] *)
Definition api_status (res : ResId) (tunnelId : string) : M unit :=
  s ← get;
  res_json res (JObj [("tunnelId", JStr tunnelId); ("connected", JBool (connected s tunnelId))]).

(** *** Tunnel request handler *)

Definition offline_page (tunnelId : string) : string :=
  "<!DOCTYPE html>" ++ NL ++
  "<html>" ++ NL ++
  "  <head><title>Rootlink — Tunnel Offline</title></head>" ++ NL ++
  "  <body style=" ++ DQ ++ "background:#0c0c0c;color:#f0f0f0;font-family:system-ui;display:flex;align-items:center;justify-content:center;height:100vh;margin:0;flex-direction:column;gap:8px" ++ DQ ++ ">" ++ NL ++
  "    <h2 style=" ++ DQ ++ "margin:0;font-size:18px;font-weight:600" ++ DQ ++ ">Tunnel Offline</h2>" ++ NL ++
  "    <p style=" ++ DQ ++ "color:#888;margin:0;font-size:14px" ++ DQ ++ ">Tunnel <code style=" ++ DQ ++ "color:#4ade80" ++ DQ ++ ">" ++ tunnelId ++ "</code> is not connected.<br>Run the CLI client to activate it.</p>" ++ NL ++
  "  </body>" ++ NL ++
  "</html>".

(** [!tunnel || tunnel.ws.readyState !== WebSocket.OPEN] *)
Definition offline (s : Server) (tunnelId : string) : bool :=
  match lookup_tunnel s tunnelId with
  | Some (_, tunnel) => negb (is_open (sockets s !! t_ws tunnel))
  | None => true
  end.

(** [app.all('/t/:tunnelId*')] up to its [await]: the offline answer, or the
    handler is suspended until the [end] listener it attaches to the request
    fires.  [reqId] is the value [uuidv4()] returns.  The handler runs behind
    the middleware of lines 12 and 13: an [OPTIONS] request is answered by
    [cors] and never gets here. *)
Definition tunnel_request (res : ResId) (tunnelId : string) (req : HttpReq)
    (reqId : string) : M unit :=
  s ← get;
  match lookup_tunnel s tunnelId with
  | Some (k, tunnel) =>
      if is_open (sockets s !! t_ws tunnel) then
        modify (with_suspended <[res := mkSuspended tunnelId k reqId req]>)
      else
        res_status res (JNum 503);; res_send res (offline_page tunnelId)
  | None =>
      res_status res (JNum 503);; res_send res (offline_page tunnelId)
  end.

(** [s.replace(pattern, '')] with a string pattern: the first occurrence goes. *)
Fixpoint remove_first (pattern s : string) : string :=
  match strip pattern s with
  | Some r => r
  | None =>
      match s with
      | EmptyString => EmptyString
      | String c r => String c (remove_first pattern r)
      end
  end.

(** [req.originalUrl.replace(`/t/${tunnelId}`, '') || '/'] *)
Definition rawPath (tunnelId : string) (req : HttpReq) : string :=
  match remove_first (base_of tunnelId) (originalUrl req) with
  | EmptyString => "/"
  | p => p
  end.

(** The [request] message; [host: undefined] is a property [JSON.stringify]
    leaves out. *)
Definition request_message (c : Suspended) (chunks : list string) : json :=
  JObj [("type", JStr "request");
        ("reqId", JStr (su_reqId c));
        ("method", JStr (method (su_req c)));
        ("path", JStr (rawPath (su_tunnelId c) (su_req c)));
        ("headers",
          JObj (List.filter (fun kv => negb (String.eqb (fst kv) "host"))
                  (req_headers (su_req c))));
        ("body", encode_body chunks)].

Definition DEADLINE : Z := 30000.

(** The callback of the deadline timer. *)
Definition on_timeout (tm : Timer) : M unit :=
  s ← get;
  if pending_has s (tm_tunnel tm) (tm_reqId tm) then
    on_pending (tm_tunnel tm) (delete (tm_reqId tm));;
    res_status (tm_res tm) (JNum 504);;
    res_send (tm_res tm) "Gateway Timeout"
  else ret tt.

(** The rest of the tunnel request handler, resumed when its [end] listener
    fires with the [chunks] its [data] listener has collected.  [tunnel] is
    the object bound before the [await], whatever the registry holds by now.
    Whether the listener fires is the business of the trace: it does not for
    a body that [express.json()] has read before the handler ran, and the
    handler then stays suspended. *)
Definition tunnel_request_resume (res : ResId) (chunks : list string)
    (sendThrows : bool) : M unit :=
  s ← get;
  match suspended s !! res with
  | None => ret tt
  | Some c =>
      modify (with_suspended (delete res));;
      match heap s !! su_tunnel c with
      | None => ret tt
      | Some tunnel =>
          let k := su_tunnel c in
          let reqId := su_reqId c in
          let message := JSON_stringify (request_message c chunks) in
          on_pending k <[reqId := mkPending res (su_tunnelId c) None]>;;
          timeout ← setTimeout (mkTimer k reqId res DEADLINE);
          on_pending k
            (alter (fun p => mkPending (p_res p) (p_tunnelId p) (Some timeout)) reqId);;
          try_catch
            (ws_send (t_ws tunnel) message sendThrows)
            (fun _ =>
               clearTimeout (Some timeout);;
               on_pending k (delete reqId);;
               res_status res (JNum 502);;
               res_send res "Failed to forward request to tunnel client.")
      end
  end.

(** *** WebSocket server *)

Definition skipHeaders : list string :=
  ["transfer-encoding"; "connection"; "keep-alive"; "content-length"].

Definition skipped (key : string) : bool :=
  existsb (String.eqb (toLowerCase key)) skipHeaders.

(** The callback of [Object.entries(headers || {}).forEach]. *)
Definition header_step (res : ResId) (kv : string * json) : M unit :=
  if negb (skipped (fst kv)) then
    try_catch (res_setHeader res (fst kv) (snd kv)) (fun _ => ret tt)
  else ret tt.

(** The [response] branch after the pending request has been claimed: the
    response is written to the exchange [res].  [buf.toString('utf8')] is
    taken on a buffer that holds well-formed UTF-8, so the string has the
    bytes of the buffer and [Buffer.byteLength] is its length.  For other
    bytes Node decodes to U+FFFD, which is not followed here; the statements
    about the rewritten body take [Premises.valid_utf8]. *)
Definition deliver (tunnelId : string) (res : ResId)
    (status hdrs body : jsval) : M unit :=
  for_each (header_step res) (Js.entries (Js.or_else hdrs (JObj [])));;
  contentType ← lift (Js.call_toLowerCase
                        (Js.or_else (Js.opt_prop hdrs "content-type") (JStr "")));
  let isHtml := includes "text/html" contentType in
  res_status res (Js.or_else status (JNum 200));;
  if Js.truthy body then
    buf ← lift (Buffer_from (Js.or_else body JNull));
    if isHtml then
      let rewritten := rewriteHtml buf tunnelId in
      res_setHeader res "content-length" (JNum (Z.of_nat (String.length rewritten)));;
      res_send res rewritten
    else res_send res buf
  else res_end res.

(** [ws.on('message')] of the connection made for [tunnelId]. *)
Definition on_message (tunnelId : string) (data : string) : M unit :=
  try_catch
    (match JSON_parse data with
     | None => throw "SyntaxError: Unexpected token in JSON"
     | Some msg =>
         type ← lift (Js.prop (Some msg) "type");
         if Js.is_string type "response" then
           let reqId := Js.opt_prop (Some msg) "reqId" in
           let status := Js.opt_prop (Some msg) "status" in
           let hdrs := Js.opt_prop (Some msg) "headers" in
           let body := Js.opt_prop (Some msg) "body" in
           s ← get;
           match lookup_tunnel s tunnelId with
           | None => ret tt
           | Some (k, tunnel) =>
               match pending_get tunnel reqId with
               | None => ret tt
               | Some (r, pending) =>
                   clearTimeout (p_timeout pending);;
                   on_pending k (delete r);;
                   deliver tunnelId (p_res pending) status hdrs body
               end
           end
         else ret tt
     end)
    (fun err => console_error ("WS message error: " ++ err)).

(** The callback of [tunnel.pendingRequests.forEach] in the close handler. *)
Definition sweep_step (kp : string * Pending) : M unit :=
  clearTimeout (p_timeout (snd kp));;
  try_catch
    (res_status (p_res (snd kp)) (JNum 503);;
     res_send (p_res (snd kp)) "Tunnel disconnected.")
    (fun _ => ret tt).

(** [ws.on('close')] of the connection made for [tunnelId]. *)
Definition on_close (tunnelId : string) : M unit :=
  s ← get;
  match lookup_tunnel s tunnelId with
  | Some (_, tunnel) =>
      for_each sweep_step (map_to_list (pendingRequests tunnel));;
      modify (with_tunnels (delete tunnelId))
  | None => ret tt
  end.

(** [wss.on('connection')]; [tunnelId] is [url.searchParams.get('tunnelId')]. *)
Definition on_connection (ws : WsId) (tunnelId : option string) : M unit :=
  match tunnelId with
  | Some tid =>
      if String.eqb tid "" then modify (with_sockets <[ws := CLOSING]>)
      else
        s ← get;
        let k := next_ref s in
        modify (with_next_ref (S k));;
        modify (with_heap <[k := mkTunnel ws ∅]>);;
        modify (with_tunnels <[tid := k]>);;
        ws_send ws (JSON_stringify (JObj [("type", JStr "connected"); ("tunnelId", JStr tid)])) false;;
        modify (with_handlers <[ws := tid]>)
  | None => modify (with_sockets <[ws := CLOSING]>)
  end.

(** *** The event loop *)

Inductive event :=
| Connection (ws : WsId) (tunnelId : option string)
| SocketState (ws : WsId) (rs : ReadyState)
| Message (ws : WsId) (data : string)
| Close (ws : WsId)
| TunnelRequest (res : ResId) (tunnelId : string) (req : HttpReq) (reqId : string)
| BodyEnd (res : ResId) (chunks : list string) (sendThrows : bool)
| TimerFires (t : TimerId).

(** One turn of the event loop, for the events that reach the tunnel
    registry and the correlator.  A socket event reaches the handlers that
    [on_connection] registered for it, a timer fires if it is still armed.
    The REST endpoints only read the registry and answer on their own
    exchange; [api_status] above is the one the properties below speak of. *)
Definition step (e : event) : M unit :=
  match e with
  | Connection ws tunnelId =>
      modify (with_sockets <[ws := OPEN]>);; on_connection ws tunnelId
  | SocketState ws rs => modify (with_sockets <[ws := rs]>)
  | Message ws data =>
      s ← get;
      match handlers s !! ws with
      | Some tunnelId => on_message tunnelId data
      | None => ret tt
      end
  | Close ws =>
      modify (with_sockets <[ws := CLOSED]>);;
      s ← get;
      match handlers s !! ws with
      | Some tunnelId => on_close tunnelId
      | None => ret tt
      end
  | TunnelRequest res tunnelId req reqId => tunnel_request res tunnelId req reqId
  | BodyEnd res chunks sendThrows => tunnel_request_resume res chunks sendThrows
  | TimerFires t =>
      s ← get;
      match timers s !! t with
      | Some tm => modify (with_timers (delete t));; on_timeout tm
      | None => ret tt
      end
  end.

(** The loop stops at the first exception no handler catches. *)
Fixpoint run (evs : list event) : M unit :=
  match evs with
  | [] => ret tt
  | e :: r => step e;; run r
  end.

End Handlers.

End Relay.

(** ** The client agent (client/index.js) *)

Module Client.

(** What [forwardToLocal] resolves with. *)
Record Response := mkResponse {
  status : json;
  headers : json;
  body : json
}.

(** The [options] of the request to the local service. *)
Record RequestOptions := mkOptions {
  o_hostname : string;
  o_port : json;
  o_path : string;
  o_method : json;
  o_headers : list (string * json)
}.

(** What the local service does with the request: the events of [proxyReq]
    and [proxyRes] that settle the promise, or an exception of [lib.request]
    itself.  A call that never settles has no outcome here: [forwardToLocal]
    sets no timeout, and its promise then stays pending. *)
Inductive LocalOutcome :=
| LocalResponse (statusCode : Z) (hdrs : list (string * json)) (chunks : list string)
| LocalResponseError
| LocalRequestError (message : string)
| LocalThrows (err : string).

(** [isHttps], the options and the body written give the outcome. *)
Definition LocalService := bool -> RequestOptions -> option string -> LocalOutcome.

Record State := mkState {
  reconnectDelay : Q;
  shouldReconnect : bool;
  (** the delays of the calls [setTimeout(connect, reconnectDelay)], oldest first *)
  reconnects : list Q;
  (** the messages passed to [ws.send], oldest first *)
  sent : list string;
  (** the type of each [log] line, oldest first *)
  logged : list string
}.

(** [let reconnectDelay = 2000; let shouldReconnect = true;] *)
Definition initial : State := mkState 2000 true [] [] [].

Definition log (type : string) (s : State) : State :=
  mkState (reconnectDelay s) (shouldReconnect s) (reconnects s) (sent s)
    (logged s ++ [type])%list.

Definition ws_send (data : string) (s : State) : State :=
  mkState (reconnectDelay s) (shouldReconnect s) (reconnects s)
    (sent s ++ [data])%list (logged s).

Definition hop_by_hop : list string :=
  ["connection"; "transfer-encoding"; "upgrade"; "keep-alive"].

(** [{ ...headers, host: value }] *)
Fixpoint set_field (k : string) (v : json) (l : list (string * json)) : list (string * json) :=
  match l with
  | [] => [(k, v)]
  | (k', v') :: r => if String.eqb k k' then (k, v) :: r else (k', v') :: set_field k v r
  end.

Section Agent.
Context `{Runtime}.
Variable localUrl : string.

(** [forwardToLocal]: what the promise resolves with, or the exception it is
    rejected with. *)
Definition forwardToLocal (local : LocalService) (reqData : json) (s : State)
    : outcome Response * State :=
  let method := Js.opt_prop (Some reqData) "method" in
  let path := Js.opt_prop (Some reqData) "path" in
  let hdrs := Js.opt_prop (Some reqData) "headers" in
  let body := Js.opt_prop (Some reqData) "body" in
  let targetUrl := localUrl ++ Js.to_string (Js.or_else path (JStr "/")) in
  match URL_parse targetUrl with
  | None => (Returned (mkResponse (JNum 400) (JObj []) JNull), s)
  | Some parsedUrl =>
      let isHttps := String.eqb (protocol parsedUrl) "https:" in
      let options :=
        mkOptions (hostname parsedUrl)
          (match port parsedUrl with
           | EmptyString => if isHttps then JNum 443 else JNum 80
           | p => JStr p
           end)
          (pathname parsedUrl ++ search parsedUrl)
          (Js.or_else method (JStr "GET"))
          (List.filter (fun kv => negb (existsb (String.eqb (fst kv)) hop_by_hop))
             (set_field "host" (JStr (host parsedUrl))
                (Js.entries (Js.or_else hdrs (JObj []))))) in
      let written :=
        if Js.truthy body then
          match Buffer_from (Js.or_else body JNull) with
          | Returned b => Returned (Some b)
          | Thrown e => Thrown e
          end
        else Returned None in
      match written with
      | Thrown e =>
          (* [lib.request] has been called by then: if it threw, that is the error *)
          match local isHttps options None with
          | LocalThrows e' => (Thrown e', s)
          | _ => (Thrown e, s)
          end
      | Returned w =>
          match local isHttps options w with
          | LocalResponse code hs chunks =>
              (Returned (mkResponse (JNum code) (JObj hs) (encode_body chunks)), s)
          | LocalResponseError =>
              (Returned (mkResponse (JNum 502) (JObj []) JNull), s)
          | LocalRequestError message =>
              (Returned
                 (mkResponse (JNum 502)
                    (JObj [("content-type", JStr "text/plain")])
                    (JStr (Base64.encode ("Local server error: " ++ message)))),
               log "err" s)
          | LocalThrows e => (Thrown e, s)
          end
      end
  end.

(** The [response] message for a resolved forward. *)
Definition response_message (reqId : jsval) (r : Response) : json :=
  Js.object [("type", Some (JStr "response"));
             ("reqId", reqId);
             ("status", Some (status r));
             ("headers", Some (headers r));
             ("body", Some (body r))].

(** [ws.on('message')]: an [async] function, so [Thrown] is a rejected
    promise.  The forward is awaited; [local] is what the local service
    answers meanwhile.  The two log lines are kept as their tags: the ToString
    of a [method] or [path] that is an object can throw and is not followed.
    [ws.send] is recorded as the message handed to it, on whichever socket
    the variable [ws] names by then; that it may throw is not followed. *)
Definition on_message (local : LocalService) (data : string) (s : State)
    : outcome unit * State :=
  match JSON_parse data with
  | None => (Returned tt, s)
  | Some msg =>
      match Js.prop (Some msg) "type" with
      | Thrown e => (Thrown e, s)
      | Returned type =>
          if Js.is_string type "connected" then (Returned tt, s)
          else if Js.is_string type "request" then
            let reqId := Js.opt_prop (Some msg) "reqId" in
            match forwardToLocal local msg (log "req" s) with
            | (Thrown e, s') => (Thrown e, s')
            | (Returned response, s') =>
                (Returned tt,
                 ws_send (JSON_stringify (response_message reqId response)) (log "ok" s'))
            end
          else (Returned tt, s)
      end
  end.

End Agent.

(** The [response] message for the request [reqId] when the local service
    answers with status [code], headers [hs] and the body [chunks]. *)
Definition reply_to (reqId : string) (code : Z) (hs : list (string * json))
    (chunks : list string) : json :=
  response_message (Some (JStr reqId)) (mkResponse (JNum code) (JObj hs) (encode_body chunks)).

(** [ws.on('open')] *)
Definition on_open (s : State) : State :=
  log "info" (mkState 2000 (shouldReconnect s) (reconnects s) (sent s) (logged s)).

(** [ws.on('close')] *)
Definition on_close (s : State) : State :=
  let s := log "err" s in
  if shouldReconnect s then
    let s := log "info" s in
    mkState (Qmin (reconnectDelay s * 1.5) 15000) (shouldReconnect s)
      (reconnects s ++ [reconnectDelay s])%list (sent s) (logged s)
  else s.

(** [n] connection attempts in a row that all end in [close]. *)
Fixpoint fail_times (n : nat) (s : State) : State :=
  match n with
  | O => s
  | S k => fail_times k (on_close s)
  end.

End Client.

(** ** The correlation invariant, stated

    What the properties of the correlator are stated with: the count of
    responses written to an exchange, the part of the state the invariant
    reads, and the invariant itself. *)

Module Correlation.
Import Relay.

(** The state after [res.status(code).send(body)]. *)
Definition answer (res : ResId) (code : Z) (body : string) (s : Server) : Server :=
  with_http_out
    (fun o => (o ++ [(res, mkHttpResponse (JNum code) (headers (exchange_of s res)) body)])%list)
    (with_exchanges <[res := mkExchange (JNum code) (headers (exchange_of s res))]> s).

(** How many times [res] occurs in a list of written exchanges. *)
Definition hits (res : ResId) (l : list ResId) : nat := count_occ Nat.eq_dec l res.

(** Some armed timer is the deadline of [res]. *)
Definition armed_in (tms : gmap TimerId Timer) (res : ResId) : Prop :=
  exists t tm, tms !! t = Some tm /\ tm_res tm = res.

(** No pending request of any tunnel object is filed under [r]. *)
Definition unused_in (hp : gmap TunnelRef Tunnel) (r : string) : Prop :=
  forall k tun, hp !! k = Some tun -> pendingRequests tun !! r = None.

(** The part of the state the correlation invariant reads. *)
Record Core := mkCore {
  c_tunnels : gmap string TunnelRef;
  c_heap : gmap TunnelRef Tunnel;
  c_next_ref : TunnelRef;
  c_timers : gmap TimerId Timer;
  c_next_timer : TimerId;
  c_suspended : gmap ResId Suspended;
  c_written : list ResId
}.

(** The correlation invariant.  [fres] and [freq] are the exchanges and the
    correlation ids of the requests still to arrive. *)
Record InvC (c : Core) (fres : list ResId) (freq : list string) : Prop := {
  i_timer : forall t tm, c_timers c !! t = Some tm ->
    t < c_next_timer c /\ tm_delay tm = DEADLINE /\
    exists tun tid,
      c_heap c !! tm_tunnel tm = Some tun /\
      pendingRequests tun !! tm_reqId tm = Some (mkPending (tm_res tm) tid (Some t)) /\
      hits (tm_res tm) (c_written c) = 0;
  i_timer_inj : forall t t' tm tm',
    c_timers c !! t = Some tm -> c_timers c !! t' = Some tm' ->
    tm_res tm = tm_res tm' -> t = t';
  i_reg : forall tid k tun r p,
    c_tunnels c !! tid = Some k -> c_heap c !! k = Some tun ->
    pendingRequests tun !! r = Some p ->
    exists t, p_timeout p = Some t /\ c_timers c !! t = Some (mkTimer k r (p_res p) DEADLINE);
  i_reg_inj : forall tid tid' k,
    c_tunnels c !! tid = Some k -> c_tunnels c !! tid' = Some k -> tid = tid';
  i_reg_lt : forall tid k, c_tunnels c !! tid = Some k -> k < c_next_ref c;
  i_heap_lt : forall k tun, c_heap c !! k = Some tun -> k < c_next_ref c;
  i_susp : forall res su, c_suspended c !! res = Some su ->
    is_Some (c_heap c !! su_tunnel su) /\ hits res (c_written c) = 0 /\
    ~ armed_in (c_timers c) res /\ unused_in (c_heap c) (su_reqId su) /\
    (res ∉ fres) /\ (su_reqId su ∉ freq);
  i_susp_inj : forall res res' su su',
    c_suspended c !! res = Some su -> c_suspended c !! res' = Some su' ->
    su_reqId su = su_reqId su' -> res = res';
  i_fres : forall res, res ∈ fres ->
    hits res (c_written c) = 0 /\ ~ armed_in (c_timers c) res /\ c_suspended c !! res = None;
  i_freq : forall r, r ∈ freq -> unused_in (c_heap c) r;
  i_nodup_res : NoDup fres;
  i_nodup_req : NoDup freq;
  i_once : forall res, hits res (c_written c) <= 1
}.

(** A dispatched request is settled, with one response written, or in flight
    with its deadline armed. *)
Definition settled_or_armed (c : Core) (res : ResId) : Prop :=
  hits res (c_written c) = 1 \/ armed_in (c_timers c) res.

(** The timers left when the deadline of every entry of [l] has been cleared. *)
Definition clear_all (l : list (string * Pending)) (tms : gmap TimerId Timer)
    : gmap TimerId Timer :=
  foldl (fun m kp => match p_timeout (snd kp) with Some t => delete t m | None => m end) tms l.

(** The exchanges of the entries of [l]. *)
Definition exchanges_of (l : list (string * Pending)) : list ResId :=
  List.map (fun kp => p_res (snd kp)) l.

Definition core (s : Server) : Core :=
  mkCore (tunnels s) (heap s) (next_ref s) (timers s) (next_timer s) (suspended s)
    ((http_out s).*1).

(** A [response] message typed as the protocol has it: a three-digit status
    (or none), headers whose [content-type], if any, is a string, and a body
    that is absent, [null] or a string. *)
Definition well_typed_response (status hdrs body : jsval) : bool :=
  match status with
  | None => true
  | Some (JNum n) => (100 <=? n)%Z && (n <=? 999)%Z
  | _ => false
  end &&
  match Js.opt_prop hdrs "content-type" with
  | None | Some (JStr _) => true
  | _ => false
  end &&
  Js.is_payload body.

(** The messages of a trace are typed as the protocol has them: whatever
    parses as a [response] is well typed. *)
Definition conforming `{Runtime} (data : string) : bool :=
  match JSON_parse data with
  | Some msg =>
      match Js.prop (Some msg) "type" with
      | Returned type =>
          if Js.is_string type "response" then
            well_typed_response (Js.opt_prop (Some msg) "status")
              (Js.opt_prop (Some msg) "headers") (Js.opt_prop (Some msg) "body")
          else true
      | Thrown _ => true
      end
  | None => true
  end.

(** The core after an armed request has been claimed. *)
Definition claimed (c : Core) (k : TunnelRef) (r : string) (t : option TimerId)
    (w : list ResId) : Core :=
  mkCore (c_tunnels c)
    (alter (fun tun => mkTunnel (t_ws tun) (delete r (pendingRequests tun))) k (c_heap c))
    (c_next_ref c)
    (match t with Some t => delete t (c_timers c) | None => c_timers c end)
    (c_next_timer c) (c_suspended c) (c_written c ++ w).

(** The exchanges of the tunnel requests of a trace, in order. *)
Fixpoint future_res (evs : list event) : list ResId :=
  match evs with
  | [] => []
  | TunnelRequest res _ _ _ :: r => res :: future_res r
  | _ :: r => future_res r
  end.

(** The correlation ids drawn for the tunnel requests of a trace, in order. *)
Fixpoint future_req (evs : list event) : list string :=
  match evs with
  | [] => []
  | TunnelRequest _ _ _ reqId :: r => reqId :: future_req r
  | _ :: r => future_req r
  end.

Definition conforming_event `{Runtime} (e : event) : bool :=
  match e with
  | Message _ data => conforming data
  | _ => true
  end.

(** How many responses have been written to the exchange [res]. *)
Definition writes (res : ResId) (s : Server) : nat := hits res ((http_out s).*1).

(** [res] was dispatched in the course of [evs], run from [s]: at some point
    the body of its request had arrived while its handler was suspended, so
    the handler went on to file the pending request and send the message. *)
Definition dispatched_from `{Runtime} (s : Server) (evs : list event) (res : ResId) : Prop :=
  exists evs1 chunks b evs2 s1,
    evs = (evs1 ++ BodyEnd res chunks b :: evs2)%list /\
    run evs1 s = (Returned tt, s1) /\
    is_Some (suspended s1 !! res).

(** The request of [res] is in flight: not answered, and the firing of its
    armed deadline timer answers it. *)
Definition in_flight `{Runtime} (s : Server) (res : ResId) : Prop :=
  writes res s = 0 /\
  exists t tm s',
    timers s !! t = Some tm /\ tm_res tm = res /\ tm_delay tm = DEADLINE /\
    step (TimerFires t) s = (Returned tt, s') /\
    http_out s' =
      (http_out s ++
        [(res, mkHttpResponse (JNum 504) (headers (exchange_of s res)) "Gateway Timeout")])%list.

(** The headers of a response say nothing of HTML: the relay's own test,
    [(headers?.['content-type'] || '').toLowerCase().includes('text/html')],
    is false and does not throw. *)
Definition not_html (hs : list (string * json)) : bool :=
  match Js.assoc "content-type" hs with
  | None => true
  | Some (JStr ct) => negb (includes "text/html" (toLowerCase ct))
  | Some _ => false
  end.

End Correlation.

(** ** The client's command line (client/index.js, lines 20 to 27 and 138) *)

Module Cli.

(** [s.replace(/\/$/, '')]: without the [m] flag the anchor is the end of the
    input, so the one slash that ends the input goes, if there is one. *)
Fixpoint strip_trailing_slash (s : string) : string :=
  match s with
  | EmptyString => EmptyString
  | String c r =>
      match r with
      | EmptyString => if Ascii.eqb c "/" then EmptyString else s
      | String _ _ => String c (strip_trailing_slash r)
      end
  end.

(** [s.replace(/^http/, 'ws')] *)
Definition http_to_ws (s : string) : string :=
  match strip "http" s with
  | Some r => "ws" ++ r
  | None => s
  end.

(** [s.replace(/^ws/, 'http')] *)
Definition ws_to_http (s : string) : string :=
  match strip "ws" s with
  | Some r => "http" ++ r
  | None => s
  end.

(** [a || b] on strings that may be missing. *)
Definition or_string (a : option string) (b : string) : string :=
  match a with
  | Some x => if String.eqb x "" then b else x
  | None => b
  end.

(** [const localUrl = args[0].replace(/\/$/, '')] *)
Definition localUrl (arg0 : string) : string := strip_trailing_slash arg0.

(** [args[2] || process.env.ROOTLINK_SERVER || 'ws://localhost:3001'] *)
Definition serverUrl (arg2 env : option string) : string :=
  or_string arg2 (or_string env "ws://localhost:3001").

(** [serverUrl.replace(/^http/, 'ws').replace(/\/$/, '')] *)
Definition wsBase (serverUrl : string) : string :=
  strip_trailing_slash (http_to_ws serverUrl).

(** [`${wsBase}/ws/client?tunnelId=${tunnelId}`] *)
Definition wsUrl (serverUrl tunnelId : string) : string :=
  wsBase serverUrl ++ "/ws/client?tunnelId=" ++ tunnelId.

(** [wsBase.replace(/^ws/, 'http')] *)
Definition httpBase (serverUrl : string) : string := ws_to_http (wsBase serverUrl).

(** The public address the client prints: [`${httpBase}/t/${tunnelId}/`]. *)
Definition publicUrl (serverUrl tunnelId : string) : string :=
  httpBase serverUrl ++ "/t/" ++ tunnelId ++ "/".

End Cli.

(** ** What the web page shows (frontend/src/App.jsx, lines 50 to 52) *)

Module Frontend.

(** [SERVER_URL.replace(/^http/, 'ws')] *)
Definition wsBase (SERVER_URL : string) : string := Cli.http_to_ws SERVER_URL.

(** [`${SERVER_URL}/t/${tunnelId}/`] *)
Definition publicUrl (SERVER_URL tunnelId : string) : string :=
  SERVER_URL ++ "/t/" ++ tunnelId ++ "/".

(** The command the page tells the user to run:
    [`node client/index.js ${trimmed} ${tunnelId} ${wsBase}`]. *)
Definition cliCommand (SERVER_URL trimmed tunnelId : string) : string :=
  "node client/index.js " ++ trimmed ++ " " ++ tunnelId ++ " " ++ wsBase SERVER_URL.

End Frontend.

(** ** The connection events of the client (client/index.js, lines 116 to 176) *)

Module Session.

Inductive event := Open | Closed.

Definition step (e : event) (s : Client.State) : Client.State :=
  match e with
  | Open => Client.on_open s
  | Closed => Client.on_close s
  end.

(** The events of a session, oldest first. *)
Definition run (evs : list event) (s : Client.State) : Client.State :=
  foldl (fun s e => step e s) s evs.

(** A delay between the floor and the cap of the back-off. *)
Definition in_range (d : Q) : Prop := (2000 <= d)%Q /\ (d <= 15000)%Q.

Definition closes (evs : list event) : nat :=
  List.length (List.filter (fun e => match e with Closed => true | Open => false end) evs).

End Session.

(** ** The REST endpoints beside the status endpoint (server/index.js, lines 29 to 36) *)

Module Api.
Import Relay.

Section Api.
Context `{Runtime}.

(** [app.get('/health')]: [tunnels.size] is the number of registered ids. *)
Definition api_health (res : ResId) : M unit :=
  s ← get;
  res_json res
    (JObj [("status", JStr "ok"); ("tunnels", JNum (Z.of_nat (size (tunnels s))))]).

(** [app.get('/api/new')]; [uuid] is the value [uuidv4()] returns, and
    [slice(0, 8)] its first eight characters. *)
Definition api_new (res : ResId) (uuid : string) : M unit :=
  res_json res (JObj [("tunnelId", JStr (take 8 uuid))]).

End Api.

End Api.

(** ** What the relay forwards and what it holds back *)

Module Forwarding.
Import Relay.

Section Forwarding.
Context `{Runtime}.

(** A header of a [response] message that reaches the public response: its
    name is not in [skipHeaders] and [res.setHeader] accepts it. *)
Definition forwarded (kv : string * json) : bool :=
  negb (skipped (fst kv)) && setHeader_ok (fst kv) (snd kv).

End Forwarding.

(** A header of the tunnelled request that reaches the local service: every
    one but [host] and the four the client deletes. *)
Definition passed_on (kv : string * json) : bool :=
  negb (String.eqb (fst kv) "host") &&
  negb (existsb (String.eqb (fst kv)) Client.hop_by_hop).

(** The headers the local service receives for the headers [hs] of the public
    request, when the local target is [host]. *)
Definition local_headers (hs : list (string * json)) (host : string) : list (string * json) :=
  (List.filter passed_on hs ++ [("host", JStr host)])%list.

(** The bytes written to the local request for the body [chunks] of the
    public request: nothing at all for an empty body. *)
Definition local_body (chunks : list string) : option string :=
  if String.eqb (String.concat "" chunks) "" then None
  else Some (String.concat "" chunks).

End Forwarding.

(** ** A runtime to run the model on

    A stand-in for Node with a printer for [JSON.stringify], a parser that
    knows the messages of a given list, the acceptance rules spelled out for
    numbers, and one local URL. *)

Module Demo.

Fixpoint print (v : json) : string :=
  match v with
  | JNull => "null"
  | JBool true => "true"
  | JBool false => "false"
  | JNum n => DecimalString.NilZero.string_of_int (Z.to_int n)
  | JStr s => "'" ++ s ++ "'"
  | JArr items =>
      "[" ++
      (fix go (l : list json) : string :=
         match l with
         | [] => ""
         | x :: r => print x ++ "," ++ go r
         end) items ++ "]"
  | JObj fields =>
      "{" ++
      (fix go (l : list (string * json)) : string :=
         match l with
         | [] => ""
         | (k, x) :: r => k ++ ":" ++ print x ++ "," ++ go r
         end) fields ++ "}"
  end.

Definition parse (known : list json) (data : string) : option json :=
  List.find (fun v => String.eqb (print v) data) known.

Definition url (s : string) : option ParsedUrl :=
  match strip "http://localhost:4444" s with
  | Some path =>
      if startsWith "/" path
      then Some (mkParsedUrl "http:" "localhost" "4444" "localhost:4444" path "")
      else None
  | None => None
  end.

Definition three_digits (v : json) : bool :=
  match v with
  | JNum n => (100 <=? n)%Z && (n <=? 999)%Z
  | _ => false
  end.

Definition runtime (known : list json) : Runtime :=
  {| URL_parse := url;
     JSON_parse := parse known;
     JSON_stringify := print;
     setHeader_ok := fun _ _ => true;
     status_ok := three_digits;
     Buffer_from_other := fun _ => None;
     status_ok_number := fun n Hn =>
       andb_true_intro
         (conj (proj2 (Z.leb_le 100 n) (proj1 Hn)) (proj2 (Z.leb_le n 999) (proj2 Hn)));
     content_length_ok := fun _ => eq_refl |}.

(** A public [GET /t/abc/hello]. *)
Definition get_hello : Relay.HttpReq :=
  Relay.mkHttpReq "GET" "/t/abc/hello"
    [("host", JStr "relay.example"); ("accept", JStr "*/*")].

(** A client connects for tunnel [abc]; a request arrives on exchange 1, draws
    the correlation id [r1], and is dispatched. *)
Definition one_request : list Relay.event :=
  [Relay.Connection 0 (Some "abc");
   Relay.TunnelRequest 1 "abc" get_hello "r1";
   Relay.BodyEnd 1 [] false].

Definition plain_response : json :=
  Client.reply_to "r1" 200 [("content-type", JStr "text/plain")] ["hello from local!"].

Definition html_response : json :=
  Client.reply_to "r1" 200 [("content-type", JStr "text/html; charset=utf-8")] ["<head>"].

(** The [request] message the client receives for [one_request]. *)
Definition hello_request : json :=
  JObj [("type", JStr "request"); ("reqId", JStr "r1"); ("method", JStr "GET");
        ("path", JStr "/hello"); ("headers", JObj [("accept", JStr "*/*")]);
        ("body", JNull)].

(** A second client connects for the same tunnel id while the first is
    still there, a request is dispatched on the new connection, and then the
    first connection closes. *)
Definition superseded : list Relay.event :=
  one_request ++
  [Relay.Connection 1 (Some "abc");
   Relay.TunnelRequest 2 "abc" get_hello "r2";
   Relay.BodyEnd 2 [] false;
   Relay.Close 0].

(** A [response] for [r1] whose content type is the number 5: it parses, it
    matches the pending request, and it is not shaped as the protocol has it. *)
Definition ill_typed_response : json :=
  JObj [("type", JStr "response"); ("reqId", JStr "r1"); ("status", JNum 200);
        ("headers", JObj [("content-type", JNum 5)]); ("body", JNull)].

(** The runtime that knows the three messages above. *)
Definition node : Runtime := runtime [plain_response; html_response; hello_request].

(** The local service is down. *)
Definition refused : Client.LocalService :=
  fun _ _ _ => Client.LocalRequestError "connect ECONNREFUSED 127.0.0.1:4444".

End Demo.

(** ** What the surroundings of the handlers let through *)

Module Premises.

(** A request that the middleware of server/index.js, lines 12 and 13, hands
    to the tunnel handler with its body unread: it is no [OPTIONS] request,
    which [cors] answers itself, and its content type does not say JSON, so
    that [express.json()] leaves the stream alone.  (The test is on the safe
    side: [express.json()] reads the body only when the media type is
    [application/json] and the request has a body.) *)
Definition passes_middleware (req : Relay.HttpReq) : bool :=
  negb (String.eqb (toLowerCase (Relay.method req)) "options") &&
  match Js.assoc "content-type" (Relay.req_headers req) with
  | None => true
  | Some (JStr ct) => negb (includes "application/json" (toLowerCase ct))
  | Some _ => false
  end.

(** A field that is absent or a string. *)
Definition is_text (v : jsval) : bool :=
  match v with
  | None | Some (JStr _) => true
  | Some _ => false
  end.

Definition continuation (n : nat) : bool := (128 <=? n)%nat && (n <=? 191)%nat.

(** Well-formed UTF-8: the byte sequences that [buf.toString('utf8')]
    decodes without putting U+FFFD in place of anything, so that the bytes
    of the decoded text are the bytes of the buffer. *)
Fixpoint valid_utf8 (s : string) : bool :=
  match s with
  | EmptyString => true
  | String a r =>
      let x := code a in
      if (x <=? 127)%nat then valid_utf8 r
      else
        match r with
        | EmptyString => false
        | String b r1 =>
            let y := code b in
            if (194 <=? x)%nat && (x <=? 223)%nat then continuation y && valid_utf8 r1
            else
              match r1 with
              | EmptyString => false
              | String c r2 =>
                  let z := code c in
                  if (x =? 224)%nat then
                    (160 <=? y)%nat && (y <=? 191)%nat && continuation z && valid_utf8 r2
                  else if ((225 <=? x)%nat && (x <=? 236)%nat) || (x =? 238)%nat || (x =? 239)%nat then
                    continuation y && continuation z && valid_utf8 r2
                  else if (x =? 237)%nat then
                    (128 <=? y)%nat && (y <=? 159)%nat && continuation z && valid_utf8 r2
                  else
                    match r2 with
                    | EmptyString => false
                    | String d r3 =>
                        let w := code d in
                        if (x =? 240)%nat then
                          (144 <=? y)%nat && (y <=? 191)%nat && continuation z &&
                          continuation w && valid_utf8 r3
                        else if (241 <=? x)%nat && (x <=? 243)%nat then
                          continuation y && continuation z && continuation w && valid_utf8 r3
                        else if (x =? 244)%nat then
                          (128 <=? y)%nat && (y <=? 143)%nat && continuation z &&
                          continuation w && valid_utf8 r3
                        else false
                    end
              end
        end
  end.

End Premises.

(** ** The registry, well formed *)

Module Registry.
Import Relay.

(** The empty id is not registered, and every registered id leads to a
    tunnel object. *)
Definition well_formed (s : Server) : Prop :=
  tunnels s !! "" = None /\
  forall tunnelId k, tunnels s !! tunnelId = Some k -> is_Some (heap s !! k).

End Registry.

(** ** More messages to run the model on *)

Module Examples.

(** A local response with headers the relay holds back. *)
Definition chatty_response : json :=
  Client.reply_to "r1" 200
    [("content-type", JStr "text/plain"); ("Connection", JStr "close");
     ("x-powered-by", JStr "Express"); ("content-length", JStr "17")]
    ["hello from local!"].

(** A [response] that names the request and says nothing else. *)
Definition bare_response : json :=
  JObj [("type", JStr "response"); ("reqId", JStr "r1")].

Definition node : Runtime := Demo.runtime [chatty_response; bare_response].

(** A public [POST /t/abc/hello] on a kept-alive connection. *)
Definition post_hello : Relay.HttpReq :=
  Relay.mkHttpReq "POST" "/t/abc/hello"
    [("host", JStr "relay.example"); ("connection", JStr "keep-alive");
     ("accept", JStr "*/*")].

(** The test server of the repository, as the client sees it: every request
    is answered 200, [text/plain], "hello from local server!", with the
    connection headers Node adds. *)
Definition test_headers : list (string * json) :=
  [("content-type", JStr "text/plain"); ("connection", JStr "keep-alive");
   ("transfer-encoding", JStr "chunked")].

Definition test_server : Client.LocalService :=
  fun _ _ _ => Client.LocalResponse 200 test_headers ["hello from local server!"].

Definition test_response : json :=
  Client.reply_to "r1" 200 test_headers ["hello from local server!"].

(** A local service that answers 200 with the headers and the body it was
    sent. *)
Definition echo : Client.LocalService :=
  fun _ options written =>
    Client.LocalResponse 200 (Client.o_headers options)
      (match written with Some b => [b] | None => [] end).

(** The relay after [Demo.one_request]. *)
Definition waiting : Relay.Server := snd (@Relay.run node Demo.one_request Relay.initial).

End Examples.

(** * Properties *)

Ltac Zify.zify_post_hook ::= Z.to_euclidean_division_equations.

(** ** Strings *)

Lemma startsWith_app (n a b : string) : startsWith n a = true -> startsWith n (a ++ b) = true.
Proof.
  unfold startsWith. revert a. induction n as [|c n IH]; intros a; [reflexivity|].
  destruct a as [|d a]; simpl; [discriminate|].
  destruct (Ascii.eqb c d); [apply IH | discriminate].
Qed.

Lemma includes_app_l (n a b : string) : includes n a = true -> includes n (a ++ b) = true.
Proof.
  induction a as [|c a IH]; cbn [includes].
  - rewrite orb_false_r. intros Hs. destruct n; [|discriminate Hs].
    destruct b; reflexivity.
  - intros Hi. apply orb_prop in Hi as [Hs|Hi].
    + pose proof (startsWith_app n (String c a) b Hs) as Hs'.
      change (String c a ++ b) with (String c (a ++ b)) in *.
      cbn [includes]. rewrite Hs'. reflexivity.
    + change (String c a ++ b) with (String c (a ++ b)).
      cbn [includes]. rewrite (IH Hi). apply orb_true_r.
Qed.

Lemma includes_app_r (n a b : string) : includes n b = true -> includes n (a ++ b) = true.
Proof.
  intros Hb. induction a as [|c a IH]; [exact Hb|].
  change (String c a ++ b) with (String c (a ++ b)).
  cbn [includes]. rewrite IH. apply orb_true_r.
Qed.

(** ** The HTML rewriter *)

Module RewriterFacts.

Lemma no_match_tail m c r : no_match m (String c r) -> m (String c r) = None /\ no_match m r.
Proof.
  intros Hn. split; [apply (Hn 0)|]. intros n. apply (Hn (S n)).
Qed.

Lemma replace_from_no_match m tpl s : forall before,
  no_match m s -> replace_from m tpl 0 before s = s.
Proof.
  induction s as [|c r IH]; intros before Hn; [reflexivity|].
  apply no_match_tail in Hn as [H0 Hr].
  cbn [replace_from]. rewrite H0. f_equal. by apply IH.
Qed.

Lemma replace_all_no_match m tpl s : no_match m s -> replace_all m tpl s = s.
Proof. apply replace_from_no_match. Qed.

Lemma replace_first_no_match m tpl s : forall before,
  no_match m s -> replace_first_from m tpl before s = s.
Proof.
  induction s as [|c r IH]; intros before Hn.
  - pose proof (Hn 0) as H0. cbn in H0. cbn. by rewrite H0.
  - apply no_match_tail in Hn as [H0 Hr].
    cbn [replace_first_from]. rewrite H0. f_equal. by apply IH.
Qed.

Lemma dollar_free_app a b : dollar_free (a ++ b) = dollar_free a && dollar_free b.
Proof.
  induction a as [|c a IH]; [reflexivity|].
  change (String c a ++ b) with (String c (a ++ b)). cbn [dollar_free].
  rewrite IH. by rewrite andb_assoc.
Qed.

Lemma expand_literal caps matched before after lit :
  dollar_free lit = true -> expand caps matched before after lit = lit.
Proof.
  induction lit as [|c lit IH]; [reflexivity|]. cbn [dollar_free expand].
  intros Hd. apply andb_prop in Hd as [Hc Hl]. rewrite Hc. f_equal. by apply IH.
Qed.

Lemma expand_base_tag g matched before after tunnelId :
  dollar_free tunnelId = true ->
  expand [g] matched before after (base_tag_template tunnelId) = g ++ base_tag tunnelId.
Proof.
  intros Hd. unfold base_tag_template, base_tag, NL.
  change ("$1" ++ ?x) with (String "$" (String "1" x)).
  cbn [expand Ascii.eqb Bool.eqb negb is_digit between code nat_of_ascii].
  cbn. f_equal. apply expand_literal.
  unfold base_of, DQ. rewrite !dollar_free_app, Hd. reflexivity.
Qed.

(** Without root-relative references the two global replacements change
    nothing. *)
Lemma rewriteHtml_without_references html tunnelId :
  no_match match_attr html -> no_match match_url html ->
  rewriteHtml html tunnelId = replace_first match_head (base_tag_template tunnelId) html.
Proof.
  intros Ha Hu. unfold rewriteHtml. cbn zeta.
  rewrite (replace_all_no_match _ _ _ Ha), (replace_all_no_match _ _ _ Hu). reflexivity.
Qed.

Lemma match_head_shape s mt :
  match_head s = Some mt -> m_caps mt = [take (m_len mt) s].
Proof.
  unfold match_head. destruct (strip_ci "<head" s); [|discriminate].
  destruct (index_of ">" s0); [|discriminate]. by intros [= <-].
Qed.

Lemma take_drop_string n s : take n s ++ drop n s = s.
Proof.
  revert s. induction n as [|n IH]; intros [|c r]; try reflexivity.
  cbn [take drop]. change (String c (take n r) ++ drop n r) with (String c (take n r ++ drop n r)).
  by rewrite IH.
Qed.

Lemma append_assoc (a b c : string) : (a ++ b) ++ c = a ++ (b ++ c).
Proof.
  induction a as [|x a IH]; [reflexivity|].
  change ((String x a ++ b) ++ c) with (String x ((a ++ b) ++ c)). by rewrite IH.
Qed.

Lemma replace_first_head tunnelId : forall s before,
  dollar_free tunnelId = true ->
  replace_first_from match_head (base_tag_template tunnelId) before s
    = inject_after_head (base_tag tunnelId) s.
Proof.
  induction s as [|c r IH]; intros before Hd.
  - reflexivity.
  - cbn [replace_first_from inject_after_head].
    destruct (match_head (String c r)) as [mt|] eqn:E.
    + rewrite (match_head_shape _ _ E), (expand_base_tag _ _ _ _ _ Hd).
      by rewrite append_assoc.
    + f_equal. by apply IH.
Qed.

(** On an input without root-relative references, and for a tunnel id
    without [$], the output is the input with the [<base>] element put after
    the first [<head...>] tag. *)
Lemma rewriteHtml_only_injects html tunnelId :
  dollar_free tunnelId = true ->
  no_match match_attr html -> no_match match_url html ->
  rewriteHtml html tunnelId = inject_after_head (base_tag tunnelId) html.
Proof.
  intros Hd Ha Hu. rewrite (rewriteHtml_without_references _ _ Ha Hu).
  by apply replace_first_head.
Qed.

(** A reference that starts with two slashes is matched by neither
    pattern. *)
Lemma protocol_relative_is_no_match (rest : string) :
  match_url ("url(//" ++ rest) = None /\
  match_url ("url('//" ++ rest) = None /\
  match_attr ("src='//" ++ rest) = None /\
  match_attr ("href='//" ++ rest) = None /\
  match_attr ("action='//" ++ rest) = None /\
  match_attr ("content='//" ++ rest) = None.
Proof. repeat split. Qed.

(** C5, on the code.  The attribute pattern keeps the quote it matched, the
    [url(] pattern drops it: a quoted CSS reference to [/img.png] comes out
    as [url(/t/abc/img.png] followed by the closing quote alone, where
    prefixing the reference would have left the opening quote in place.  An
    unquoted reference gets the prefix and nothing else changes. *)
Lemma rewriteHtml_drops_url_quote :
  rewriteHtml ("<style>body{background:url(" ++ DQ ++ "/img.png" ++ DQ ++ ")}</style>") "abc"
    = "<style>body{background:url(/t/abc/img.png" ++ DQ ++ ")}</style>" /\
  rewriteHtml ("<img src=" ++ DQ ++ "/img.png" ++ DQ ++ ">") "abc"
    = "<img src=" ++ DQ ++ "/t/abc/img.png" ++ DQ ++ ">" /\
  rewriteHtml "<style>body{background:url(/img.png)}</style>" "abc"
    = "<style>body{background:url(/t/abc/img.png)}</style>".
Proof. repeat split. Qed.

End RewriterFacts.

(** ** Base64: decoding inverts encoding *)

Module Base64Facts.
Import Base64.

Lemma sextet_ok_all : forallb sextet_ok (List.map N.of_nat (seq 0 64)) = true.
Proof. vm_compute. reflexivity. Qed.

Lemma sextet_of_char_of_sextet (v : N) :
  (v < 64)%N ->
  sextet_of_char (char_of_sextet v) = Some v /\
  Ascii.eqb (char_of_sextet v) "=" = false.
Proof.
  intros Hv.
  pose proof sextet_ok_all as Hall.
  rewrite forallb_forall in Hall.
  assert (Hin : In v (List.map N.of_nat (seq 0 64))).
  { apply in_map_iff. exists (N.to_nat v). split; [apply N2Nat.id|].
    apply in_seq. lia. }
  specialize (Hall v Hin). unfold sextet_ok in Hall.
  destruct (sextet_of_char (char_of_sextet v)) as [w|]; [|discriminate].
  apply andb_prop in Hall as [Hw Hne].
  apply N.eqb_eq in Hw. subst w.
  split; [reflexivity|]. now apply negb_true_iff in Hne.
Qed.

Lemma sextets_cons (v : N) (s : string) :
  (v < 64)%N -> sextets (String (char_of_sextet v) s) = v :: sextets s.
Proof.
  intros Hv. destruct (sextet_of_char_of_sextet v Hv) as [Hs Hp].
  simpl. now rewrite Hp, Hs.
Qed.

Lemma byte_bound (a : ascii) : (N_of_ascii a < 256)%N.
Proof. apply N_ascii_bounded. Qed.

Lemma byte_of_N (a : ascii) (n : N) : n = N_of_ascii a -> byte_of n = a.
Proof. intros ->. apply ascii_N_embedding. Qed.

Lemma decode_encode_le (n : nat) :
  forall bytes : string, (String.length bytes <= n)%nat -> decode (encode bytes) = bytes.
Proof.
  induction n as [n IH] using lt_wf_ind.
  intros bytes Hlen. unfold decode in *.
  destruct bytes as [|a [|b [|c r]]].
  - reflexivity.
  - pose proof (byte_bound a).
    cbn [encode].
    rewrite !sextets_cons by lia.
    cbn [sextets Ascii.eqb Bool.eqb bytes_of_sextets]. simpl sextets.
    cbn [bytes_of_sextets]. f_equal. apply byte_of_N. lia.
  - pose proof (byte_bound a). pose proof (byte_bound b).
    cbn [encode].
    rewrite !sextets_cons by lia.
    simpl sextets. cbn [bytes_of_sextets].
    f_equal; [apply byte_of_N; lia|].
    f_equal. apply byte_of_N. lia.
  - pose proof (byte_bound a). pose proof (byte_bound b). pose proof (byte_bound c).
    cbn [encode].
    rewrite !sextets_cons by lia.
    cbn [bytes_of_sextets].
    cbn [String.length] in Hlen.
    rewrite (IH (String.length r)) by lia.
    f_equal; [apply byte_of_N; lia|].
    f_equal; [apply byte_of_N; lia|].
    f_equal. apply byte_of_N. lia.
Qed.

(** [Buffer.from(buf.toString('base64'), 'base64')] holds the bytes of [buf]. *)
Lemma decode_encode (bytes : string) : decode (encode bytes) = bytes.
Proof. apply (decode_encode_le (String.length bytes)). lia. Qed.

(** The encoding of a non-empty buffer is a non-empty string. *)
Lemma encode_nonempty (bytes : string) : bytes <> "" -> encode bytes <> "".
Proof.
  destruct bytes as [|a [|b [|c r]]]; [congruence| | |]; intros _; discriminate.
Qed.

End Base64Facts.

(** ** The client's reconnect back-off *)

Module ClientFacts.
Import Client.

Lemma on_close_shouldReconnect s : shouldReconnect (on_close s) = shouldReconnect s.
Proof. unfold on_close, log. simpl. destruct (shouldReconnect s); reflexivity. Qed.

Lemma on_close_delay s :
  reconnectDelay (on_close s) =
  if shouldReconnect s then Qmin (reconnectDelay s * 1.5) 15000 else reconnectDelay s.
Proof. unfold on_close, log. simpl. destruct (shouldReconnect s); reflexivity. Qed.

Lemma on_close_reconnects s :
  reconnects (on_close s) =
  if shouldReconnect s then (reconnects s ++ [reconnectDelay s])%list else reconnects s.
Proof. unfold on_close, log. simpl. destruct (shouldReconnect s); reflexivity. Qed.

Lemma pow_succ (n : nat) : ((3#2) ^ Z.of_nat (S n) == (3#2) ^ Z.of_nat n * (3#2))%Q.
Proof.
  rewrite Nat2Z.inj_succ, <- Z.add_1_r.
  rewrite Qpower_plus by (intros E; discriminate E).
  reflexivity.
Qed.

Lemma pow_ge_1 (n : nat) : (1 <= (3#2) ^ Z.of_nat n)%Q.
Proof. apply Qpower_1_le; [discriminate | lia]. Qed.

Lemma cap_step (d p : Q) :
  (1 <= p)%Q ->
  (Qmin (Qmin (d * 1.5) 15000 * p) 15000 == Qmin (d * (p * (3#2))) 15000)%Q.
Proof.
  intros Hp.
  destruct (Q.min_spec (d * 1.5) 15000) as [[Hlt E]|[Hle E]];
  destruct (Q.min_spec (Qmin (d * 1.5) 15000 * p) 15000) as [[Hlt1 E1]|[Hle1 E1]];
  destruct (Q.min_spec (d * (p * (3#2))) 15000) as [[Hlt2 E2]|[Hle2 E2]];
  rewrite E1, E2; rewrite E in *; try nra.
Qed.


Lemma fail_times_shouldReconnect (n : nat) : forall s,
  shouldReconnect (fail_times n s) = shouldReconnect s.
Proof.
  induction n as [|n IH]; intros s; simpl; [reflexivity|].
  now rewrite IH, on_close_shouldReconnect.
Qed.

Lemma fail_times_delay (n : nat) : forall s,
  shouldReconnect s = true ->
  (reconnectDelay s <= 15000)%Q ->
  (reconnectDelay (fail_times n s) == Qmin (reconnectDelay s * (3#2) ^ Z.of_nat n) 15000)%Q.
Proof.
  induction n as [|n IH]; intros s Hs Hd.
  - simpl. rewrite Qmult_1_r. symmetry. now apply Q.min_l.
  - cbn [fail_times].
    rewrite IH.
    + rewrite on_close_delay, Hs, pow_succ. apply cap_step, pow_ge_1.
    + now rewrite on_close_shouldReconnect.
    + rewrite on_close_delay, Hs. apply Q.le_min_r.
Qed.

Lemma fail_times_reconnects (n : nat) : forall s,
  shouldReconnect s = true ->
  reconnects (fail_times n s) =
  (reconnects s ++ List.map (fun k => reconnectDelay (fail_times k s)) (seq 0 n))%list.
Proof.
  induction n as [|n IH]; intros s Hs.
  - simpl. now rewrite app_nil_r.
  - cbn [fail_times]. rewrite IH by now rewrite on_close_shouldReconnect.
    rewrite on_close_reconnects, Hs, <- app_assoc. f_equal.
    cbn [seq List.map app fail_times]. f_equal.
    rewrite <- seq_shift, map_map. reflexivity.
Qed.

(** C7. The reconnect delay starts at 2000 ms; [open] sets it back to 2000 ms;
    a [close] with reconnection on schedules the reconnect after the current
    delay and then multiplies the delay by 1.5, capped at 15000 ms; so the
    delays of [n] failed attempts in a row are [min (2000 * 1.5^k) 15000] for
    [k < n]: 2000, 3000, 4500, 6750, 10125, then 15000 for good. *)
Theorem reconnect_backoff :
  reconnectDelay initial = 2000%Q /\
  shouldReconnect initial = true /\
  (forall s, reconnectDelay (on_open s) = 2000%Q) /\
  (forall s,
     reconnectDelay (on_close s) =
       (if shouldReconnect s then Qmin (reconnectDelay s * 1.5) 15000
        else reconnectDelay s) /\
     reconnects (on_close s) =
       (if shouldReconnect s then reconnects s ++ [reconnectDelay s]
        else reconnects s)%list) /\
  (forall n,
     Forall2 Qeq (reconnects (fail_times n initial))
       (List.map (fun k => Qmin (2000 * (3#2) ^ Z.of_nat k) 15000) (seq 0 n))) /\
  Forall2 Qeq (reconnects (fail_times 7 initial))
    [2000; 3000; 4500; 6750; 10125; 15000; 15000]%Q.
Proof.
  split; [reflexivity|]. split; [reflexivity|]. split; [reflexivity|].
  split; [intros s; split; [apply on_close_delay | apply on_close_reconnects]|].
  split.
  - intros n. rewrite fail_times_reconnects by reflexivity.
    cbn [reconnects initial app].
    induction (seq 0 n) as [|k l IH]; cbn [List.map]; constructor; [|exact IH].
    apply (fail_times_delay k initial); [reflexivity | discriminate].
  - vm_compute. repeat constructor.
Qed.

Section Agent.
Context `{Runtime}.
Variable localUrl : string.

Lemma payload_written (body : jsval) :
  Js.is_payload body = true ->
  exists w,
    (if Js.truthy body then
       match Buffer_from (Js.or_else body JNull) with
       | Returned b => Returned (Some b)
       | Thrown e => Thrown e
       end
     else Returned None) = Returned w.
Proof.
  destruct body as [[| | |b| |]|]; try discriminate; intros _; cbn; try by eexists.
  destruct (negb (b =? "")%string); by eexists.
Qed.

(** C8. When the request to the local target fails with a connection error,
    [forwardToLocal] resolves with status 502, [content-type: text/plain] and
    the base64 of the text "Local server error: " followed by the error
    message; the message handler sends it over the tunnel as a [response]
    message with the [reqId] of the request. *)
Theorem local_failure_is_answered (local : LocalService) (data : string)
    (fields : list (string * json)) (parsedUrl : ParsedUrl) (message : string) (s : State) :
  JSON_parse data = Some (JObj fields) ->
  Js.assoc "type" fields = Some (JStr "request") ->
  URL_parse (localUrl ++ Js.to_string (Js.or_else (Js.assoc "path" fields) (JStr "/")))
    = Some parsedUrl ->
  Js.is_payload (Js.assoc "body" fields) = true ->
  (forall isHttps options written, local isHttps options written = LocalRequestError message) ->
  let text := "Local server error: " ++ message in
  let response :=
    mkResponse (JNum 502) (JObj [("content-type", JStr "text/plain")])
      (JStr (Base64.encode text)) in
  fst (forwardToLocal localUrl local (JObj fields) s) = Returned response /\
  Base64.decode (Base64.encode text) = text /\
  exists s',
    on_message localUrl local data s = (Returned tt, s') /\
    sent s' =
      (sent s ++
        [JSON_stringify
           (Js.object [("type", Some (JStr "response"));
                       ("reqId", Js.assoc "reqId" fields);
                       ("status", Some (JNum 502));
                       ("headers", Some (JObj [("content-type", JStr "text/plain")]));
                       ("body", Some (JStr (Base64.encode text)))])])%list.
Proof.
  intros Hparse Htype Hurl Hbody Hlocal text response.
  destruct (payload_written _ Hbody) as [w Hw].
  assert (Hfwd : forall s0, forwardToLocal localUrl local (JObj fields) s0
                   = (Returned response, log "err" s0)).
  { intros s0. unfold forwardToLocal. cbn [Js.opt_prop]. rewrite Hurl.
    cbn zeta. rewrite Hw, Hlocal. reflexivity. }
  split; [by rewrite Hfwd|]. split; [apply Base64Facts.decode_encode|].
  eexists. split.
  - unfold on_message. rewrite Hparse. cbn [Js.prop]. rewrite Htype.
    cbn [Js.is_string String.eqb Ascii.eqb Bool.eqb]. rewrite Hfwd. reflexivity.
  - reflexivity.
Qed.

(** The message handler relays what the local service answers. *)
Lemma local_response_is_relayed (local : LocalService) (data reqId : string)
    (fields : list (string * json)) (parsedUrl : ParsedUrl)
    (code : Z) (hs : list (string * json)) (chunks : list string) (s : State) :
  JSON_parse data = Some (JObj fields) ->
  Js.assoc "type" fields = Some (JStr "request") ->
  Js.assoc "reqId" fields = Some (JStr reqId) ->
  URL_parse (localUrl ++ Js.to_string (Js.or_else (Js.assoc "path" fields) (JStr "/")))
    = Some parsedUrl ->
  Js.is_payload (Js.assoc "body" fields) = true ->
  (forall isHttps options written,
     local isHttps options written = LocalResponse code hs chunks) ->
  exists s',
    on_message localUrl local data s = (Returned tt, s') /\
    sent s' = (sent s ++ [JSON_stringify (reply_to reqId code hs chunks)])%list.
Proof.
  intros Hparse Htype Hreq Hurl Hbody Hlocal.
  destruct (payload_written _ Hbody) as [w Hw].
  eexists. split.
  - unfold on_message. rewrite Hparse. cbn [Js.prop]. rewrite Htype.
    cbn [Js.is_string String.eqb Ascii.eqb Bool.eqb].
    unfold forwardToLocal. cbn [Js.opt_prop]. rewrite Hurl.
    cbn zeta. rewrite Hw, Hlocal. reflexivity.
  - cbn [Js.opt_prop]. rewrite Hreq. reflexivity.
Qed.

Lemma forward_bad_url (local : LocalService) (reqData : json) (s : State) :
  URL_parse (localUrl ++ Js.to_string (Js.or_else (Js.opt_prop (Some reqData) "path") (JStr "/")))
    = None ->
  forwardToLocal localUrl local reqData s = (Returned (mkResponse (JNum 400) (JObj []) JNull), s).
Proof. intros Hurl. unfold forwardToLocal. by rewrite Hurl. Qed.

Lemma client_unparseable (local : LocalService) (data : string) (s : State) :
  JSON_parse data = None -> on_message localUrl local data s = (Returned tt, s).
Proof. intros Hp. unfold on_message. by rewrite Hp. Qed.

(** C9, on the code.  The relay's handler has its whole body in a [try];
    the client's has only the parse in one.  A message that parses to [null]
    makes [msg.type] throw after it, outside any [catch]: the promise of the
    [async] handler is rejected with nothing to handle the rejection, which
    ends the process on a current Node.  (Nor does the client's [catch] log
    the message it swallows.) *)
Lemma client_null_message_rejects (local : LocalService) (data : string) (s : State) :
  JSON_parse data = Some JNull ->
  on_message localUrl local data s
    = (Thrown "TypeError: Cannot read properties of null", s).
Proof. intros Hp. unfold on_message. by rewrite Hp. Qed.

End Agent.

Lemma client_null_message_rejects_witness :
  @on_message (Demo.runtime [JNull]) "http://localhost:4444" Demo.refused "null" initial
    = (Thrown "TypeError: Cannot read properties of null", initial).
Proof.
  apply (@client_null_message_rejects (Demo.runtime [JNull]) "http://localhost:4444"
           Demo.refused "null" initial).
  vm_compute. reflexivity.
Defined.

Lemma local_failure_is_answered_witness :
  let text := "Local server error: connect ECONNREFUSED 127.0.0.1:4444" in
  let response :=
    mkResponse (JNum 502) (JObj [("content-type", JStr "text/plain")])
      (JStr (Base64.encode text)) in
  fst (@forwardToLocal Demo.node "http://localhost:4444" Demo.refused Demo.hello_request initial)
    = Returned response /\
  Base64.decode (Base64.encode text) = text /\
  exists s',
    @on_message Demo.node "http://localhost:4444" Demo.refused
      (Demo.print Demo.hello_request) initial = (Returned tt, s') /\
    sent s' =
      ([] ++
        [Demo.print
           (Js.object [("type", Some (JStr "response"));
                       ("reqId", Some (JStr "r1"));
                       ("status", Some (JNum 502));
                       ("headers", Some (JObj [("content-type", JStr "text/plain")]));
                       ("body", Some (JStr (Base64.encode text)))])])%list.
Proof.
  apply (@local_failure_is_answered Demo.node "http://localhost:4444" Demo.refused
           (Demo.print Demo.hello_request)
           [("type", JStr "request"); ("reqId", JStr "r1"); ("method", JStr "GET");
            ("path", JStr "/hello"); ("headers", JObj [("accept", JStr "*/*")]);
            ("body", JNull)]
           (mkParsedUrl "http:" "localhost" "4444" "localhost:4444" "/hello" "")
           "connect ECONNREFUSED 127.0.0.1:4444" initial).
  - vm_compute. reflexivity.
  - reflexivity.
  - vm_compute. reflexivity.
  - reflexivity.
  - reflexivity.
Defined.

End ClientFacts.

(** ** The relay: registry, correlator, deadline *)

Module RelayFacts.
Import Relay Correlation.

Ltac mrun :=
  unfold mbind, mret, M_bind, M_ret, Relay.bind, Relay.ret, Relay.modify, Relay.get,
    Relay.lift, Relay.throw, Relay.try_catch in *; cbn in *.

Ltac proj := cbn [c_tunnels c_heap c_next_ref c_timers c_next_timer c_suspended c_written].

Lemma hits_app res l l' : hits res (l ++ l') = hits res l + hits res l'.
Proof. apply count_occ_app. Qed.

Lemma hits_one (res res' : ResId) : hits res [res'] = if decide (res' = res) then 1 else 0.
Proof. unfold hits. cbn. destruct (Nat.eq_dec res' res); case_decide; congruence. Qed.

Lemma hits_snoc_ne res res' l : res' <> res -> hits res (l ++ [res']) = hits res l.
Proof. intros Hne. rewrite hits_app, hits_one. case_decide; [congruence | lia]. Qed.

Lemma hits_snoc_eq res l : hits res (l ++ [res]) = S (hits res l).
Proof. rewrite hits_app, hits_one. case_decide; [lia | congruence]. Qed.

Lemma lookup_clear_all l tms t tm :
  clear_all l tms !! t = Some tm <->
  tms !! t = Some tm /\ forall kp, kp ∈ l -> p_timeout (snd kp) <> Some t.
Proof.
  revert tms. induction l as [|kp l IH]; intros tms; cbn.
  - split; [intros ?; split; [done|]; intros ? Hin; by apply elem_of_nil in Hin | by intros [? _]].
  - unfold clear_all in IH. rewrite IH. split.
    + intros [Hl Hall]. destruct (p_timeout (snd kp)) as [t0|] eqn:E.
      * apply lookup_delete_Some in Hl as [Hne Hl]. split; [done|].
        intros kp' Hin. apply elem_of_cons in Hin as [->|Hin]; [congruence | by apply Hall].
      * split; [done|]. intros kp' Hin.
        apply elem_of_cons in Hin as [->|Hin]; [congruence | by apply Hall].
    + intros [Hl Hall]. split.
      * pose proof (Hall kp (list_elem_of_here _ _)) as Hkp.
        destruct (p_timeout (snd kp)) as [t0|]; [|done].
        apply lookup_delete_Some. split; [congruence | done].
      * intros kp' Hin. apply Hall. by apply list_elem_of_further.
Qed.

Lemma hits_absent res l : res ∉ l -> hits res l = 0.
Proof. intros Hn. apply count_occ_not_In. by rewrite <- list_elem_of_In. Qed.

Lemma hits_present res l : NoDup l -> res ∈ l -> hits res l = 1.
Proof.
  intros Hnd Hin. apply NoDup_ListNoDup in Hnd.
  apply (proj1 (NoDup_count_occ' Nat.eq_dec l) Hnd).
  by apply list_elem_of_In.
Qed.

Section Preservation.
Variables (c : Core) (fres : list ResId) (freq : list string).

(** A response is written to an exchange that was not in use. *)
Lemma inv_write res :
  InvC c (res :: fres) freq ->
  InvC (mkCore (c_tunnels c) (c_heap c) (c_next_ref c) (c_timers c) (c_next_timer c)
          (c_suspended c) (c_written c ++ [res])) fres freq.
Proof.
  intros I. destruct (i_fres _ _ _ I res) as (Hw & Ha & Hs); [apply list_elem_of_here|].
  pose proof (i_nodup_res _ _ _ I) as Hnd. apply list.NoDup_cons in Hnd as [Hnin Hnd].
  constructor; proj.
  - intros t tm Ht. destruct (i_timer _ _ _ I t tm Ht) as (? & ? & tun & tid & ? & ? & ?).
    split_and!; try done. exists tun, tid. split_and!; try done.
    rewrite hits_snoc_ne; [done|]. intros ->. apply Ha. by exists t, tm.
  - apply (i_timer_inj _ _ _ I).
  - apply (i_reg _ _ _ I).
  - apply (i_reg_inj _ _ _ I).
  - apply (i_reg_lt _ _ _ I).
  - apply (i_heap_lt _ _ _ I).
  - intros r su Hsu. destruct (i_susp _ _ _ I r su Hsu) as (? & ? & ? & ? & Hnf & ?).
    apply not_elem_of_cons in Hnf as [? ?].
    split_and!; try done.
    rewrite hits_snoc_ne; [done|]. congruence.
  - apply (i_susp_inj _ _ _ I).
  - intros r Hr. destruct (i_fres _ _ _ I r) as (? & ? & ?); [by apply list_elem_of_further|].
    split_and!; try done. rewrite hits_snoc_ne; [done|]. intros ->. done.
  - apply (i_freq _ _ _ I).
  - done.
  - apply (i_nodup_req _ _ _ I).
  - intros r. destruct (decide (r = res)) as [->|Hr].
    + rewrite hits_snoc_eq, Hw. lia.
    + rewrite hits_snoc_ne by done. apply (i_once _ _ _ I).
Qed.


Lemma keep_write res res0 :
  InvC c (res :: fres) freq ->
  settled_or_armed c res0 ->
  settled_or_armed
    (mkCore (c_tunnels c) (c_heap c) (c_next_ref c) (c_timers c) (c_next_timer c)
       (c_suspended c) (c_written c ++ [res])) res0.
Proof.
  intros I [Hw|Ha]; [left|right]; proj; [|done].
  destruct (i_fres _ _ _ I res) as (Hw0 & _); [apply list_elem_of_here|].
  rewrite hits_snoc_ne; [done|]. intros ->. lia.
Qed.

(** The correlation id drawn for a request that is answered at once. *)
Lemma inv_drop_req r :
  InvC c fres (r :: freq) -> InvC c fres freq.
Proof.
  intros I. pose proof (i_nodup_req _ _ _ I) as Hnd.
  apply list.NoDup_cons in Hnd as [Hnin Hnd].
  constructor.
  - apply (i_timer _ _ _ I).
  - apply (i_timer_inj _ _ _ I).
  - apply (i_reg _ _ _ I).
  - apply (i_reg_inj _ _ _ I).
  - apply (i_reg_lt _ _ _ I).
  - apply (i_heap_lt _ _ _ I).
  - intros res su Hsu. destruct (i_susp _ _ _ I res su Hsu) as (? & ? & ? & ? & ? & Hnf).
    apply not_elem_of_cons in Hnf as [? ?]. split_and!; done.
  - apply (i_susp_inj _ _ _ I).
  - apply (i_fres _ _ _ I).
  - intros r0 Hr0. apply (i_freq _ _ _ I). by apply list_elem_of_further.
  - apply (i_nodup_res _ _ _ I).
  - done.
  - apply (i_once _ _ _ I).
Qed.

(** The handler of a new request is suspended at its [await]. *)
Lemma inv_suspend res su :
  InvC c (res :: fres) (su_reqId su :: freq) ->
  is_Some (c_heap c !! su_tunnel su) ->
  InvC (mkCore (c_tunnels c) (c_heap c) (c_next_ref c) (c_timers c) (c_next_timer c)
          (<[res := su]> (c_suspended c)) (c_written c)) fres freq.
Proof.
  intros I Hk.
  destruct (i_fres _ _ _ I res) as (Hw & Ha & Hs); [apply list_elem_of_here|].
  pose proof (i_freq _ _ _ I (su_reqId su) (list_elem_of_here _ _)) as Hu.
  pose proof (i_nodup_res _ _ _ I) as Hnd. apply list.NoDup_cons in Hnd as [Hnin Hnd].
  pose proof (i_nodup_req _ _ _ I) as Hnq. apply list.NoDup_cons in Hnq as [Hninq Hnq].
  constructor; proj.
  - apply (i_timer _ _ _ I).
  - apply (i_timer_inj _ _ _ I).
  - apply (i_reg _ _ _ I).
  - apply (i_reg_inj _ _ _ I).
  - apply (i_reg_lt _ _ _ I).
  - apply (i_heap_lt _ _ _ I).
  - intros r su' Hsu. destruct (decide (r = res)) as [->|Hne].
    + rewrite lookup_insert_eq in Hsu. injection Hsu as <-. split_and!; done.
    + rewrite lookup_insert_ne in Hsu by done.
      destruct (i_susp _ _ _ I r su' Hsu) as (? & ? & ? & ? & Hnf & Hnf').
      apply not_elem_of_cons in Hnf as [? ?]. apply not_elem_of_cons in Hnf' as [? ?].
      split_and!; done.
  - intros r r' s1 s2 H1 H2 Heq.
    destruct (decide (r = res)) as [->|Hne]; destruct (decide (r' = res)) as [->|Hne'];
      [done| | |].
    + rewrite lookup_insert_eq in H1. injection H1 as <-.
      rewrite lookup_insert_ne in H2 by done.
      destruct (i_susp _ _ _ I r' s2 H2) as (_ & _ & _ & _ & _ & Hnf').
      apply not_elem_of_cons in Hnf' as [? ?]. congruence.
    + rewrite lookup_insert_eq in H2. injection H2 as <-.
      rewrite lookup_insert_ne in H1 by done.
      destruct (i_susp _ _ _ I r s1 H1) as (_ & _ & _ & _ & _ & Hnf').
      apply not_elem_of_cons in Hnf' as [? ?]. congruence.
    + rewrite lookup_insert_ne in H1, H2 by done. by eapply (i_susp_inj _ _ _ I).
  - intros r Hr. destruct (i_fres _ _ _ I r) as (? & ? & ?); [by apply list_elem_of_further|].
    split_and!; try done. rewrite lookup_insert_ne; [done|]. intros ->. done.
  - intros r0 Hr0. apply (i_freq _ _ _ I). by apply list_elem_of_further.
  - done.
  - done.
  - apply (i_once _ _ _ I).
Qed.

(** The send of a resumed handler throws: the request is answered 502. *)
Lemma inv_fail res su :
  InvC c fres freq ->
  c_suspended c !! res = Some su ->
  InvC (mkCore (c_tunnels c) (c_heap c) (c_next_ref c) (c_timers c) (S (c_next_timer c))
          (delete res (c_suspended c)) (c_written c ++ [res])) fres freq.
Proof.
  intros I Hsu.
  destruct (i_susp _ _ _ I res su Hsu) as (Hk & Hw & Ha & Hu & Hnf & Hnq).
  constructor; proj.
  - intros t tm Ht. destruct (i_timer _ _ _ I t tm Ht) as (? & ? & tun & tid & ? & ? & ?).
    split_and!; [lia|done|]. exists tun, tid. split_and!; try done.
    rewrite hits_snoc_ne; [done|]. intros ->. apply Ha. by exists t, tm.
  - apply (i_timer_inj _ _ _ I).
  - apply (i_reg _ _ _ I).
  - apply (i_reg_inj _ _ _ I).
  - apply (i_reg_lt _ _ _ I).
  - apply (i_heap_lt _ _ _ I).
  - intros r su' Hsu'. apply lookup_delete_Some in Hsu' as [Hne Hsu'].
    destruct (i_susp _ _ _ I r su' Hsu') as (? & ? & ? & ? & ? & ?).
    split_and!; try done. rewrite hits_snoc_ne; done.
  - intros r r' s1 s2 H1 H2. apply lookup_delete_Some in H1 as [_ H1].
    apply lookup_delete_Some in H2 as [_ H2]. by eapply (i_susp_inj _ _ _ I).
  - intros r Hr. destruct (i_fres _ _ _ I r Hr) as (? & ? & ?).
    split_and!; try done.
    + rewrite hits_snoc_ne; [done|]. intros ->. done.
    + apply lookup_delete_None. by right.
  - apply (i_freq _ _ _ I).
  - apply (i_nodup_res _ _ _ I).
  - apply (i_nodup_req _ _ _ I).
  - intros r. destruct (decide (r = res)) as [->|Hr].
    + rewrite hits_snoc_eq, Hw. lia.
    + rewrite hits_snoc_ne by done. apply (i_once _ _ _ I).
Qed.


Lemma timer_fresh :
  InvC c fres freq -> c_timers c !! c_next_timer c = None.
Proof.
  intros I. destruct (c_timers c !! c_next_timer c) as [tm|] eqn:E; [|done].
  destruct (i_timer _ _ _ I _ _ E) as (? & _). lia.
Qed.

(** The request of a resumed handler is filed and its deadline armed. *)
Lemma inv_arm res su tun :
  InvC c fres freq ->
  c_suspended c !! res = Some su ->
  c_heap c !! su_tunnel su = Some tun ->
  InvC (mkCore (c_tunnels c)
          (<[su_tunnel su :=
               mkTunnel (t_ws tun)
                 (<[su_reqId su := mkPending res (su_tunnelId su) (Some (c_next_timer c))]>
                    (pendingRequests tun))]> (c_heap c))
          (c_next_ref c)
          (<[c_next_timer c := mkTimer (su_tunnel su) (su_reqId su) res DEADLINE]> (c_timers c))
          (S (c_next_timer c))
          (delete res (c_suspended c)) (c_written c)) fres freq.
Proof.
  intros I Hsu Hk.
  destruct (i_susp _ _ _ I res su Hsu) as (_ & Hw & Ha & Hu & Hnf & Hnq).
  pose proof (timer_fresh I) as Hfresh.
  set (t := c_next_timer c) in *. set (k := su_tunnel su) in *. set (r := su_reqId su) in *.
  set (ntun := mkTunnel (t_ws tun)
                 (<[r := mkPending res (su_tunnelId su) (Some t)]> (pendingRequests tun))).
  constructor; proj.
  - intros t' tm' Ht'. destruct (decide (t' = t)) as [->|Hne].
    + rewrite lookup_insert_eq in Ht'. injection Ht' as <-. cbn.
      split_and!; [lia|done|]. exists ntun, (su_tunnelId su).
      split; [apply lookup_insert_eq|]. cbn. split; [apply lookup_insert_eq|done].
    + rewrite lookup_insert_ne in Ht' by done.
      destruct (i_timer _ _ _ I t' tm' Ht') as (? & ? & tun' & tid & Hh & Hp & ?).
      split_and!; [lia|done|].
      destruct (decide (tm_tunnel tm' = k)) as [Ek|Nk].
      * rewrite Ek in *. rewrite Hk in Hh. injection Hh as <-.
        exists ntun, tid. rewrite lookup_insert_eq. cbn. split_and!; try done.
        rewrite lookup_insert_ne; [done|]. intros E. rewrite <- E in Hp.
        rewrite (Hu _ _ Hk) in Hp. done.
      * exists tun', tid. rewrite lookup_insert_ne by done. done.
  - intros t1 t2 tm1 tm2 H1 H2 Heq.
    destruct (decide (t1 = t)) as [->|N1]; destruct (decide (t2 = t)) as [->|N2]; [done| | |].
    + rewrite lookup_insert_eq in H1. injection H1 as <-. cbn in Heq.
      rewrite lookup_insert_ne in H2 by done. exfalso. apply Ha. by exists t2, tm2.
    + rewrite lookup_insert_eq in H2. injection H2 as <-. cbn in Heq.
      rewrite lookup_insert_ne in H1 by done. exfalso. apply Ha. by exists t1, tm1.
    + rewrite lookup_insert_ne in H1, H2 by done. by eapply (i_timer_inj _ _ _ I).
  - intros tid k' tun' r' p Ht Hh Hp.
    assert (Hold : forall tun0, c_heap c !! k' = Some tun0 -> pendingRequests tun0 !! r' = Some p ->
              exists t0, p_timeout p = Some t0 /\
                <[t := mkTimer k r res DEADLINE]> (c_timers c) !! t0
                  = Some (mkTimer k' r' (p_res p) DEADLINE)).
    { intros tun0 Hh0 Hp0. destruct (i_reg _ _ _ I tid k' tun0 r' p Ht Hh0 Hp0) as (t0 & ? & Ht0).
      exists t0. split; [done|]. rewrite lookup_insert_ne; [done|]. intros <-. congruence. }
    destruct (decide (k' = k)) as [->|Nk].
    + rewrite lookup_insert_eq in Hh. injection Hh as <-. cbn in Hp.
      destruct (decide (r' = r)) as [->|Nr].
      * rewrite lookup_insert_eq in Hp. injection Hp as <-. cbn.
        exists t. by rewrite lookup_insert_eq.
      * rewrite lookup_insert_ne in Hp by done. by eapply Hold.
    + rewrite lookup_insert_ne in Hh by done. by eapply Hold.
  - apply (i_reg_inj _ _ _ I).
  - apply (i_reg_lt _ _ _ I).
  - intros k' tun' Hh. destruct (decide (k' = k)) as [->|Nk].
    + by eapply (i_heap_lt _ _ _ I).
    + rewrite lookup_insert_ne in Hh by done. by eapply (i_heap_lt _ _ _ I).
  - intros r0 su0 Hsu0. apply lookup_delete_Some in Hsu0 as [Hne Hsu0].
    destruct (i_susp _ _ _ I r0 su0 Hsu0) as (Hk0 & ? & Ha0 & Hu0 & ? & ?).
    split_and!; try done.
    + destruct (decide (su_tunnel su0 = k)) as [->|Nk].
      * rewrite lookup_insert_eq. done.
      * rewrite lookup_insert_ne by done. done.
    + intros (t0 & tm0 & Ht0 & Hr0). destruct (decide (t0 = t)) as [->|Nt].
      * rewrite lookup_insert_eq in Ht0. injection Ht0 as <-. cbn in Hr0. congruence.
      * rewrite lookup_insert_ne in Ht0 by done. apply Ha0. by exists t0, tm0.
    + intros k' tun' Hh. destruct (decide (k' = k)) as [->|Nk].
      * rewrite lookup_insert_eq in Hh. injection Hh as <-. cbn.
        rewrite lookup_insert_ne; [by eapply Hu0|].
        intros E. apply Hne. symmetry in E. by eapply (i_susp_inj _ _ _ I).
      * rewrite lookup_insert_ne in Hh by done. by eapply Hu0.
  - intros r1 r2 s1 s2 H1 H2. apply lookup_delete_Some in H1 as [_ H1].
    apply lookup_delete_Some in H2 as [_ H2]. by eapply (i_susp_inj _ _ _ I).
  - intros r0 Hr0. destruct (i_fres _ _ _ I r0 Hr0) as (? & Ha0 & ?).
    split_and!; try done.
    + intros (t0 & tm0 & Ht0 & Hr). destruct (decide (t0 = t)) as [->|Nt].
      * rewrite lookup_insert_eq in Ht0. injection Ht0 as <-. cbn in Hr. congruence.
      * rewrite lookup_insert_ne in Ht0 by done. apply Ha0. by exists t0, tm0.
    + apply lookup_delete_None. by right.
  - intros r0 Hr0 k' tun' Hh. pose proof (i_freq _ _ _ I r0 Hr0) as Hu0.
    destruct (decide (k' = k)) as [->|Nk].
    + rewrite lookup_insert_eq in Hh. injection Hh as <-. cbn.
      rewrite lookup_insert_ne; [by eapply Hu0|]. intros <-. done.
    + rewrite lookup_insert_ne in Hh by done. by eapply Hu0.
  - apply (i_nodup_res _ _ _ I).
  - apply (i_nodup_req _ _ _ I).
  - apply (i_once _ _ _ I).
Qed.


(** An armed request is claimed: its timer and its pending entry go; [wr]
    tells whether a response is written to its exchange. *)
Lemma inv_claim t tm (wr : bool) :
  InvC c fres freq ->
  c_timers c !! t = Some tm ->
  InvC (mkCore (c_tunnels c)
          (alter (fun tun => mkTunnel (t_ws tun) (delete (tm_reqId tm) (pendingRequests tun)))
             (tm_tunnel tm) (c_heap c))
          (c_next_ref c) (delete t (c_timers c)) (c_next_timer c) (c_suspended c)
          (c_written c ++ (if wr then [tm_res tm] else []))) fres freq.
Proof.
  intros I Ht.
  destruct (i_timer _ _ _ I t tm Ht) as (Hlt & Hd & tun & tid & Hk & Hp & Hw).
  set (k := tm_tunnel tm) in *. set (r := tm_reqId tm) in *. set (res := tm_res tm) in *.
  set (f := fun tun : Tunnel => mkTunnel (t_ws tun) (delete r (pendingRequests tun))).
  assert (Hh : forall r0, r0 <> res ->
            hits r0 (c_written c ++ (if wr then [res] else [])) = hits r0 (c_written c)).
  { intros r0 Hr0. destruct wr; [by rewrite hits_snoc_ne | by rewrite app_nil_r]. }
  assert (Hna : forall r0, ~ armed_in (c_timers c) r0 -> r0 <> res).
  { intros r0 Hn ->. apply Hn. by exists t, tm. }
  assert (Hsub : forall r0, armed_in (delete t (c_timers c)) r0 -> armed_in (c_timers c) r0).
  { intros r0 (t0 & tm0 & Ht0 & ?). apply lookup_delete_Some in Ht0 as [_ Ht0]. by exists t0, tm0. }
  assert (Hun : forall r0, unused_in (c_heap c) r0 -> unused_in (alter f k (c_heap c)) r0).
  { intros r0 Hu k' tun' Hh'. destruct (decide (k' = k)) as [->|Nk].
    - rewrite lookup_alter_eq, Hk in Hh'. injection Hh' as <-. cbn.
      destruct (decide (r0 = r)) as [->|Nr]; [apply lookup_delete_eq|].
      rewrite lookup_delete_ne by done. by eapply Hu.
    - rewrite lookup_alter_ne in Hh' by done. by eapply Hu. }
  constructor; proj.
  - intros t' tm' Ht'. apply lookup_delete_Some in Ht' as [Hne Ht'].
    destruct (i_timer _ _ _ I t' tm' Ht') as (? & ? & tun' & tid' & Hk' & Hp' & ?).
    split_and!; try done.
    assert (Hres : tm_res tm' <> res).
    { intros E. apply Hne. symmetry. by eapply (i_timer_inj _ _ _ I). }
    destruct (decide (tm_tunnel tm' = k)) as [Ek|Nk].
    + rewrite Ek in *. rewrite Hk in Hk'. injection Hk' as <-.
      exists (f tun), tid'. rewrite lookup_alter_eq, Hk. cbn. split_and!; try done.
      * rewrite lookup_delete_ne; [done|]. intros E. rewrite <- E in Hp'.
        rewrite Hp in Hp'. injection Hp' as ? ? ?. done.
      * by rewrite Hh.
    + exists tun', tid'. rewrite lookup_alter_ne by done. split_and!; try done. by rewrite Hh.
  - intros t1 t2 tm1 tm2 H1 H2. apply lookup_delete_Some in H1 as [_ H1].
    apply lookup_delete_Some in H2 as [_ H2]. by eapply (i_timer_inj _ _ _ I).
  - intros tid0 k' tun' r' p Hreg Hh' Hp'.
    assert (Hold : forall tun0, c_heap c !! k' = Some tun0 -> pendingRequests tun0 !! r' = Some p ->
              (k', r') <> (k, r) ->
              exists t0, p_timeout p = Some t0 /\
                delete t (c_timers c) !! t0 = Some (mkTimer k' r' (p_res p) DEADLINE)).
    { intros tun0 Hh0 Hp0 Hne.
      destruct (i_reg _ _ _ I tid0 k' tun0 r' p Hreg Hh0 Hp0) as (t0 & ? & Ht0).
      exists t0. split; [done|]. rewrite lookup_delete_ne; [done|].
      intros <-. rewrite Ht in Ht0. injection Ht0 as E. subst k r.
      rewrite E in Hne. cbn in Hne. done. }
    destruct (decide (k' = k)) as [->|Nk].
    + rewrite lookup_alter_eq, Hk in Hh'. injection Hh' as <-. cbn in Hp'.
      apply lookup_delete_Some in Hp' as [Nr Hp'].
      eapply Hold; [done..|]. congruence.
    + rewrite lookup_alter_ne in Hh' by done. eapply Hold; [done..|]. congruence.
  - apply (i_reg_inj _ _ _ I).
  - apply (i_reg_lt _ _ _ I).
  - intros k' tun' Hh'. destruct (decide (k' = k)) as [->|Nk].
    + by eapply (i_heap_lt _ _ _ I).
    + rewrite lookup_alter_ne in Hh' by done. by eapply (i_heap_lt _ _ _ I).
  - intros r0 su0 Hsu0. destruct (i_susp _ _ _ I r0 su0 Hsu0) as (Hk0 & ? & Ha0 & Hu0 & ? & ?).
    split_and!; try done.
    + destruct (decide (su_tunnel su0 = k)) as [->|Nk].
      * rewrite lookup_alter_eq, Hk. done.
      * by rewrite lookup_alter_ne.
    + rewrite Hh; [done|]. by apply Hna.
    + intros Harm. by apply Ha0, Hsub.
    + by apply Hun.
  - apply (i_susp_inj _ _ _ I).
  - intros r0 Hr0. destruct (i_fres _ _ _ I r0 Hr0) as (? & Ha0 & ?).
    split_and!; try done.
    + rewrite Hh; [done|]. by apply Hna.
    + intros Harm. by apply Ha0, Hsub.
  - intros r0 Hr0. apply Hun. by apply (i_freq _ _ _ I).
  - apply (i_nodup_res _ _ _ I).
  - apply (i_nodup_req _ _ _ I).
  - intros r0. destruct (decide (r0 = res)) as [->|Nr].
    + destruct wr; [rewrite hits_snoc_eq, Hw; lia | rewrite app_nil_r, Hw; lia].
    + rewrite Hh by done. apply (i_once _ _ _ I).
Qed.

(** A new connection is registered. *)
Lemma inv_register tid ws :
  InvC c fres freq ->
  InvC (mkCore (<[tid := c_next_ref c]> (c_tunnels c))
          (<[c_next_ref c := mkTunnel ws ∅]> (c_heap c))
          (S (c_next_ref c)) (c_timers c) (c_next_timer c) (c_suspended c)
          (c_written c)) fres freq.
Proof.
  intros I. set (k := c_next_ref c) in *.
  assert (Hfresh : c_heap c !! k = None).
  { destruct (c_heap c !! k) as [tun|] eqn:E; [|done].
    pose proof (i_heap_lt _ _ _ I _ _ E). lia. }
  assert (Hun : forall r0, unused_in (c_heap c) r0 ->
            unused_in (<[k := mkTunnel ws ∅]> (c_heap c)) r0).
  { intros r0 Hu k' tun' Hh'. destruct (decide (k' = k)) as [->|Nk].
    - rewrite lookup_insert_eq in Hh'. by injection Hh' as <-.
    - rewrite lookup_insert_ne in Hh' by done. by eapply Hu. }
  constructor; proj.
  - intros t tm Ht. destruct (i_timer _ _ _ I t tm Ht) as (? & ? & tun & tid' & Hk & ? & ?).
    split_and!; try done. exists tun, tid'. split_and!; try done.
    rewrite lookup_insert_ne; [done|]. intros E. rewrite <- E in Hk. congruence.
  - apply (i_timer_inj _ _ _ I).
  - intros tid' k' tun' r p Hreg Hh' Hp.
    destruct (decide (k' = k)) as [->|Nk].
    + rewrite lookup_insert_eq in Hh'. injection Hh' as <-. done.
    + rewrite lookup_insert_ne in Hh' by done.
      destruct (decide (tid' = tid)) as [->|Nt].
      * rewrite lookup_insert_eq in Hreg. congruence.
      * rewrite lookup_insert_ne in Hreg by done. by eapply (i_reg _ _ _ I).
  - intros t1 t2 k' H1 H2.
    destruct (decide (t1 = tid)) as [->|N1]; destruct (decide (t2 = tid)) as [->|N2]; [done| | |].
    + rewrite lookup_insert_eq in H1. injection H1 as <-.
      rewrite lookup_insert_ne in H2 by done. pose proof (i_reg_lt _ _ _ I _ _ H2). lia.
    + rewrite lookup_insert_eq in H2. injection H2 as <-.
      rewrite lookup_insert_ne in H1 by done. pose proof (i_reg_lt _ _ _ I _ _ H1). lia.
    + rewrite lookup_insert_ne in H1, H2 by done. by eapply (i_reg_inj _ _ _ I).
  - intros tid' k' Hreg. destruct (decide (tid' = tid)) as [->|Nt].
    + rewrite lookup_insert_eq in Hreg. injection Hreg as <-. lia.
    + rewrite lookup_insert_ne in Hreg by done. pose proof (i_reg_lt _ _ _ I _ _ Hreg). lia.
  - intros k' tun' Hh'. destruct (decide (k' = k)) as [->|Nk]; [lia|].
    rewrite lookup_insert_ne in Hh' by done. pose proof (i_heap_lt _ _ _ I _ _ Hh'). lia.
  - intros r0 su0 Hsu0. destruct (i_susp _ _ _ I r0 su0 Hsu0) as ([tun0 Hk0] & ? & ? & ? & ? & ?).
    split_and!; try done.
    + exists tun0. rewrite lookup_insert_ne; [done|]. intros E. rewrite <- E in Hk0. congruence.
    + by apply Hun.
  - apply (i_susp_inj _ _ _ I).
  - apply (i_fres _ _ _ I).
  - intros r0 Hr0. apply Hun. by apply (i_freq _ _ _ I).
  - apply (i_nodup_res _ _ _ I).
  - apply (i_nodup_req _ _ _ I).
  - apply (i_once _ _ _ I).
Qed.


Lemma keep_arm res su tun res0 :
  InvC c fres freq ->
  c_suspended c !! res = Some su ->
  res0 = res \/ settled_or_armed c res0 ->
  settled_or_armed
    (mkCore (c_tunnels c)
       (<[su_tunnel su :=
            mkTunnel (t_ws tun)
              (<[su_reqId su := mkPending res (su_tunnelId su) (Some (c_next_timer c))]>
                 (pendingRequests tun))]> (c_heap c))
       (c_next_ref c)
       (<[c_next_timer c := mkTimer (su_tunnel su) (su_reqId su) res DEADLINE]> (c_timers c))
       (S (c_next_timer c))
       (delete res (c_suspended c)) (c_written c)) res0.
Proof.
  intros I Hsu [->|[Hw|(t0 & tm0 & Ht0 & Hr0)]].
  - right. proj. eexists _, _. split; [apply lookup_insert_eq|done].
  - by left.
  - right. proj. exists t0, tm0. split; [|done].
    rewrite lookup_insert_ne; [done|]. intros <-. by rewrite (timer_fresh I) in Ht0.
Qed.

Lemma keep_fail res su res0 :
  InvC c fres freq ->
  c_suspended c !! res = Some su ->
  res0 = res \/ settled_or_armed c res0 ->
  settled_or_armed
    (mkCore (c_tunnels c) (c_heap c) (c_next_ref c) (c_timers c) (S (c_next_timer c))
       (delete res (c_suspended c)) (c_written c ++ [res])) res0.
Proof.
  intros I Hsu Hor.
  destruct (i_susp _ _ _ I res su Hsu) as (_ & Hw & Ha & _).
  destruct Hor as [->|[Hw0|Ha0]].
  - left. proj. rewrite hits_snoc_eq, Hw. done.
  - left. proj. rewrite hits_snoc_ne; [done|]. intros ->. lia.
  - by right.
Qed.

Lemma keep_claim t tm (wr : bool) res0 :
  InvC c fres freq ->
  c_timers c !! t = Some tm ->
  wr = true \/ res0 <> tm_res tm ->
  settled_or_armed c res0 ->
  settled_or_armed
    (mkCore (c_tunnels c)
       (alter (fun tun => mkTunnel (t_ws tun) (delete (tm_reqId tm) (pendingRequests tun)))
          (tm_tunnel tm) (c_heap c))
       (c_next_ref c) (delete t (c_timers c)) (c_next_timer c) (c_suspended c)
       (c_written c ++ (if wr then [tm_res tm] else []))) res0.
Proof.
  intros I Ht Hwr HP.
  destruct (i_timer _ _ _ I t tm Ht) as (_ & _ & _ & _ & _ & _ & Hw).
  destruct (decide (res0 = tm_res tm)) as [->|Hne].
  - destruct Hwr as [->|?]; [|done]. left. proj. by rewrite hits_snoc_eq, Hw.
  - destruct HP as [Hw0|(t0 & tm0 & Ht0 & Hr0)].
    + left. proj. destruct wr; [by rewrite hits_snoc_ne | by rewrite app_nil_r].
    + right. proj. exists t0, tm0. split; [|done].
      rewrite lookup_delete_ne; [done|]. intros <-. congruence.
Qed.

Section Sweep.
Variables (tid : string) (k : TunnelRef) (tun : Tunnel).
Hypothesis I : InvC c fres freq.
Hypothesis Hreg : c_tunnels c !! tid = Some k.
Hypothesis Hk : c_heap c !! k = Some tun.

Local Abbreviation l := (map_to_list (pendingRequests tun)).

Lemma swept_armed kp :
  kp ∈ l ->
  exists t, p_timeout (snd kp) = Some t /\
    c_timers c !! t = Some (mkTimer k (fst kp) (p_res (snd kp)) DEADLINE).
Proof.
  destruct kp as [r p]. intros Hin. apply elem_of_map_to_list in Hin.
  by eapply (i_reg _ _ _ I).
Qed.

Lemma swept_exchange res :
  res ∈ exchanges_of l ->
  exists kp t, kp ∈ l /\ p_res (snd kp) = res /\ p_timeout (snd kp) = Some t /\
    c_timers c !! t = Some (mkTimer k (fst kp) res DEADLINE).
Proof.
  intros Hin. apply list_elem_of_In, in_map_iff in Hin as (kp & <- & Hin).
  apply list_elem_of_In in Hin. destruct (swept_armed kp Hin) as (t & ? & ?).
  by exists kp, t.
Qed.

Lemma swept_nodup : NoDup (exchanges_of l).
Proof.
  apply (NoDup_fmap_2_strong (fun kp : string * Pending => p_res (snd kp))).
  - intros [r1 p1] [r2 p2] H1 H2 Heq. cbn in Heq.
    destruct (swept_armed _ H1) as (t1 & Hp1 & Ht1).
    destruct (swept_armed _ H2) as (t2 & Hp2 & Ht2). cbn in *.
    assert (t1 = t2) as -> by (by eapply (i_timer_inj _ _ _ I)).
    rewrite Ht1 in Ht2. injection Ht2 as -> _.
    apply elem_of_map_to_list in H1, H2. congruence.
  - apply NoDup_map_to_list.
Qed.

(** The close handler fails every pending request of the registered tunnel
    object and removes the registry entry. *)
Lemma inv_sweep :
  InvC (mkCore (delete tid (c_tunnels c)) (c_heap c) (c_next_ref c)
          (clear_all l (c_timers c)) (c_next_timer c) (c_suspended c)
          (c_written c ++ exchanges_of l)) fres freq.
Proof.
  assert (Hna : forall r0, ~ armed_in (c_timers c) r0 -> r0 ∉ exchanges_of l).
  { intros r0 Hn Hin. destruct (swept_exchange r0 Hin) as (kp & t & _ & _ & _ & Ht).
    apply Hn. by eexists t, _. }
  assert (Hsub : forall r0, armed_in (clear_all l (c_timers c)) r0 -> armed_in (c_timers c) r0).
  { intros r0 (t0 & tm0 & Ht0 & ?). apply lookup_clear_all in Ht0 as [Ht0 _]. by exists t0, tm0. }
  constructor; proj.
  - intros t' tm' Ht'. apply lookup_clear_all in Ht' as [Ht' Hnc].
    destruct (i_timer _ _ _ I t' tm' Ht') as (? & ? & tun' & tid' & ? & ? & Hw).
    split_and!; try done. exists tun', tid'. split_and!; try done.
    rewrite hits_app, Hw, hits_absent; [done|].
    intros Hin. destruct (swept_exchange _ Hin) as (kp & t & Hkp & _ & Hp & Ht).
    assert (t' = t) as -> by (by eapply (i_timer_inj _ _ _ I)).
    by apply (Hnc kp).
  - intros t1 t2 tm1 tm2 H1 H2. apply lookup_clear_all in H1 as [H1 _].
    apply lookup_clear_all in H2 as [H2 _]. by eapply (i_timer_inj _ _ _ I).
  - intros tid' k' tun' r' p Hreg' Hh' Hp'. apply lookup_delete_Some in Hreg' as [Hne Hreg'].
    destruct (i_reg _ _ _ I tid' k' tun' r' p Hreg' Hh' Hp') as (t0 & ? & Ht0).
    exists t0. split; [done|]. apply lookup_clear_all. split; [done|].
    intros kp Hin Hto. destruct (swept_armed kp Hin) as (t & Hp & Ht).
    rewrite Hto in Hp. injection Hp as <-. rewrite Ht0 in Ht. injection Ht as -> _ _.
    apply Hne. by eapply (i_reg_inj _ _ _ I).
  - intros t1 t2 k' H1 H2. apply lookup_delete_Some in H1 as [_ H1].
    apply lookup_delete_Some in H2 as [_ H2]. by eapply (i_reg_inj _ _ _ I).
  - intros t1 k' H1. apply lookup_delete_Some in H1 as [_ H1]. by eapply (i_reg_lt _ _ _ I).
  - apply (i_heap_lt _ _ _ I).
  - intros r0 su0 Hsu0. destruct (i_susp _ _ _ I r0 su0 Hsu0) as (? & Hw & Ha0 & ? & ? & ?).
    split_and!; try done.
    + rewrite hits_app, Hw, hits_absent; [done|]. by apply Hna.
    + intros Harm. by apply Ha0, Hsub.
  - apply (i_susp_inj _ _ _ I).
  - intros r0 Hr0. destruct (i_fres _ _ _ I r0 Hr0) as (Hw & Ha0 & ?).
    split_and!; try done.
    + rewrite hits_app, Hw, hits_absent; [done|]. by apply Hna.
    + intros Harm. by apply Ha0, Hsub.
  - apply (i_freq _ _ _ I).
  - apply (i_nodup_res _ _ _ I).
  - apply (i_nodup_req _ _ _ I).
  - intros r0. rewrite hits_app.
    destruct (decide (r0 ∈ exchanges_of l)) as [Hin|Hnin].
    + rewrite (hits_present _ _ swept_nodup Hin).
      destruct (swept_exchange r0 Hin) as (kp & t & _ & _ & _ & Ht).
      destruct (i_timer _ _ _ I _ _ Ht) as (_ & _ & ? & ? & _ & _ & Hw). cbn in Hw.
      rewrite Hw. lia.
    + rewrite (hits_absent _ _ Hnin). pose proof (i_once _ _ _ I r0). lia.
Qed.

Lemma keep_sweep res0 :
  settled_or_armed c res0 ->
  settled_or_armed
    (mkCore (delete tid (c_tunnels c)) (c_heap c) (c_next_ref c)
       (clear_all l (c_timers c)) (c_next_timer c) (c_suspended c)
       (c_written c ++ exchanges_of l)) res0.
Proof.
  intros HP. destruct (decide (res0 ∈ exchanges_of l)) as [Hin|Hnin].
  - left. proj. rewrite hits_app, (hits_present _ _ swept_nodup Hin).
    destruct (swept_exchange res0 Hin) as (kp & t & _ & _ & _ & Ht).
    destruct (i_timer _ _ _ I _ _ Ht) as (_ & _ & ? & ? & _ & _ & Hw). cbn in Hw.
    by rewrite Hw.
  - destruct HP as [Hw0|(t0 & tm0 & Ht0 & Hr0)].
    + left. proj. rewrite hits_app, (hits_absent _ _ Hnin). lia.
    + right. proj. exists t0, tm0. split; [|done].
      apply lookup_clear_all. split; [done|].
      intros kp Hin Hto. destruct (swept_armed kp Hin) as (t & Hp & Ht).
      rewrite Hto in Hp. injection Hp as <-. rewrite Ht0 in Ht. injection Ht as ->.
      cbn in Hr0. apply Hnin. rewrite <- Hr0.
      apply list_elem_of_In, in_map_iff. exists kp. split; [done|]. by apply list_elem_of_In.
Qed.

End Sweep.

End Preservation.

Section Effects.
Context `{Runtime}.

Lemma bind_eq {A B} (m : M A) (k : A -> M B) s a s' :
  m s = (Returned a, s') -> (x ← m; k x) s = k a s'.
Proof. intros E. mrun. now rewrite E. Qed.

Lemma seq_eq {A B} (m : M A) (k : M B) s a s' :
  m s = (Returned a, s') -> (m;; k) s = k s'.
Proof. intros E. mrun. now rewrite E. Qed.

Lemma raw_bind_eq {A B} (m : M A) (k : A -> M B) s a s' :
  m s = (Returned a, s') -> Relay.bind m k s = k a s'.
Proof. intros E. unfold Relay.bind. now rewrite E. Qed.

Lemma get_eq {B} (k : Server -> M B) s : (x ← get; k x) s = k s s.
Proof. reflexivity. Qed.

Lemma with_exchanges_id s : with_exchanges (fun _ => exchanges s) s = s.
Proof. by destruct s. Qed.

Lemma header_loop res l : forall s,
  exists E, for_each (header_step res) l s = (Returned tt, with_exchanges (fun _ => E) s).
Proof.
  induction l as [|kv l IH]; intros s.
  - exists (exchanges s). by rewrite with_exchanges_id.
  - cbn [for_each]. unfold header_step at 1.
    destruct (negb (skipped (fst kv))).
    + unfold res_setHeader. destruct (setHeader_ok (fst kv) (snd kv)).
      * mrun. destruct (IH (with_exchanges
           <[res:=mkExchange (statusCode (exchange_of s res))
                    (headers (exchange_of s res) ++ [(fst kv, snd kv)])]> s)) as [E HE].
        unfold Relay.bind. rewrite HE. by exists E.
      * mrun. destruct (IH s) as [E HE]. unfold Relay.bind. rewrite HE. by exists E.
    + mrun. destruct (IH s) as [E HE]. unfold Relay.bind. rewrite HE. by exists E.
Qed.


(** What [deliver] does, case by case.  Only [exchanges] and [http_out]
    change; a response is written exactly when nothing throws. *)
Lemma deliver_cases tid res status hdrs body s :
  match Js.call_toLowerCase (Js.or_else (Js.opt_prop hdrs "content-type") (JStr "")) with
  | Thrown e => exists E, deliver tid res status hdrs body s = (Thrown e, with_exchanges (fun _ => E) s)
  | Returned ct =>
      let st := Js.or_else status (JNum 200) in
      let written body' :=
        if status_ok st then
          exists E hs,
            deliver tid res status hdrs body s =
              (Returned tt,
               with_http_out (fun o => (o ++ [(res, mkHttpResponse st hs body')])%list)
                 (with_exchanges (fun _ => E) s))
        else
          exists E e, deliver tid res status hdrs body s = (Thrown e, with_exchanges (fun _ => E) s) in
      if Js.truthy body then
        match Buffer_from (Js.or_else body JNull) with
        | Thrown e =>
            exists E, deliver tid res status hdrs body s = (Thrown e, with_exchanges (fun _ => E) s)
        | Returned buf =>
            written (if includes "text/html" ct then rewriteHtml buf tid else buf)
        end
      else written ""
  end.
Proof.
  unfold deliver.
  destruct (header_loop res (Js.entries (Js.or_else hdrs (JObj []))) s) as [E HE].
  change (fun kv : string * json =>
            if negb (skipped (fst kv))
            then try_catch (res_setHeader res (fst kv) (snd kv)) (fun _ => ret tt)
            else ret tt) with (header_step res).
  erewrite seq_eq by exact HE.
  destruct (Js.call_toLowerCase _) as [ct|e].
  2: { exists E. reflexivity. }
  cbn zeta.
  unfold res_status, res_setHeader, res_end, res_send, exchange_of. mrun.
  destruct (Js.truthy body).
  - destruct (Buffer_from (Js.or_else body JNull)) as [buf|e]; cbn.
    2: { eexists. reflexivity. }
    destruct (includes "text/html" ct); cbn.
    + rewrite content_length_ok. cbn. rewrite !lookup_insert_eq. cbn.
      destruct (status_ok (Js.or_else status (JNum 200))); cbn;
        eexists _, _; reflexivity.
    + rewrite !lookup_insert_eq. cbn.
      destruct (status_ok (Js.or_else status (JNum 200))); cbn;
        eexists _, _; reflexivity.
  - cbn. rewrite !lookup_insert_eq. cbn.
    destruct (status_ok (Js.or_else status (JNum 200))); cbn;
      eexists _, _; reflexivity.
Qed.


Lemma res_answer res (code : Z) body s :
  (100 <= code <= 999)%Z ->
  (res_status res (JNum code);; res_send res body) s = (Returned tt, answer res code body s).
Proof.
  intros Hc. unfold res_status, res_send. mrun.
  unfold exchange_of. cbn. rewrite lookup_insert_eq. cbn.
  rewrite status_ok_number by lia. reflexivity.
Qed.

Lemma or_else_truthy (x d : json) :
  Js.truthy (Some x) = true -> Js.or_else (Some x) d = x.
Proof. unfold Js.or_else. by intros ->. Qed.

Lemma or_else_falsy (v : jsval) (d : json) :
  Js.truthy v = false -> Js.or_else v d = d.
Proof. unfold Js.or_else. destruct v; [by intros ->|done]. Qed.

Lemma deliver_typed tid res status hdrs body s :
  well_typed_response status hdrs body = true ->
  exists E r,
    deliver tid res status hdrs body s =
      (Returned tt,
       with_http_out (fun o => (o ++ [(res, r)])%list) (with_exchanges (fun _ => E) s)).
Proof.
  intros Hwt. unfold well_typed_response in Hwt.
  apply andb_prop in Hwt as [Hwt Hb]. apply andb_prop in Hwt as [Hst Hct].
  pose proof (deliver_cases tid res status hdrs body s) as Hc.
  assert (Hok : status_ok (Js.or_else status (JNum 200)) = true).
  { destruct status as [[| |n| | |]|]; try discriminate Hst.
    - apply andb_prop in Hst as [H1 H2].
      apply Z.leb_le in H1. apply Z.leb_le in H2.
      unfold Js.or_else, Js.truthy. destruct (n =? 0)%Z eqn:E; cbn.
      + apply Z.eqb_eq in E. lia.
      + apply status_ok_number. lia.
    - apply status_ok_number. lia. }
  assert (Hlow : exists ct,
            Js.call_toLowerCase (Js.or_else (Js.opt_prop hdrs "content-type") (JStr ""))
              = Returned ct).
  { destruct (Js.opt_prop hdrs "content-type") as [[| | |ct| |]|]; try discriminate Hct.
    - unfold Js.or_else. destruct (Js.truthy (Some (JStr ct))); by eexists.
    - by eexists. }
  destruct Hlow as [ct Hlow]. rewrite Hlow in Hc. cbn zeta in Hc. rewrite Hok in Hc.
  destruct (Js.truthy body) eqn:Htr.
  - destruct body as [[| | |b| |]|]; try discriminate Hb; try discriminate Htr.
    rewrite (or_else_truthy _ _ Htr) in Hc.
    cbn [Buffer_from] in Hc. destruct Hc as (E & hs & Hc). by eexists _, _.
  - destruct Hc as (E & hs & Hc). by eexists _, _.
Qed.

Lemma deliver_frame tid res status hdrs body s :
  exists E,
    (exists r, deliver tid res status hdrs body s =
       (Returned tt,
        with_http_out (fun o => (o ++ [(res, r)])%list) (with_exchanges (fun _ => E) s))) \/
    (exists e, deliver tid res status hdrs body s = (Thrown e, with_exchanges (fun _ => E) s)).
Proof.
  pose proof (deliver_cases tid res status hdrs body s) as Hc.
  destruct (Js.call_toLowerCase _) as [ct|e].
  2: { destruct Hc as [E Hc]. exists E. right. by exists e. }
  cbn zeta in Hc.
  destruct (Js.truthy body).
  - destruct (Buffer_from _) as [buf|e].
    2: { destruct Hc as [E Hc]. exists E. right. by exists e. }
    destruct (status_ok _).
    + destruct Hc as (E & hs & Hc). exists E. left. by eexists.
    + destruct Hc as (E & e & Hc). exists E. right. by exists e.
  - destruct (status_ok _).
    + destruct Hc as (E & hs & Hc). exists E. left. by eexists.
    + destruct Hc as (E & e & Hc). exists E. right. by exists e.
Qed.


Lemma pending_get_Some tun reqId r p :
  pending_get tun reqId = Some (r, p) -> pendingRequests tun !! r = Some p.
Proof.
  unfold pending_get. destruct reqId as [[| | |r0| |]|]; try discriminate.
  destruct (pendingRequests tun !! r0) as [p0|] eqn:E; [|discriminate].
  intros [= <- <-]. done.
Qed.

Lemma clearTimeout_eq t s :
  clearTimeout t s =
  (Returned tt, with_timers (fun m => match t with Some t => delete t m | None => m end) s).
Proof. destruct t; [reflexivity|]. by destruct s. Qed.

Lemma on_message_effect tid data s :
  exists s',
    on_message tid data s = (Returned tt, s') /\
    (core s' = core s \/
     exists k tun r p (wr : bool),
       lookup_tunnel s tid = Some (k, tun) /\
       pendingRequests tun !! r = Some p /\
       core s' = claimed (core s) k r (p_timeout p) (if wr then [p_res p] else []) /\
       (conforming data = true -> wr = true)).
Proof.
  unfold on_message, conforming.
  destruct (JSON_parse data) as [msg|].
  2: { eexists. split; [reflexivity|]. by left. }
  destruct (Js.prop (Some msg) "type") as [type|e] eqn:Etype.
  2: { eexists. split; [unfold console_error; mrun; reflexivity|]. by left. }
  destruct (Js.is_string type "response") eqn:Eresp.
  2: { eexists. split; [mrun; rewrite Eresp; reflexivity|]. by left. }
  destruct (lookup_tunnel s tid) as [[k tun]|] eqn:Elook.
  2: { eexists. split; [mrun; rewrite Eresp; cbn; rewrite Elook; reflexivity|]. by left. }
  destruct (pending_get tun (Js.opt_prop (Some msg) "reqId")) as [[r p]|] eqn:Epend.
  2: { eexists. split; [mrun; rewrite Eresp; cbn; rewrite Elook, Epend; reflexivity|]. by left. }
  pose proof (pending_get_Some _ _ _ _ Epend) as Hp.
  set (s1 := with_heap (alter (fun t => mkTunnel (t_ws t) (delete r (pendingRequests t))) k)
               (with_timers (fun m => match p_timeout p with Some t => delete t m | None => m end) s)).
  destruct (deliver_frame tid (p_res p) (Js.opt_prop (Some msg) "status")
              (Js.opt_prop (Some msg) "headers") (Js.opt_prop (Some msg) "body") s1)
    as [E [[resp Hd]|[e Hd]]].
  - eexists. split.
    + unfold Relay.try_catch at 1. unfold Relay.lift. unfold mbind at 1, M_bind at 1, Relay.bind at 1.
      cbn [fst snd]. rewrite Eresp. rewrite get_eq, Elook, Epend.
      erewrite seq_eq by apply clearTimeout_eq.
      unfold on_pending. erewrite seq_eq by reflexivity. fold s1. rewrite Hd. reflexivity.
    + right. exists k, tun, r, p, true. split_and!; try done.
      unfold core, claimed. cbn. by rewrite fmap_app.
  - eexists. split.
    + unfold Relay.try_catch at 1. unfold Relay.lift. unfold mbind at 1, M_bind at 1, Relay.bind at 1.
      cbn [fst snd]. rewrite Eresp. rewrite get_eq, Elook, Epend.
      erewrite seq_eq by apply clearTimeout_eq.
      unfold on_pending. erewrite seq_eq by reflexivity. fold s1. rewrite Hd.
      unfold console_error, Relay.modify. reflexivity.
    + right. exists k, tun, r, p, false. split_and!; try done.
      * unfold core, claimed. cbn. by rewrite app_nil_r.
      * intros Hwt. destruct (deliver_typed tid (p_res p) _ _ _ s1 Hwt) as (E' & r' & Hd').
        congruence.
Qed.


Lemma core_with_exchanges f s : core (with_exchanges f s) = core s.
Proof. reflexivity. Qed.

Lemma sweep_loop l : forall s,
  exists s',
    for_each sweep_step l s = (Returned tt, s') /\
    core s' =
      mkCore (tunnels s) (heap s) (next_ref s) (clear_all l (timers s)) (next_timer s)
        (suspended s) ((http_out s).*1 ++ exchanges_of l).
Proof.
  induction l as [|kp l IH]; intros s.
  - exists s. split; [reflexivity|]. unfold core. cbn. by rewrite app_nil_r.
  - cbn [for_each]. unfold sweep_step at 1.
    set (s1 := with_timers
                 (fun m => match p_timeout (snd kp) with Some t => delete t m | None => m end) s).
    assert (Hstep : (clearTimeout (p_timeout (snd kp));;
                     try_catch
                       (res_status (p_res (snd kp)) (JNum 503);;
                        res_send (p_res (snd kp)) "Tunnel disconnected.")
                       (fun _ => ret tt)) s
                    = (Returned tt, answer (p_res (snd kp)) 503 "Tunnel disconnected." s1)).
    { erewrite seq_eq by apply clearTimeout_eq. fold s1.
      unfold Relay.try_catch. rewrite res_answer by lia. reflexivity. }
    erewrite raw_bind_eq by exact Hstep.
    destruct (IH (answer (p_res (snd kp)) 503 "Tunnel disconnected." s1)) as (s' & Hrun & Hcore).
    exists s'. split; [done|]. rewrite Hcore. unfold answer, s1. cbn.
    rewrite fmap_app, <- app_assoc. reflexivity.
Qed.

Lemma on_close_effect tid s :
  exists s',
    on_close tid s = (Returned tt, s') /\
    match lookup_tunnel s tid with
    | Some (k, tun) =>
        core s' =
          mkCore (delete tid (tunnels s)) (heap s) (next_ref s)
            (clear_all (map_to_list (pendingRequests tun)) (timers s)) (next_timer s)
            (suspended s) ((http_out s).*1 ++ exchanges_of (map_to_list (pendingRequests tun)))
    | None => s' = s
    end.
Proof.
  unfold on_close. rewrite get_eq.
  destruct (lookup_tunnel s tid) as [[k tun]|].
  2: { by exists s. }
  destruct (sweep_loop (map_to_list (pendingRequests tun)) s) as (s1 & Hrun & Hcore).
  cbn beta iota.
  change (fun kp : string * Pending =>
            clearTimeout (p_timeout (snd kp));;
            try_catch
              (res_status (p_res (snd kp)) (JNum 503);;
               res_send (p_res (snd kp)) "Tunnel disconnected.")
              (fun _ => ret tt)) with sweep_step.
  erewrite seq_eq by exact Hrun.
  eexists. split; [reflexivity|].
  unfold core in *. cbn. injection Hcore as -> -> -> -> -> -> ->. reflexivity.
Qed.

Lemma on_connection_effect ws tid s :
  exists s',
    on_connection ws tid s = (Returned tt, s') /\
    (core s' = core s \/
     exists id, tid = Some id /\
       core s' =
         mkCore (<[id := next_ref s]> (tunnels s)) (<[next_ref s := mkTunnel ws ∅]> (heap s))
           (S (next_ref s)) (timers s) (next_timer s) (suspended s) ((http_out s).*1)).
Proof.
  unfold on_connection. destruct tid as [id|].
  2: { eexists. split; [reflexivity|]. by left. }
  destruct (id =? "")%string.
  { eexists. split; [reflexivity|]. by left. }
  eexists. split; [unfold ws_send; mrun; reflexivity|].
  right. exists id. split; [done|]. reflexivity.
Qed.

Lemma lookup_tunnel_Some s tid k tun :
  lookup_tunnel s tid = Some (k, tun) -> tunnels s !! tid = Some k /\ heap s !! k = Some tun.
Proof.
  unfold lookup_tunnel. destruct (tunnels s !! tid) as [k'|]; [|discriminate].
  destruct (heap s !! k') as [tun'|] eqn:E; [|discriminate].
  intros [= <- <-]. done.
Qed.

Lemma tunnel_request_effect res tid req reqId s :
  exists s',
    tunnel_request res tid req reqId s = (Returned tt, s') /\
    if offline s tid then s' = answer res 503 (offline_page tid) s
    else exists k tun,
      lookup_tunnel s tid = Some (k, tun) /\
      s' = with_suspended <[res := mkSuspended tid k reqId req]> s.
Proof.
  unfold tunnel_request, offline. rewrite get_eq.
  destruct (lookup_tunnel s tid) as [[k tun]|].
  - destruct (is_open (sockets s !! t_ws tun)); cbn.
    + eexists. split; [reflexivity|]. by exists k, tun.
    + eexists. split; [apply res_answer; lia|]. done.
  - eexists. split; [apply res_answer; lia|]. done.
Qed.

(** *** The deadline timer *)

Lemma on_timeout_present tm s :
  pending_has s (tm_tunnel tm) (tm_reqId tm) = true ->
  on_timeout tm s =
    (Returned tt,
     answer (tm_res tm) 504 "Gateway Timeout"
       (with_heap (alter (fun t => mkTunnel (t_ws t) (delete (tm_reqId tm) (pendingRequests t)))
                     (tm_tunnel tm)) s)).
Proof.
  intros Hp. unfold on_timeout. rewrite get_eq, Hp.
  unfold on_pending. erewrite seq_eq by reflexivity.
  apply res_answer. lia.
Qed.

Lemma on_timeout_absent tm s :
  pending_has s (tm_tunnel tm) (tm_reqId tm) = false ->
  on_timeout tm s = (Returned tt, s).
Proof. intros Hp. unfold on_timeout. rewrite get_eq, Hp. reflexivity. Qed.

Lemma step_timer_armed t tm s :
  timers s !! t = Some tm ->
  step (TimerFires t) s = on_timeout tm (with_timers (delete t) s).
Proof. intros Ht. cbn [step]. rewrite get_eq, Ht. reflexivity. Qed.

Lemma step_timer_cleared t s :
  timers s !! t = None -> step (TimerFires t) s = (Returned tt, s).
Proof. intros Ht. cbn [step]. rewrite get_eq, Ht. reflexivity. Qed.

(** *** Dispatch *)

Lemma resume_sent res chunks c tunnel s :
  suspended s !! res = Some c ->
  heap s !! su_tunnel c = Some tunnel ->
  exists s',
    tunnel_request_resume res chunks false s = (Returned tt, s') /\
    core s' =
      mkCore (tunnels s)
        (<[su_tunnel c :=
             mkTunnel (t_ws tunnel)
               (<[su_reqId c := mkPending res (su_tunnelId c) (Some (next_timer s))]>
                  (pendingRequests tunnel))]> (heap s))
        (next_ref s)
        (<[next_timer s := mkTimer (su_tunnel c) (su_reqId c) res DEADLINE]> (timers s))
        (S (next_timer s)) (delete res (suspended s)) ((http_out s).*1) /\
    ws_out s' = (ws_out s ++ [(t_ws tunnel, JSON_stringify (request_message c chunks))])%list.
Proof.
  intros Hs Hh. unfold tunnel_request_resume. rewrite get_eq, Hs.
  erewrite seq_eq by reflexivity. rewrite Hh.
  unfold on_pending, setTimeout, ws_send. mrun.
  eexists. split; [reflexivity|]. cbn. split; [|done].
  unfold core. cbn. f_equal.
  apply map_eq. intros k.
  destruct (decide (k = su_tunnel c)) as [->|Hne].
  - rewrite lookup_insert_eq, !lookup_alter_eq, Hh. cbn.
    f_equal. f_equal. apply map_eq. intros r.
    destruct (decide (r = su_reqId c)) as [->|Hr].
    + now rewrite lookup_alter_eq, !lookup_insert_eq.
    + now rewrite lookup_alter_ne, !lookup_insert_ne by congruence.
  - now rewrite lookup_insert_ne, !lookup_alter_ne by congruence.
Qed.

Lemma resume_throws res chunks c tunnel s :
  suspended s !! res = Some c ->
  heap s !! su_tunnel c = Some tunnel ->
  pendingRequests tunnel !! su_reqId c = None ->
  timers s !! next_timer s = None ->
  exists s',
    tunnel_request_resume res chunks true s = (Returned tt, s') /\
    core s' =
      mkCore (tunnels s) (heap s) (next_ref s) (timers s) (S (next_timer s))
        (delete res (suspended s)) ((http_out s).*1 ++ [res]) /\
    exists hs, http_out s' =
      (http_out s ++
        [(res, mkHttpResponse (JNum 502) hs "Failed to forward request to tunnel client.")])%list.
Proof.
  intros Hs Hh Hp Ht. unfold tunnel_request_resume. rewrite get_eq, Hs.
  erewrite seq_eq by reflexivity. rewrite Hh.
  unfold on_pending, setTimeout, ws_send, clearTimeout, res_status, res_send, exchange_of. mrun.
  rewrite lookup_insert_eq. cbn. rewrite status_ok_number by lia.
  eexists. split; [reflexivity|]. cbn. split; [|by eexists].
  unfold core. cbn. rewrite fmap_app. cbn. f_equal.
  - apply map_eq. intros k.
    destruct (decide (k = su_tunnel c)) as [->|Hne].
    + rewrite !lookup_alter_eq, Hh. cbn. destruct tunnel as [ws pr]. cbn in *.
      f_equal. f_equal. apply map_eq. intros r.
      destruct (decide (r = su_reqId c)) as [->|Hr].
      * now rewrite lookup_delete_eq.
      * now rewrite lookup_delete_ne, lookup_alter_ne, lookup_insert_ne by congruence.
    + now rewrite !lookup_alter_ne by congruence.
  - apply map_eq. intros t. destruct (decide (t = next_timer s)) as [->|Hne].
    + now rewrite lookup_delete_eq.
    + now rewrite lookup_delete_ne, lookup_insert_ne by congruence.
Qed.


(** *** One turn of the loop keeps the invariant *)

Lemma soa_ext c c' res :
  c_timers c' = c_timers c -> c_written c' = c_written c ->
  settled_or_armed c res -> settled_or_armed c' res.
Proof. unfold settled_or_armed. by intros -> ->. Qed.

Lemma pending_has_armed s t tm fres freq :
  InvC (core s) fres freq -> timers s !! t = Some tm ->
  pending_has (with_timers (delete t) s) (tm_tunnel tm) (tm_reqId tm) = true.
Proof.
  intros I Ht. destruct (i_timer _ _ _ I t tm Ht) as (_ & _ & tun & tid & Hk & Hp & _).
  cbn in Hk. unfold pending_has. cbn. rewrite Hk, Hp. by apply bool_decide_eq_true.
Qed.

Lemma step_inv e evs s :
  InvC (core s) (future_res (e :: evs)) (future_req (e :: evs)) ->
  exists s',
    step e s = (Returned tt, s') /\
    InvC (core s') (future_res evs) (future_req evs) /\
    (forall res0, conforming_event e = true ->
       settled_or_armed (core s) res0 -> settled_or_armed (core s') res0) /\
    (forall res chunks b, e = BodyEnd res chunks b -> is_Some (suspended s !! res) ->
       settled_or_armed (core s') res).
Proof.
  intros I. destruct e as [ws tid|ws rs|ws data|ws|res tid req reqId|res chunks b|t];
    cbn [future_res future_req] in I.
  - (* Connection *)
    cbn [step].
    destruct (on_connection_effect ws tid (with_sockets <[ws := OPEN]> s))
      as (s' & Hrun & Hcore).
    exists s'. split; [by erewrite seq_eq by reflexivity|].
    destruct Hcore as [Hcore|(id & -> & Hcore)]; rewrite Hcore.
    + split_and!; [done|done|]. intros ? ? ? [=].
    + split_and!.
      * apply (inv_register (core s)), I.
      * intros res0 _. by apply soa_ext.
      * intros ? ? ? [=].
  - (* SocketState *)
    exists (with_sockets <[ws := rs]> s). split_and!; [done|done|done|]. intros ? ? ? [=].
  - (* Message *)
    cbn [step]. rewrite get_eq.
    destruct (handlers s !! ws) as [tid|].
    2: { exists s. split_and!; [done|done|done|]. intros ? ? ? [=]. }
    destruct (on_message_effect tid data s) as (s' & Hrun & Hcore).
    exists s'. split; [done|].
    destruct Hcore as [Hcore|(k & tun & r & p & wr & Hlook & Hp & Hcore & Hwr)]; rewrite Hcore.
    { split_and!; [done|done|]. intros ? ? ? [=]. }
    apply lookup_tunnel_Some in Hlook as [Hreg Hk].
    destruct (i_reg _ _ _ I tid k tun r p Hreg Hk Hp) as (t & Hto & Ht).
    rewrite Hto. cbn in Ht.
    split_and!.
    + apply (inv_claim (core s) _ _ t _ wr I Ht).
    + intros res0 Hconf HP. cbn in Hconf. rewrite (Hwr Hconf).
      apply (keep_claim (core s) _ _ t _ true res0 I Ht); [by left | done].
    + intros ? ? ? [=].
  - (* Close *)
    cbn [step]. erewrite seq_eq by reflexivity. rewrite get_eq. cbn [handlers with_sockets].
    destruct (handlers s !! ws) as [tid|].
    2: { eexists. split_and!; [done|done|done|]. intros ? ? ? [=]. }
    destruct (on_close_effect tid (with_sockets <[ws := CLOSED]> s)) as (s' & Hrun & Hcore).
    exists s'. split; [done|].
    destruct (lookup_tunnel (with_sockets <[ws := CLOSED]> s) tid) as [[k tun]|] eqn:Hlook.
    2: { subst s'. split_and!; [done|done|]. intros ? ? ? [=]. }
    apply lookup_tunnel_Some in Hlook as [Hreg Hk]. cbn in Hreg, Hk, Hcore. rewrite Hcore.
    split_and!.
    + by apply (inv_sweep (core s) _ _ tid k tun I).
    + intros res0 _. by apply (keep_sweep (core s) _ _ tid k tun I).
    + intros ? ? ? [=].
  - (* TunnelRequest *)
    cbn [step].
    destruct (tunnel_request_effect res tid req reqId s) as (s' & Hrun & Hcase).
    exists s'. split; [done|].
    destruct (offline s tid).
    + subst s'. apply inv_drop_req in I. split_and!.
      * replace (core (answer res 503 (offline_page tid) s)) with
          (mkCore (c_tunnels (core s)) (c_heap (core s)) (c_next_ref (core s))
             (c_timers (core s)) (c_next_timer (core s)) (c_suspended (core s))
             (c_written (core s) ++ [res])).
        { by apply inv_write. }
        unfold core, answer. cbn. by rewrite fmap_app.
      * intros res0 _ HP.
        replace (core (answer res 503 (offline_page tid) s)) with
          (mkCore (c_tunnels (core s)) (c_heap (core s)) (c_next_ref (core s))
             (c_timers (core s)) (c_next_timer (core s)) (c_suspended (core s))
             (c_written (core s) ++ [res])).
        { by eapply keep_write. }
        unfold core, answer. cbn. by rewrite fmap_app.
      * intros ? ? ? [=].
    + destruct Hcase as (k & tun & Hlook & ->).
      apply lookup_tunnel_Some in Hlook as [Hreg Hk]. split_and!.
      * apply (inv_suspend (core s) _ _ res (mkSuspended tid k reqId req)); [done|].
        cbn. by eexists.
      * intros res0 _. by apply soa_ext.
      * intros ? ? ? [=].
  - (* BodyEnd *)
    cbn [step].
    destruct (suspended s !! res) as [c|] eqn:Hsu.
    2: { exists s. split_and!.
         - unfold tunnel_request_resume. by rewrite get_eq, Hsu.
         - done.
         - done.
         - intros ? ? ? [= -> _ _] [? Hs]. congruence. }
    destruct (i_susp _ _ _ I res c Hsu) as ([tun Hk] & Hw & Ha & Hu & _).
    cbn in Hk. destruct b.
    + destruct (resume_throws res chunks c tun s Hsu Hk) as (s' & Hrun & Hcore & _).
      { by eapply Hu. }
      { apply (timer_fresh _ _ _ I). }
      exists s'. split; [done|]. rewrite Hcore. split_and!.
      * by apply (inv_fail (core s) _ _ res c).
      * intros res0 _ HP. apply (keep_fail (core s) _ _ res c res0 I Hsu). by right.
      * intros res' ? ? [= <- _ _] _. apply (keep_fail (core s) _ _ res c res I Hsu). by left.
    + destruct (resume_sent res chunks c tun s Hsu Hk) as (s' & Hrun & Hcore & _).
      exists s'. split; [done|]. rewrite Hcore. split_and!.
      * by apply (inv_arm (core s) _ _ res c tun).
      * intros res0 _ HP. apply (keep_arm (core s) _ _ res c tun res0 I Hsu). by right.
      * intros res' ? ? [= <- _ _] _. apply (keep_arm (core s) _ _ res c tun res I Hsu). by left.
  - (* TimerFires *)
    destruct (timers s !! t) as [tm|] eqn:Ht.
    2: { exists s. split_and!; [by apply step_timer_cleared|done|done|]. intros ? ? ? [=]. }
    eexists. split.
    { rewrite (step_timer_armed t tm s Ht).
      apply on_timeout_present. by eapply pending_has_armed. }
    replace (core _) with
      (mkCore (c_tunnels (core s))
         (alter (fun tun => mkTunnel (t_ws tun) (delete (tm_reqId tm) (pendingRequests tun)))
            (tm_tunnel tm) (c_heap (core s)))
         (c_next_ref (core s)) (delete t (c_timers (core s))) (c_next_timer (core s))
         (c_suspended (core s))
         (c_written (core s) ++ (if true then [tm_res tm] else []))).
    2: { unfold core, answer. cbn. by rewrite fmap_app. }
    split_and!.
    + apply (inv_claim (core s) _ _ t tm true I Ht).
    + intros res0 _ HP. apply (keep_claim (core s) _ _ t tm true res0 I Ht); [by left|done].
    + intros ? ? ? [=].
Qed.

Lemma run_cons e evs s s1 :
  step e s = (Returned tt, s1) -> run (e :: evs) s = run evs s1.
Proof. intros E. cbn [run]. by erewrite seq_eq by exact E. Qed.

Lemma run_inv evs : forall s,
  InvC (core s) (future_res evs) (future_req evs) ->
  forallb conforming_event evs = true ->
  exists s',
    run evs s = (Returned tt, s') /\
    InvC (core s') [] [] /\
    (forall res0, settled_or_armed (core s) res0 -> settled_or_armed (core s') res0) /\
    (forall res, dispatched_from s evs res -> settled_or_armed (core s') res).
Proof.
  induction evs as [|e evs IH]; intros s I Hconf.
  - exists s. split_and!; [done|done|done|].
    intros res (evs1 & ? & ? & ? & ? & E & _). by destruct evs1.
  - cbn [forallb] in Hconf. apply andb_prop in Hconf as [He Hconf].
    destruct (step_inv e evs s I) as (s1 & Hstep & I1 & Hkeep & Hnew).
    destruct (IH s1 I1 Hconf) as (s' & Hrun & I' & Hkeep' & Hnew').
    exists s'. split_and!.
    + by rewrite (run_cons _ _ _ _ Hstep).
    + done.
    + intros res0 HP. apply Hkeep', Hkeep; done.
    + intros res (evs1 & chunks & b & evs2 & s0 & E & Hrun0 & Hsu).
      destruct evs1 as [|e' evs1].
      * cbn in E. injection E as -> ->. cbn in Hrun0. injection Hrun0 as <-.
        apply Hkeep'. by eapply Hnew.
      * cbn in E. injection E as <- ->.
        rewrite (run_cons _ _ _ _ Hstep) in Hrun0.
        apply Hnew'. by exists evs1, chunks, b, evs2, s0.
Qed.

Lemma inv_initial fres freq :
  NoDup fres -> NoDup freq -> InvC (core initial) fres freq.
Proof.
  intros Hr Hq. constructor; cbn; try done.
  - intros res _. split_and!; try done. by intros (? & ? & ? & _).
  - cbn. lia.
Qed.

Lemma armed_in_flight s res fres freq :
  InvC (core s) fres freq -> armed_in (timers s) res -> in_flight s res.
Proof.
  intros I (t & tm & Ht & Hres).
  destruct (i_timer _ _ _ I t tm Ht) as (_ & Hd & tun & tid & Hk & Hp & Hw).
  split; [unfold writes; by rewrite <- Hres|].
  exists t, tm. eexists. split_and!; try done.
  - rewrite (step_timer_armed t tm s Ht).
    apply on_timeout_present. by eapply pending_has_armed.
  - cbn. by rewrite Hres.
Qed.


(** *** The claims about the relay *)

Lemma offline_page_text (tunnelId : string) :
  includes "Tunnel Offline" (offline_page tunnelId) = true.
Proof.
  unfold offline_page.
  do 4 apply includes_app_r. apply includes_app_l. vm_compute. reflexivity.
Qed.

Lemma offline_spec (s : Server) (tunnelId : string) :
  tunnels s !! tunnelId = None \/
  (exists k t, tunnels s !! tunnelId = Some k /\ heap s !! k = Some t /\
               sockets s !! t_ws t <> Some OPEN) ->
  offline s tunnelId = true.
Proof.
  unfold offline, lookup_tunnel.
  intros [-> | (k & t & -> & -> & Hn)]; [reflexivity|].
  destruct (sockets s !! t_ws t) as [[]|]; try reflexivity. congruence.
Qed.

Lemma tunnel_request_offline res tunnelId req reqId s :
  offline s tunnelId = true ->
  tunnel_request res tunnelId req reqId s =
    (Returned tt, answer res 503 (offline_page tunnelId) s).
Proof.
  unfold offline, tunnel_request. intros Hoff.
  rewrite get_eq.
  destruct (lookup_tunnel s tunnelId) as [[k t]|].
  - destruct (is_open (sockets s !! t_ws t)); [discriminate|].
    apply res_answer; lia.
  - apply res_answer; lia.
Qed.

(** C3. A tunnel request whose tunnel id has no registry entry, or whose
    registered socket is not [OPEN], is answered in the same turn with status
    503 and a page that contains the text "Tunnel Offline"; no handler is
    suspended, no timer armed, and the registry and every pending map are as
    they were. *)
Theorem tunnel_offline_503 (s : Server) (res : ResId) (tunnelId : string)
    (req : HttpReq) (reqId : string) :
  tunnels s !! tunnelId = None \/
  (exists k t, tunnels s !! tunnelId = Some k /\ heap s !! k = Some t /\
               sockets s !! t_ws t <> Some OPEN) ->
  exists s',
    tunnel_request res tunnelId req reqId s = (Returned tt, s') /\
    http_out s' =
      (http_out s ++
        [(res, mkHttpResponse (JNum 503) (headers (exchange_of s res)) (offline_page tunnelId))])%list /\
    includes "Tunnel Offline" (offline_page tunnelId) = true /\
    heap s' = heap s /\ tunnels s' = tunnels s /\
    suspended s' = suspended s /\ timers s' = timers s.
Proof.
  intros Hoff. apply offline_spec in Hoff.
  eexists. split; [apply tunnel_request_offline, Hoff|].
  split; [reflexivity|]. split; [apply offline_page_text|].
  repeat split.
Qed.

(** C4. The deadline is 30000 ms.  A dispatch arms a timer with that delay
    for its correlation id.  When the timer fires and the pending request is
    still filed, the entry is removed and 504 "Gateway Timeout" is written to
    its exchange; when the entry is gone, nothing happens but that the timer
    has fired. *)
Theorem deadline_expiry :
  DEADLINE = 30000%Z /\
  (forall s res chunks c tunnel,
     suspended s !! res = Some c ->
     heap s !! su_tunnel c = Some tunnel ->
     exists s',
       tunnel_request_resume res chunks false s = (Returned tt, s') /\
       timers s' !! next_timer s =
         Some (mkTimer (su_tunnel c) (su_reqId c) res 30000) /\
       pending_has s' (su_tunnel c) (su_reqId c) = true) /\
  (forall s t tm,
     timers s !! t = Some tm ->
     pending_has s (tm_tunnel tm) (tm_reqId tm) = true ->
     exists s',
       step (TimerFires t) s = (Returned tt, s') /\
       pending_has s' (tm_tunnel tm) (tm_reqId tm) = false /\
       timers s' = delete t (timers s) /\
       http_out s' =
         (http_out s ++
           [(tm_res tm,
             mkHttpResponse (JNum 504) (headers (exchange_of s (tm_res tm)))
               "Gateway Timeout")])%list) /\
  (forall s t tm,
     timers s !! t = Some tm ->
     pending_has s (tm_tunnel tm) (tm_reqId tm) = false ->
     step (TimerFires t) s = (Returned tt, with_timers (delete t) s)).
Proof.
  split; [reflexivity|]. split; [|split].
  - intros s res chunks c tunnel Hs Hk.
    destruct (resume_sent res chunks c tunnel s Hs Hk) as (s' & Hrun & Hcore & _).
    exists s'. split; [done|].
    unfold core in Hcore. injection Hcore as _ Hheap _ Htimers _ _ _.
    split.
    + rewrite Htimers. apply lookup_insert_eq.
    + unfold pending_has. rewrite Hheap, lookup_insert_eq. cbn.
      rewrite lookup_insert_eq. by apply bool_decide_eq_true.
  - intros s t tm Ht Hp.
    eexists. split.
    { rewrite (step_timer_armed t tm s Ht). by apply on_timeout_present. }
    split_and!; try done.
    unfold pending_has in *. cbn.
    destruct (heap s !! tm_tunnel tm) as [tun|] eqn:E; [|discriminate].
    rewrite lookup_alter_eq, E. cbn. rewrite lookup_delete_eq.
    apply bool_decide_eq_false. by intros [? ?].
  - intros s t tm Ht Hp.
    rewrite (step_timer_armed t tm s Ht). by apply on_timeout_absent.
Qed.

(** C10. The status endpoint answers [connected: true] exactly when the
    registry has an entry for the id, whatever the state of any socket; the
    tunnel request handler also looks at the socket.  So after a connection
    for "abc123" whose socket has gone to [CLOSING], the status endpoint says
    connected and a tunnel request is answered 503. *)
Theorem status_reads_registry_only :
  (forall s tunnelId, connected s tunnelId = true <-> is_Some (tunnels s !! tunnelId)) /\
  (forall s f tunnelId, connected (with_sockets f s) tunnelId = connected s tunnelId) /\
  (forall s res tunnelId,
     exchanges s !! res = None ->
     exists s',
       api_status res tunnelId s = (Returned tt, s') /\
       http_out s' =
         (http_out s ++
           [(res,
             mkHttpResponse (JNum 200) []
               (JSON_stringify
                  (JObj [("tunnelId", JStr tunnelId);
                         ("connected", JBool (connected s tunnelId))])))])%list) /\
  (exists s,
     run [Connection 0 (Some "abc123"); SocketState 0 CLOSING] initial = (Returned tt, s) /\
     connected s "abc123" = true /\
     offline s "abc123" = true /\
     forall res req reqId,
       tunnel_request res "abc123" req reqId s =
         (Returned tt, answer res 503 (offline_page "abc123") s)).
Proof.
  split_and!.
  - intros s tunnelId. unfold connected.
    destruct (tunnels s !! tunnelId) as [k|]; split; intros Hx;
      first [done | by eexists | by destruct Hx].
  - done.
  - intros s res tunnelId Hex. unfold api_status, res_json, res_send, exchange_of.
    rewrite get_eq, get_eq, Hex. cbn.
    rewrite status_ok_number by lia. eexists. split; reflexivity.
  - eexists. split; [unfold ws_send; mrun; reflexivity|].
    assert (Hoff : offline
      (with_sockets <[0:=CLOSING]>
         (with_handlers <[0:="abc123"]>
            (with_ws_out
               (fun o => (o ++ [(0, JSON_stringify
                   (JObj [("type", JStr "connected"); ("tunnelId", JStr "abc123")]))])%list)
               (with_tunnels <["abc123":=0]>
                  (with_heap <[0:=mkTunnel 0 ∅]>
                     (with_next_ref 1 (with_sockets <[0:=OPEN]> initial)))))))
      "abc123" = true) by (vm_compute; reflexivity).
    split; [vm_compute; reflexivity|]. split; [exact Hoff|].
    intros res req reqId. by apply tunnel_request_offline.
Qed.

(** What holds of C1.  On every trace of events in which the exchanges and
    the correlation ids of the tunnel requests are fresh and every [response]
    message is typed as the protocol has it, the loop never stops on an
    exception; no exchange is ever answered twice; and every request that was
    dispatched has exactly one response, or is in flight: nothing answered
    yet, its deadline armed, and the firing of that timer answers 504.  A [response] message
    that finds no registry entry, or no pending request under its [reqId],
    leaves the whole state as it was. *)
Theorem one_outcome_per_request :
  (forall evs,
     NoDup (future_res evs) -> NoDup (future_req evs) ->
     forallb conforming_event evs = true ->
     exists s,
       run evs initial = (Returned tt, s) /\
       (forall res, writes res s <= 1) /\
       (forall res, dispatched_from initial evs res -> writes res s = 1 \/ in_flight s res)) /\
  (forall s tunnelId data msg,
     JSON_parse data = Some msg ->
     Js.prop (Some msg) "type" = Returned (Some (JStr "response")) ->
     match lookup_tunnel s tunnelId with
     | Some (_, tunnel) => pending_get tunnel (Js.opt_prop (Some msg) "reqId") = None
     | None => True
     end ->
     on_message tunnelId data s = (Returned tt, s)).
Proof.
  split.
  - intros evs Hres Hreq Hconf.
    destruct (run_inv evs initial (inv_initial _ _ Hres Hreq) Hconf)
      as (s & Hrun & I & _ & Hnew).
    exists s. split_and!; [done| |].
    + intros res. apply (i_once _ _ _ I).
    + intros res Hd. destruct (Hnew res Hd) as [Hw|Ha]; [by left|].
      right. by eapply armed_in_flight.
  - intros s tunnelId data msg Hparse Htype Hgone.
    unfold on_message. rewrite Hparse.
    unfold Relay.try_catch, Relay.lift. unfold mbind at 1, M_bind at 1, Relay.bind at 1.
    rewrite Htype. cbn [Js.is_string String.eqb Ascii.eqb Bool.eqb].
    rewrite get_eq.
    destruct (lookup_tunnel s tunnelId) as [[k tunnel]|]; [|done].
    by rewrite Hgone.
Qed.

Lemma plain_content_type hs :
  not_html hs = true ->
  exists ct,
    Js.call_toLowerCase (Js.or_else (Js.opt_prop (Some (JObj hs)) "content-type") (JStr ""))
      = Returned ct /\
    includes "text/html" ct = false.
Proof.
  unfold not_html. cbn [Js.opt_prop].
  destruct (Js.assoc "content-type" hs) as [[| | |ct| |]|]; try discriminate.
  - intros Hn. apply negb_true_iff in Hn. unfold Js.or_else.
    destruct (Js.truthy (Some (JStr ct))); cbn; eexists; split; try reflexivity; done.
  - intros _. by exists "".
Qed.



(** What holds of C9.  A target URL that does not parse makes
    [forwardToLocal] resolve with status 400, empty headers and no body.  A
    tunnel message that does not
    parse is logged by the relay's handler and changes nothing else; whatever
    the message, that handler returns, and so does the turn of the event loop
    that runs it.  The client's handler drops a message that does not parse
    without any effect. *)
Theorem malformed_input_is_contained :
  (forall localUrl local reqData s,
     URL_parse
       (localUrl ++ Js.to_string (Js.or_else (Js.opt_prop (Some reqData) "path") (JStr "/")))
       = None ->
     Client.forwardToLocal localUrl local reqData s =
       (Returned (Client.mkResponse (JNum 400) (JObj []) JNull), s)) /\
  (forall tunnelId data s,
     JSON_parse data = None ->
     on_message tunnelId data s =
       (Returned tt,
        with_console
          (fun c => (c ++ ["WS message error: SyntaxError: Unexpected token in JSON"])%list) s)) /\
  (forall tunnelId data s, exists s', on_message tunnelId data s = (Returned tt, s')) /\
  (forall ws data s, exists s', step (Message ws data) s = (Returned tt, s')) /\
  (forall localUrl local data s,
     JSON_parse data = None ->
     Client.on_message localUrl local data s = (Returned tt, s)).
Proof.
  split_and!.
  - intros. by apply ClientFacts.forward_bad_url.
  - intros tunnelId data s Hp. unfold on_message. by rewrite Hp.
  - intros tunnelId data s. destruct (on_message_effect tunnelId data s) as (s' & Hrun & _).
    by exists s'.
  - intros ws data s. cbn [step]. rewrite get_eq.
    destruct (handlers s !! ws) as [tid|]; [|by exists s].
    destruct (on_message_effect tid data s) as (s' & Hrun & _). by exists s'.
  - intros. by apply ClientFacts.client_unparseable.
Qed.

End Effects.

(** *** The model run on concrete traces *)

Lemma nodup_by_computation {A} `{EqDecision A} (l : list A) :
  bool_decide (NoDup l) = true -> NoDup l.
Proof. apply bool_decide_eq_true_1. Qed.

Lemma one_outcome_per_request_witness :
  let evs :=
    (Demo.one_request ++
     [Message 0 (Demo.print Demo.plain_response);
      Message 0 (Demo.print Demo.plain_response);
      TimerFires 0; Close 0])%list in
  exists s,
    @run Demo.node evs initial = (Returned tt, s) /\
    (forall res, writes res s <= 1) /\
    (forall res, @dispatched_from Demo.node initial evs res -> writes res s = 1 \/ @in_flight Demo.node s res).
Proof.
  apply (proj1 (@one_outcome_per_request Demo.node)).
  - apply nodup_by_computation. vm_compute. reflexivity.
  - apply nodup_by_computation. vm_compute. reflexivity.
  - vm_compute. reflexivity.
Defined.

Lemma tunnel_offline_503_witness :
  exists s',
    @tunnel_request Demo.node 1 "abc123" (mkHttpReq "GET" "/t/abc123/" []) "r1" initial
      = (Returned tt, s') /\
    http_out s' =
      ([] ++ [(1, mkHttpResponse (JNum 503) (headers (exchange_of initial 1))
                    (offline_page "abc123"))])%list /\
    includes "Tunnel Offline" (offline_page "abc123") = true /\
    heap s' = heap initial /\ tunnels s' = tunnels initial /\
    suspended s' = suspended initial /\ timers s' = timers initial.
Proof.
  apply (@tunnel_offline_503 Demo.node initial 1 "abc123" (mkHttpReq "GET" "/t/abc123/" []) "r1").
  left. reflexivity.
Defined.


Lemma deadline_expiry_witness :
  let s := snd (@run Demo.node Demo.one_request initial) in
  exists s',
    @step Demo.node (TimerFires 0) s = (Returned tt, s') /\
    pending_has s' 0 "r1" = false /\
    timers s' = delete 0 (timers s) /\
    http_out s' =
      (http_out s ++
        [(1, mkHttpResponse (JNum 504) (headers (exchange_of s 1)) "Gateway Timeout")])%list.
Proof.
  apply (proj1 (proj2 (proj2 (@deadline_expiry Demo.node)))
           (snd (@run Demo.node Demo.one_request initial)) 0 (mkTimer 0 "r1" 1 30000)).
  - vm_compute. reflexivity.
  - vm_compute. reflexivity.
Defined.

Lemma status_reads_registry_only_witness :
  exists s',
    @api_status Demo.node 7 "abc123" initial = (Returned tt, s') /\
    http_out s' =
      ([] ++
        [(7, mkHttpResponse (JNum 200) []
               (Demo.print
                  (JObj [("tunnelId", JStr "abc123");
                         ("connected", JBool (connected initial "abc123"))])))])%list.
Proof.
  apply (proj1 (proj2 (proj2 (@status_reads_registry_only Demo.node))) initial 7 "abc123").
  reflexivity.
Defined.

Lemma malformed_input_is_contained_witness :
  @Client.forwardToLocal Demo.node "localhost" Demo.refused Demo.hello_request Client.initial
    = (Returned (Client.mkResponse (JNum 400) (JObj []) JNull), Client.initial) /\
  @on_message Demo.node "abc" "not json" initial =
    (Returned tt,
     with_console
       (fun c => (c ++ ["WS message error: SyntaxError: Unexpected token in JSON"])%list)
       initial).
Proof.
  split.
  - apply (proj1 (@malformed_input_is_contained Demo.node)). vm_compute. reflexivity.
  - apply (proj1 (proj2 (@malformed_input_is_contained Demo.node))). vm_compute. reflexivity.
Defined.


(** C2, on the code.  A second client connects for [abc] while the first is
    still there, and a request is dispatched on each.  When the first
    connection closes, its handler looks the tunnel up by id and finds the
    second one's object: the request of the second connection is failed with
    503, the registry entry of the second connection is removed although its
    socket is open, and the request of the first connection is left with its
    deadline running. *)
Lemma close_of_superseded_connection :
  exists s,
    @run Demo.node Demo.superseded initial = (Returned tt, s) /\
    http_out s = [(2, mkHttpResponse (JNum 503) [] "Tunnel disconnected.")] /\
    tunnels s !! "abc" = None /\
    sockets s !! 1 = Some OPEN /\
    writes 1 s = 0 /\
    timers s !! 0 = Some (mkTimer 0 "r1" 1 30000).
Proof. eexists. split; [vm_compute; reflexivity|]. repeat split. Qed.

(** C1, on the code.  A [response] that matches the pending request and
    carries a content type that is no string has been taken out of the
    pending map when [toLowerCase] throws: the entry is removed, the timer
    cleared, the error logged, and nothing is handed to the exchange.  The
    request has no outcome, and none can follow: a well-typed response for
    the same id, the firing of the timer and the close of the connection all
    find nothing to answer. *)
Lemma ill_typed_response_consumes_request :
  let node := Demo.runtime [Demo.ill_typed_response; Demo.plain_response] in
  let lost := (Demo.one_request ++ [Message 0 (Demo.print Demo.ill_typed_response)])%list in
  @conforming_event node (Message 0 (Demo.print Demo.ill_typed_response)) = false /\
  (exists s,
     @run node lost initial = (Returned tt, s) /\
     http_out s = [] /\
     timers s = ∅ /\
     pending_has s 0 "r1" = false /\
     length (console s) = 1) /\
  (exists s,
     @run node
       (lost ++ [Message 0 (Demo.print Demo.plain_response); TimerFires 0; Close 0])%list
       initial = (Returned tt, s) /\
     writes 1 s = 0 /\
     http_out s = []).
Proof.
  split; [vm_compute; reflexivity|]. split.
  - eexists. split; [vm_compute; reflexivity|]. repeat split.
  - eexists. split; [vm_compute; reflexivity|]. repeat split.
Qed.

End RelayFacts.

(** ** The client's command line *)

Module CliFacts.
Import Cli.

Lemma strip_prefix (p r : string) : strip p (p ++ r) = Some r.
Proof.
  induction p as [|c p IH]; [reflexivity|].
  change (String c p ++ r) with (String c (p ++ r)). cbn [strip].
  by rewrite Ascii.eqb_refl.
Qed.

Lemma strip_inv (p s r : string) : strip p s = Some r -> s = p ++ r.
Proof.
  revert s. induction p as [|c p IH]; intros s; cbn [strip].
  - by intros [= ->].
  - destruct s as [|d s]; [discriminate|].
    destruct (Ascii.eqb c d) eqn:E; [|discriminate].
    apply Ascii.eqb_eq in E as <-. intros Hs.
    change (String c p ++ r) with (String c (p ++ r)). f_equal. by apply IH.
Qed.

Lemma strip_trailing_slash_cons (c : ascii) (r : string) :
  Ascii.eqb c "/" = false ->
  strip_trailing_slash (String c r) = String c (strip_trailing_slash r).
Proof. intros Hc. destruct r; cbn [strip_trailing_slash]; by rewrite ?Hc. Qed.

Lemma strip_trailing_slash_snoc (b : string) : strip_trailing_slash (b ++ "/") = b.
Proof.
  induction b as [|c b IH]; [reflexivity|].
  change (String c b ++ "/") with (String c (b ++ "/")).
  cbn [strip_trailing_slash]. rewrite IH.
  destruct b; reflexivity.
Qed.

Lemma strip_trailing_slash_keeps (s : string) :
  (forall b, s <> b ++ "/") -> strip_trailing_slash s = s.
Proof.
  induction s as [|c r IH]; intros Hs; [reflexivity|].
  destruct r as [|d r'].
  - cbn [strip_trailing_slash]. destruct (Ascii.eqb c "/") eqn:E; [|reflexivity].
    apply Ascii.eqb_eq in E as ->. by destruct (Hs "").
  - cbn [strip_trailing_slash]. f_equal. apply IH.
    intros b Hb. apply (Hs (String c b)).
    change (String c b ++ "/") with (String c (b ++ "/")). by rewrite Hb.
Qed.

(** X1. [replace(/\/$/, '')], applied to the local URL and to the server URL,
    removes the slash that ends the input and nothing else: a second slash
    before it stays, and an input that does not end in a slash is returned as
    it is. *)
Theorem strip_trailing_slash_spec :
  (forall b, strip_trailing_slash (b ++ "/") = b) /\
  (forall s, (forall b, s <> b ++ "/") -> strip_trailing_slash s = s) /\
  (forall b, localUrl (b ++ "//") = b ++ "/").
Proof.
  split; [apply strip_trailing_slash_snoc|]. split.
  - apply strip_trailing_slash_keeps.
  - intros b. unfold localUrl.
    replace (b ++ "//") with ((b ++ "/") ++ "/"); [apply strip_trailing_slash_snoc|].
    by rewrite RewriterFacts.append_assoc.
Qed.

(** X2. Whether the server URL is given with an [http] or with a [ws] scheme
    ([https] and [wss] included, the [s] being part of the rest), the client
    connects to the [ws] form of it and prints the [http] form of it, each
    without the trailing slash and followed by its fixed path. *)
Theorem addresses_of_server_url (rest tunnelId : string) :
  wsUrl ("http" ++ rest) tunnelId
    = "ws" ++ strip_trailing_slash rest ++ "/ws/client?tunnelId=" ++ tunnelId /\
  publicUrl ("http" ++ rest) tunnelId
    = "http" ++ strip_trailing_slash rest ++ "/t/" ++ tunnelId ++ "/" /\
  wsUrl ("ws" ++ rest) tunnelId
    = "ws" ++ strip_trailing_slash rest ++ "/ws/client?tunnelId=" ++ tunnelId /\
  publicUrl ("ws" ++ rest) tunnelId
    = "http" ++ strip_trailing_slash rest ++ "/t/" ++ tunnelId ++ "/".
Proof.
  assert (Hws : forall r, strip_trailing_slash ("ws" ++ r) = "ws" ++ strip_trailing_slash r).
  { intros r. change ("ws" ++ r) with (String "w" (String "s" r)).
    by rewrite !strip_trailing_slash_cons. }
  assert (Hb1 : wsBase ("http" ++ rest) = "ws" ++ strip_trailing_slash rest).
  { unfold wsBase, http_to_ws. by rewrite (strip_prefix "http" rest), Hws. }
  assert (Hb2 : wsBase ("ws" ++ rest) = "ws" ++ strip_trailing_slash rest).
  { unfold wsBase, http_to_ws.
    replace (strip "http" ("ws" ++ rest)) with (@None string) by reflexivity.
    apply Hws. }
  assert (Hh : forall r, ws_to_http ("ws" ++ r) = "http" ++ r).
  { intros r. unfold ws_to_http. by rewrite (strip_prefix "ws" r). }
  unfold wsUrl, publicUrl, httpBase. rewrite Hb1, Hb2, !Hh.
  rewrite !RewriterFacts.append_assoc. done.
Qed.

End CliFacts.

(** ** The client's session *)

Module SessionFacts.
Import Client Session.

Lemma run_snoc evs e s : run (evs ++ [e]) s = step e (run evs s).
Proof. unfold run. by rewrite foldl_app. Qed.

Lemma closes_snoc evs e :
  closes (evs ++ [e]) = (closes evs + match e with Closed => 1 | Open => 0 end)%nat.
Proof.
  unfold closes. rewrite List.filter_app, length_app. by destruct e.
Qed.

(** X3. Whatever the order of [open] and [close] events, the reconnect delay
    stays between 2000 ms and 15000 ms, every reconnect is scheduled after a
    delay in that range, and each [close] schedules exactly one reconnect: the
    client never stops trying and never waits longer than 15 s. *)
Theorem session_delays_in_range (evs : list event) :
  let s := run evs initial in
  in_range (reconnectDelay s) /\
  Forall in_range (reconnects s) /\
  List.length (reconnects s) = closes evs /\
  shouldReconnect s = true.
Proof.
  induction evs as [|e evs IH] using rev_ind.
  - cbn. split_and!; [split; done | constructor | done | done].
  - cbn zeta in *. rewrite run_snoc, closes_snoc.
    destruct IH as ([Hlo Hhi] & Hall & Hlen & Hsr).
    set (s := run evs initial) in *.
    destruct e; cbn [step].
    + split_and!; [split; done | done | by rewrite Nat.add_0_r | done].
    + rewrite ClientFacts.on_close_shouldReconnect.
      rewrite ClientFacts.on_close_delay, ClientFacts.on_close_reconnects, Hsr.
      split_and!.
      * split.
        -- apply Q.min_glb; [|done].
           generalize dependent (reconnectDelay s). intros d Hlo _. lra.
        -- apply Q.le_min_r.
      * apply Forall_app. split; [done|]. by repeat constructor.
      * rewrite length_app. cbn. by rewrite Hlen.
      * done.
Qed.

End SessionFacts.

(** ** Dispatch: from the public request to the tunnel *)

Module DispatchFacts.
Import Relay Correlation RelayFacts.

Lemma remove_first_prefix (p rest : string) : remove_first p (p ++ rest) = rest.
Proof.
  pose proof (CliFacts.strip_prefix p rest) as Hs.
  destruct (p ++ rest) as [|c r]; cbn [remove_first]; by rewrite Hs.
Qed.

Lemma remove_first_absent (p s : string) : includes p s = false -> remove_first p s = s.
Proof.
  induction s as [|c r IH]; cbn [includes remove_first]; unfold startsWith.
  - destruct (strip p ""); [discriminate | done].
  - destruct (strip p (String c r)); [discriminate|].
    cbn [orb]. intros Hr. f_equal. by apply IH.
Qed.

Lemma rawPath_nonempty (tunnelId : string) (req : HttpReq) : rawPath tunnelId req <> "".
Proof. unfold rawPath. by destruct (remove_first _ _). Qed.

(** X4. The path sent down the tunnel is the URL of the public request with
    its first [/t/<tunnelId>] cut out, the query string included, and [/] when
    nothing is left; a URL in which the prefix does not occur as the decoded
    id spells it is sent whole.  The path is never empty. *)
Theorem rawPath_spec (tunnelId : string) (req : HttpReq) :
  (forall rest, originalUrl req = base_of tunnelId ++ rest ->
     rawPath tunnelId req = if String.eqb rest "" then "/" else rest) /\
  (includes (base_of tunnelId) (originalUrl req) = false ->
     rawPath tunnelId req = if String.eqb (originalUrl req) "" then "/" else originalUrl req) /\
  rawPath tunnelId req <> "".
Proof.
  unfold rawPath. split_and!.
  - intros rest ->. rewrite remove_first_prefix. by destruct rest.
  - intros Hn. rewrite (remove_first_absent _ _ Hn). by destruct (originalUrl req).
  - by destruct (remove_first _ _).
Qed.

Lemma rawPath_spec_witness :
  rawPath "abc" (mkHttpReq "GET" "/t/abc/api/items?page=2" [])
    = (if String.eqb "/api/items?page=2" "" then "/" else "/api/items?page=2") /\
  rawPath "a b" (mkHttpReq "GET" "/t/a%20b/x" [])
    = (if String.eqb "/t/a%20b/x" "" then "/" else "/t/a%20b/x").
Proof.
  split.
  - apply (proj1 (rawPath_spec "abc" (mkHttpReq "GET" "/t/abc/api/items?page=2" []))).
    reflexivity.
  - apply (proj1 (proj2 (rawPath_spec "a b" (mkHttpReq "GET" "/t/a%20b/x" [])))).
    reflexivity.
Defined.

Section Dispatch.
Context `{Runtime}.

(** X5. A request that the middleware hands to the handler with its body
    unread (no [OPTIONS] request, no JSON content type), for a tunnel whose
    socket is open, is not answered by the handler: when the [end] listener
    fires, one [request] message goes out on the socket of the tunnel, with
    the correlation id, the method, the path without the prefix, the headers
    without [host] and the body in base64; the pending request is filed under
    the id and the handler hands no response to Express.  (A JSON body is read
    by [express.json()] before the handler runs; the listener then never
    fires and none of this happens.) *)
Theorem open_tunnel_dispatches (s : Server) (res : ResId) (tunnelId reqId : string)
    (req : HttpReq) (chunks : list string) (k : TunnelRef) (tun : Tunnel) :
  Premises.passes_middleware req = true ->
  lookup_tunnel s tunnelId = Some (k, tun) ->
  sockets s !! t_ws tun = Some OPEN ->
  exists s',
    run [TunnelRequest res tunnelId req reqId; BodyEnd res chunks false] s = (Returned tt, s') /\
    http_out s' = http_out s /\
    ws_out s' =
      (ws_out s ++
        [(t_ws tun,
          JSON_stringify
            (JObj [("type", JStr "request");
                   ("reqId", JStr reqId);
                   ("method", JStr (method req));
                   ("path", JStr (rawPath tunnelId req));
                   ("headers",
                     JObj (List.filter (fun kv => negb (String.eqb (fst kv) "host"))
                             (req_headers req)));
                   ("body", encode_body chunks)]))])%list /\
    pending_has s' k reqId = true /\
    suspended s' !! res = None /\
    tunnels s' = tunnels s.
Proof.
  intros _ Hlook Hopen.
  destruct (lookup_tunnel_Some _ _ _ _ Hlook) as [Hreg Hheap].
  set (c := mkSuspended tunnelId k reqId req).
  set (s1 := with_suspended <[res := c]> s).
  assert (H1 : tunnel_request res tunnelId req reqId s = (Returned tt, s1)).
  { unfold tunnel_request. rewrite get_eq, Hlook, Hopen. reflexivity. }
  assert (Hs1 : suspended s1 !! res = Some c) by apply lookup_insert_eq.
  assert (Hh1 : heap s1 !! su_tunnel c = Some tun) by exact Hheap.
  destruct (resume_sent res chunks c tun s1 Hs1 Hh1) as (s' & Hrun & Hcore & Hout).
  exists s'. split_and!.
  - cbn [run step]. erewrite seq_eq by exact H1. erewrite seq_eq by exact Hrun. reflexivity.
  - revert Hrun. unfold tunnel_request_resume. rewrite get_eq, Hs1.
    erewrite seq_eq by reflexivity. rewrite Hh1.
    unfold on_pending, setTimeout, ws_send. mrun. by intros [= <-].
  - exact Hout.
  - unfold core in Hcore. injection Hcore as _ Hheap' _ _ _ _ _.
    unfold pending_has. rewrite Hheap'. cbn. rewrite lookup_insert_eq. cbn.
    rewrite lookup_insert_eq. by apply bool_decide_eq_true.
  - unfold core in Hcore. injection Hcore as _ _ _ _ _ Hsusp _.
    rewrite Hsusp. apply lookup_delete_eq.
  - unfold core in Hcore. by injection Hcore as -> _ _ _ _ _ _.
Qed.

(** X6. When [ws.send] throws, the handler takes back what it had set up:
    the pending entry is removed, the deadline timer it had just armed is
    cleared and no other timer is touched, nothing goes out on the socket,
    and the public caller is answered 502 with the text
    "Failed to forward request to tunnel client.". *)
Theorem send_failure_is_answered (s : Server) (res : ResId) (chunks : list string)
    (c : Suspended) (tunnel : Tunnel) :
  suspended s !! res = Some c ->
  heap s !! su_tunnel c = Some tunnel ->
  exists s',
    tunnel_request_resume res chunks true s = (Returned tt, s') /\
    http_out s' =
      (http_out s ++
        [(res, mkHttpResponse (JNum 502) (headers (exchange_of s res))
                 "Failed to forward request to tunnel client.")])%list /\
    ws_out s' = ws_out s /\
    pending_has s' (su_tunnel c) (su_reqId c) = false /\
    timers s' !! next_timer s = None /\
    (forall t, t <> next_timer s -> timers s' !! t = timers s !! t) /\
    suspended s' !! res = None.
Proof.
  intros Hs Hh. unfold tunnel_request_resume. rewrite get_eq, Hs.
  erewrite seq_eq by reflexivity. rewrite Hh.
  unfold on_pending, setTimeout, ws_send, clearTimeout, res_status, res_send, exchange_of. mrun.
  rewrite lookup_insert_eq. cbn. rewrite status_ok_number by lia.
  eexists. split; [reflexivity|]. cbn. split_and!.
  - reflexivity.
  - reflexivity.
  - unfold pending_has. cbn. rewrite !lookup_alter_eq, Hh. cbn.
    rewrite lookup_delete_eq. apply bool_decide_eq_false. by intros [? ?].
  - apply lookup_delete_eq.
  - intros t Hne. by rewrite lookup_delete_ne, lookup_insert_ne.
  - apply lookup_delete_eq.
Qed.

End Dispatch.

Lemma open_tunnel_dispatches_witness :
  let s := snd (@run Demo.node [Connection 0 (Some "abc")] initial) in
  exists s',
    @run Demo.node [TunnelRequest 1 "abc" Demo.get_hello "r1"; BodyEnd 1 ["ping"] false] s
      = (Returned tt, s') /\
    http_out s' = http_out s /\
    ws_out s' =
      (ws_out s ++
        [(0,
          Demo.print
            (JObj [("type", JStr "request");
                   ("reqId", JStr "r1");
                   ("method", JStr "GET");
                   ("path", JStr (rawPath "abc" Demo.get_hello));
                   ("headers",
                     JObj (List.filter (fun kv => negb (String.eqb (fst kv) "host"))
                             (req_headers Demo.get_hello)));
                   ("body", encode_body ["ping"])]))])%list /\
    pending_has s' 0 "r1" = true /\
    suspended s' !! 1 = None /\
    tunnels s' = tunnels s.
Proof.
  apply (@open_tunnel_dispatches Demo.node
           (snd (@run Demo.node [Connection 0 (Some "abc")] initial))
           1 "abc" "r1" Demo.get_hello ["ping"] 0 (mkTunnel 0 ∅)).
  - vm_compute. reflexivity.
  - vm_compute. reflexivity.
  - vm_compute. reflexivity.
Defined.

Lemma send_failure_is_answered_witness :
  let s := snd (@run Demo.node [Connection 0 (Some "abc");
                                TunnelRequest 1 "abc" Demo.get_hello "r1"] initial) in
  exists s',
    @tunnel_request_resume Demo.node 1 [] true s = (Returned tt, s') /\
    http_out s' =
      (http_out s ++
        [(1, mkHttpResponse (JNum 502) (headers (exchange_of s 1))
               "Failed to forward request to tunnel client.")])%list /\
    ws_out s' = ws_out s /\
    pending_has s' 0 "r1" = false /\
    timers s' !! next_timer s = None /\
    (forall t, t <> next_timer s -> timers s' !! t = timers s !! t) /\
    suspended s' !! 1 = None.
Proof.
  apply (@send_failure_is_answered Demo.node
           (snd (@run Demo.node [Connection 0 (Some "abc");
                                 TunnelRequest 1 "abc" Demo.get_hello "r1"] initial))
           1 [] (mkSuspended "abc" 0 "r1" Demo.get_hello) (mkTunnel 0 ∅)).
  - vm_compute. reflexivity.
  - vm_compute. reflexivity.
Defined.

End DispatchFacts.

(** ** The registry: connections made, refused and closed *)

Module RegistryFacts.
Import Relay Correlation RelayFacts Api.

Section Registry.
Context `{Runtime}.

(** What the loop of the close handler writes, entry by entry. *)
Lemma sweep_loop_out l : forall s,
  exists s' added,
    for_each sweep_step l s = (Returned tt, s') /\
    http_out s' = (http_out s ++ added)%list /\
    added.*1 = exchanges_of l /\
    Forall (fun x => resp_status x.2 = JNum 503 /\ resp_body x.2 = "Tunnel disconnected.") added /\
    tunnels s' = tunnels s /\ heap s' = heap s /\ ws_out s' = ws_out s /\
    timers s' = clear_all l (timers s).
Proof.
  induction l as [|kp l IH]; intros s.
  - exists s, []. split_and!; try done. by rewrite app_nil_r.
  - cbn [for_each]. unfold sweep_step at 1.
    set (s1 := with_timers
                 (fun m => match p_timeout (snd kp) with Some t => delete t m | None => m end) s).
    assert (Hstep : (clearTimeout (p_timeout (snd kp));;
                     try_catch
                       (res_status (p_res (snd kp)) (JNum 503);;
                        res_send (p_res (snd kp)) "Tunnel disconnected.")
                       (fun _ => ret tt)) s
                    = (Returned tt, answer (p_res (snd kp)) 503 "Tunnel disconnected." s1)).
    { erewrite seq_eq by apply clearTimeout_eq. fold s1.
      unfold Relay.try_catch. rewrite res_answer by lia. reflexivity. }
    erewrite raw_bind_eq by exact Hstep.
    destruct (IH (answer (p_res (snd kp)) 503 "Tunnel disconnected." s1))
      as (s' & added & Hrun & Hout & Hfst & Hall & Htun & Hheap & Hws & Htm).
    exists s', ((p_res (snd kp),
                 mkHttpResponse (JNum 503) (headers (exchange_of s1 (p_res (snd kp))))
                   "Tunnel disconnected.") :: added).
    split_and!; try done.
    + rewrite Hout. unfold answer. cbn. by rewrite <- app_assoc.
    + cbn. by rewrite Hfst.
    + constructor; [done|exact Hall].
Qed.

(** X7. When the connection registered for an id closes, every request
    pending on its tunnel is answered 503 "Tunnel disconnected." once, the
    deadline timers of those requests are cleared, and the id leaves the
    registry, so the status endpoint says disconnected and the next request is
    answered with the offline page.  The entries themselves stay in the map of
    the tunnel object, which nothing reaches through the registry any more. *)
Theorem close_sweeps_registered_tunnel (s : Server) (tunnelId : string)
    (k : TunnelRef) (tun : Tunnel) :
  lookup_tunnel s tunnelId = Some (k, tun) ->
  exists s' added,
    on_close tunnelId s = (Returned tt, s') /\
    http_out s' = (http_out s ++ added)%list /\
    added.*1 ≡ₚ exchanges_of (map_to_list (pendingRequests tun)) /\
    Forall (fun x => resp_status x.2 = JNum 503 /\ resp_body x.2 = "Tunnel disconnected.") added /\
    (forall r p t, pendingRequests tun !! r = Some p -> p_timeout p = Some t ->
       timers s' !! t = None) /\
    tunnels s' = delete tunnelId (tunnels s) /\
    heap s' = heap s /\
    connected s' tunnelId = false /\
    offline s' tunnelId = true.
Proof.
  intros Hlook. unfold on_close. rewrite get_eq, Hlook.
  destruct (sweep_loop_out (map_to_list (pendingRequests tun)) s)
    as (s1 & added & Hrun & Hout & Hfst & Hall & Htun & Hheap & Hws & Htm).
  erewrite seq_eq by exact Hrun.
  eexists _, added. split; [reflexivity|]. cbn.
  split_and!; try done.
  - by rewrite Hfst.
  - intros r p t Hp Ht. rewrite Htm.
    destruct (clear_all _ _ !! t) as [tm|] eqn:E; [|done].
    apply lookup_clear_all in E as [_ Hno].
    exfalso. apply (Hno (r, p)); [|done]. by apply elem_of_map_to_list.
  - by rewrite Htun.
  - unfold connected. cbn. by rewrite Htun, lookup_delete_eq.
  - unfold offline, lookup_tunnel. cbn. by rewrite Htun, lookup_delete_eq.
Qed.

(** X8. A connection that names a tunnel id is registered under it with a new
    tunnel object and an empty pending map, and is told so with one
    [connected] message; from then on the status endpoint says connected and
    a request for the id is dispatched.  The registration touches no other
    id, no other tunnel object, no timer and no public response: what was
    pending on a connection it replaces stays pending there. *)
Theorem connection_registers (s : Server) (ws : WsId) (tunnelId : string) :
  tunnelId <> "" ->
  exists s',
    step (Connection ws (Some tunnelId)) s = (Returned tt, s') /\
    lookup_tunnel s' tunnelId = Some (next_ref s, mkTunnel ws ∅) /\
    ws_out s' =
      (ws_out s ++
        [(ws, JSON_stringify
                (JObj [("type", JStr "connected"); ("tunnelId", JStr tunnelId)]))])%list /\
    connected s' tunnelId = true /\
    offline s' tunnelId = false /\
    (forall other, other <> tunnelId -> tunnels s' !! other = tunnels s !! other) /\
    (forall k, k <> next_ref s -> heap s' !! k = heap s !! k) /\
    timers s' = timers s /\
    http_out s' = http_out s.
Proof.
  intros Hne. apply String.eqb_neq in Hne.
  cbn [step]. unfold on_connection. rewrite Hne. unfold ws_send. mrun.
  eexists. split; [reflexivity|]. cbn.
  assert (Hl : lookup_tunnel
                 (with_handlers <[ws:=tunnelId]>
                    (with_ws_out
                       (fun o => (o ++ [(ws, JSON_stringify
                          (JObj [("type", JStr "connected"); ("tunnelId", JStr tunnelId)]))])%list)
                       (with_tunnels <[tunnelId:=next_ref s]>
                          (with_heap <[next_ref s:=mkTunnel ws ∅]>
                             (with_next_ref (S (next_ref s))
                                (with_sockets <[ws:=OPEN]> s))))))
                 tunnelId = Some (next_ref s, mkTunnel ws ∅)).
  { unfold lookup_tunnel. cbn. by rewrite !lookup_insert_eq. }
  split_and!; try done.
  - unfold connected. cbn. by rewrite lookup_insert_eq.
  - unfold offline. rewrite Hl. cbn. by rewrite lookup_insert_eq.
  - intros other Ho. by apply lookup_insert_ne.
  - intros k Hk. by apply lookup_insert_ne.
Qed.

(** X9. A connection that names no tunnel id, or an empty one, is closed at
    once: nothing is registered, no [connected] message is sent, and since no
    handler is attached to the socket, a message or a close that follows on
    it changes nothing but the state of the socket. *)
Theorem connection_without_id_is_dropped (s : Server) (ws : WsId)
    (tunnelId : option string) (data : string) :
  tunnelId = None \/ tunnelId = Some "" ->
  handlers s !! ws = None ->
  let s1 := with_sockets <[ws := CLOSING]> (with_sockets <[ws := OPEN]> s) in
  step (Connection ws tunnelId) s = (Returned tt, s1) /\
  tunnels s1 = tunnels s /\ heap s1 = heap s /\ ws_out s1 = ws_out s /\
  step (Message ws data) s1 = (Returned tt, s1) /\
  step (Close ws) s1 = (Returned tt, with_sockets <[ws := CLOSED]> s1).
Proof.
  intros Hid Hh s1.
  split_and!; try done.
  - by destruct Hid as [-> | ->].
  - cbn [step]. rewrite get_eq. cbn. by rewrite Hh.
  - cbn [step]. mrun. by rewrite Hh.
Qed.

(** X10. The health endpoint reports the number of registered ids.  A
    connection for an id that is not registered raises it by one, a
    connection that replaces a registered one leaves it as it is, and the
    close of a registered connection lowers it by one. *)
Theorem health_counts_registered_ids :
  (forall s res,
     exchanges s !! res = None ->
     exists s',
       api_health res s = (Returned tt, s') /\
       http_out s' =
         (http_out s ++
           [(res,
             mkHttpResponse (JNum 200) []
               (JSON_stringify
                  (JObj [("status", JStr "ok");
                         ("tunnels", JNum (Z.of_nat (size (tunnels s))))])))])%list) /\
  (forall s ws tunnelId s',
     tunnelId <> "" ->
     on_connection ws (Some tunnelId) s = (Returned tt, s') ->
     size (tunnels s') =
       if connected s tunnelId then size (tunnels s) else S (size (tunnels s))) /\
  (forall s tunnelId k tun s',
     lookup_tunnel s tunnelId = Some (k, tun) ->
     on_close tunnelId s = (Returned tt, s') ->
     S (size (tunnels s')) = size (tunnels s)).
Proof.
  split_and!.
  - intros s res Hex. unfold api_health, res_json, res_send, exchange_of.
    rewrite get_eq, get_eq, Hex. cbn.
    rewrite status_ok_number by lia. eexists. split; reflexivity.
  - intros s ws tunnelId s' Hne. apply String.eqb_neq in Hne.
    unfold on_connection. rewrite Hne. unfold ws_send. mrun. intros [= <-]. cbn.
    unfold connected. destruct (tunnels s !! tunnelId) as [k|] eqn:E.
    + rewrite <- (insert_delete_id (tunnels s) tunnelId k E) at 2.
      rewrite <- insert_delete_eq.
      by rewrite !map_size_insert_None by apply lookup_delete_eq.
    + by apply map_size_insert_None.
  - intros s tunnelId k tun s' Hlook Hrun.
    destruct (on_close_effect tunnelId s) as (s2 & Hrun2 & Hcore).
    rewrite Hlook in Hcore. rewrite Hrun in Hrun2. injection Hrun2 as <-.
    unfold core in Hcore. injection Hcore as Htun _ _ _ _ _ _. rewrite Htun.
    destruct (lookup_tunnel_Some _ _ _ _ Hlook) as [Hreg _].
    by rewrite map_size_delete, Hreg, Nat.succ_pred_pos by
      (apply Nat.neq_0_lt_0; intros Hz; apply map_size_empty_inv in Hz;
       by rewrite Hz in Hreg).
Qed.

End Registry.

Lemma close_sweeps_registered_tunnel_witness :
  let s := snd (@run Demo.node Demo.one_request initial) in
  let tun := mkTunnel 0 {["r1" := mkPending 1 "abc" (Some 0)]} in
  exists s' added,
    @on_close Demo.node "abc" s = (Returned tt, s') /\
    http_out s' = (http_out s ++ added)%list /\
    added.*1 ≡ₚ exchanges_of (map_to_list (pendingRequests tun)) /\
    Forall (fun x => resp_status x.2 = JNum 503 /\ resp_body x.2 = "Tunnel disconnected.") added /\
    (forall r p t, pendingRequests tun !! r = Some p -> p_timeout p = Some t ->
       timers s' !! t = None) /\
    tunnels s' = delete "abc" (tunnels s) /\
    heap s' = heap s /\
    connected s' "abc" = false /\
    offline s' "abc" = true.
Proof.
  apply (@close_sweeps_registered_tunnel Demo.node
           (snd (@run Demo.node Demo.one_request initial)) "abc" 0
           (mkTunnel 0 {["r1" := mkPending 1 "abc" (Some 0)]})).
  vm_compute. reflexivity.
Defined.

Lemma connection_registers_witness :
  exists s',
    @step Demo.node (Connection 0 (Some "abc")) initial = (Returned tt, s') /\
    lookup_tunnel s' "abc" = Some (next_ref initial, mkTunnel 0 ∅) /\
    ws_out s' =
      (ws_out initial ++
        [(0, Demo.print (JObj [("type", JStr "connected"); ("tunnelId", JStr "abc")]))])%list /\
    connected s' "abc" = true /\
    offline s' "abc" = false /\
    (forall other, other <> "abc" -> tunnels s' !! other = tunnels initial !! other) /\
    (forall k, k <> next_ref initial -> heap s' !! k = heap initial !! k) /\
    timers s' = timers initial /\
    http_out s' = http_out initial.
Proof.
  apply (@connection_registers Demo.node initial 0 "abc"). discriminate.
Defined.

Lemma connection_without_id_is_dropped_witness :
  let s1 := with_sockets <[3 := CLOSING]> (with_sockets <[3 := OPEN]> initial) in
  @step Demo.node (Connection 3 None) initial = (Returned tt, s1) /\
  tunnels s1 = tunnels initial /\ heap s1 = heap initial /\ ws_out s1 = ws_out initial /\
  @step Demo.node (Message 3 "hello") s1 = (Returned tt, s1) /\
  @step Demo.node (Close 3) s1 = (Returned tt, with_sockets <[3 := CLOSED]> s1).
Proof.
  apply (@connection_without_id_is_dropped Demo.node initial 3 None "hello").
  - left. reflexivity.
  - reflexivity.
Defined.

End RegistryFacts.

(** ** Delivery: from the [response] message to the public caller *)

Module DeliveryFacts.
Import Relay Correlation RelayFacts Forwarding.

Section Delivery.
Context `{Runtime}.

Lemma with_exchanges_twice f E s :
  with_exchanges (fun _ => E) (with_exchanges f s) = with_exchanges (fun _ => E) s.
Proof. reflexivity. Qed.

(** The header loop sets the accepted headers, in order, and nothing else. *)
Lemma header_loop_headers res l : forall s,
  exists E,
    for_each (header_step res) l s = (Returned tt, with_exchanges (fun _ => E) s) /\
    default new_exchange (E !! res) =
      mkExchange (statusCode (exchange_of s res))
        (headers (exchange_of s res) ++ List.filter forwarded l).
Proof.
  induction l as [|kv l IH]; intros s.
  - exists (exchanges s). split; [by rewrite with_exchanges_id|].
    cbn [List.filter]. rewrite app_nil_r. unfold exchange_of. by destruct (default _ _).
  - cbn [for_each List.filter]. unfold header_step at 1, forwarded at 1.
    destruct (negb (skipped (fst kv))); cbn [andb].
    + unfold res_setHeader. destruct (setHeader_ok (fst kv) (snd kv)).
      * set (s2 := with_exchanges
           <[res:=mkExchange (statusCode (exchange_of s res))
                    (headers (exchange_of s res) ++ [(fst kv, snd kv)])]> s).
        destruct (IH s2) as (E & HE & Hx).
        exists E. split.
        -- mrun. unfold Relay.bind. fold s2. rewrite HE. reflexivity.
        -- rewrite Hx. unfold s2, exchange_of. cbn. rewrite lookup_insert_eq. cbn.
           rewrite <- app_assoc. by destruct kv.
      * destruct (IH s) as (E & HE & Hx). exists E. split; [|done].
        mrun. unfold Relay.bind. rewrite HE. reflexivity.
    + destruct (IH s) as (E & HE & Hx). exists E. split; [|done].
      mrun. unfold Relay.bind. rewrite HE. reflexivity.
Qed.

(** The response [deliver] writes, when nothing throws. *)
Lemma deliver_writes tid res status hdrs body s ct :
  Js.call_toLowerCase (Js.or_else (Js.opt_prop hdrs "content-type") (JStr "")) = Returned ct ->
  status_ok (Js.or_else status (JNum 200)) = true ->
  let st := Js.or_else status (JNum 200) in
  let hs0 :=
    (headers (exchange_of s res) ++
     List.filter forwarded (Js.entries (Js.or_else hdrs (JObj []))))%list in
  let written hs body' :=
    exists E,
      deliver tid res status hdrs body s =
        (Returned tt,
         with_http_out (fun o => (o ++ [(res, mkHttpResponse st hs body')])%list)
           (with_exchanges (fun _ => E) s)) in
  if Js.truthy body then
    match Buffer_from (Js.or_else body JNull) with
    | Thrown _ => True
    | Returned buf =>
        if includes "text/html" ct then
          written
            (hs0 ++ [("content-length",
                      JNum (Z.of_nat (String.length (rewriteHtml buf tid))))])%list
            (rewriteHtml buf tid)
        else written hs0 buf
    end
  else written hs0 "".
Proof.
  intros Hct Hok. cbn zeta. unfold deliver.
  destruct (header_loop_headers res (Js.entries (Js.or_else hdrs (JObj []))) s) as (E & HE & Hx).
  erewrite seq_eq by exact HE. rewrite Hct.
  unfold res_status, res_setHeader, res_end, res_send, exchange_of in *.
  unfold mbind, mret, M_bind, M_ret, Relay.bind, Relay.ret, Relay.modify, Relay.get,
    Relay.lift, Relay.throw. cbn.
  destruct (Js.truthy body).
  - destruct (Buffer_from (Js.or_else body JNull)) as [buf|e]; [|done]. cbn.
    destruct (includes "text/html" ct); cbn.
    + rewrite content_length_ok. cbn. rewrite !lookup_insert_eq. cbn.
      rewrite Hok, Hx. cbn. eexists. reflexivity.
    + rewrite !lookup_insert_eq. cbn. rewrite Hok, Hx. cbn. eexists. reflexivity.
  - cbn. rewrite !lookup_insert_eq. cbn. rewrite Hok, Hx. cbn. eexists. reflexivity.
Qed.

(** The body of a message built by the client, as the relay reads it. *)
Lemma encode_body_read (chunks : list string) :
  let payload := String.concat "" chunks in
  (payload = "" /\ Js.truthy (Some (encode_body chunks)) = false) \/
  (payload <> "" /\ Js.truthy (Some (encode_body chunks)) = true /\
   Buffer_from (Js.or_else (Some (encode_body chunks)) JNull) = Returned payload).
Proof.
  cbn zeta. unfold encode_body.
  destruct chunks as [|c0 chunks]; [by left|].
  set (payload := String.concat "" (c0 :: chunks)).
  destruct (string_dec payload "") as [He|Hne].
  - left. split; [done|]. by rewrite He.
  - right. split; [done|].
    assert (Htr : Js.truthy (Some (JStr (Base64.encode payload))) = true).
    { cbn. apply negb_true_iff, String.eqb_neq. by apply Base64Facts.encode_nonempty. }
    split; [done|]. rewrite (or_else_truthy _ _ Htr). cbn [Buffer_from].
    by rewrite Base64Facts.decode_encode.
Qed.

(** The response written for a [response] message built by the client. *)
Lemma reply_delivered (tunnelId reqId : string) (k : TunnelRef) (tun : Tunnel) (p : Pending)
    (s : Server) (code : Z) (hs : list (string * json)) (chunks : list string) (ct : string) :
  let msg := Client.reply_to reqId code hs chunks in
  JSON_parse (JSON_stringify msg) = Some msg ->
  lookup_tunnel s tunnelId = Some (k, tun) ->
  pendingRequests tun !! reqId = Some p ->
  (100 <= code <= 999)%Z ->
  Js.call_toLowerCase (Js.or_else (Js.assoc "content-type" hs) (JStr "")) = Returned ct ->
  let payload := String.concat "" chunks in
  let html := includes "text/html" ct && negb (String.eqb payload "") in
  exists s',
    on_message tunnelId (JSON_stringify msg) s = (Returned tt, s') /\
    http_out s' =
      (http_out s ++
        [(p_res p,
          mkHttpResponse (JNum code)
            (headers (exchange_of s (p_res p)) ++ List.filter forwarded hs ++
             if html
             then [("content-length",
                    JNum (Z.of_nat (String.length (rewriteHtml payload tunnelId))))]
             else [])
            (if html then rewriteHtml payload tunnelId else payload))])%list /\
    heap s' =
      alter (fun t => mkTunnel (t_ws t) (delete reqId (pendingRequests t))) k (heap s) /\
    timers s' = match p_timeout p with Some t => delete t (timers s) | None => timers s end.
Proof.
  intros msg Hparse Hlook Hp Hcode Hct payload html.
  set (s1 := with_heap (alter (fun t => mkTunnel (t_ws t) (delete reqId (pendingRequests t))) k)
               (with_timers (fun m => match p_timeout p with Some t => delete t m | None => m end) s)).
  assert (Hst : Js.or_else (Some (JNum code)) (JNum 200) = JNum code).
  { apply or_else_truthy. cbn. apply negb_true_iff, Z.eqb_neq. lia. }
  assert (Hok : status_ok (Js.or_else (Some (JNum code)) (JNum 200)) = true).
  { rewrite Hst. by apply status_ok_number. }
  pose proof (deliver_writes tunnelId (p_res p) (Some (JNum code)) (Some (JObj hs))
                (Some (encode_body chunks)) s1 ct Hct Hok) as Hd.
  cbn zeta in Hd. rewrite Hst in Hd.
  assert (He : Js.entries (Js.or_else (Some (JObj hs)) (JObj [])) = hs) by reflexivity.
  rewrite He in Hd.
  assert (Hrun : forall hs' body' E,
            deliver tunnelId (p_res p) (Some (JNum code)) (Some (JObj hs))
              (Some (encode_body chunks)) s1 =
            (Returned tt,
             with_http_out (fun o => (o ++ [(p_res p, mkHttpResponse (JNum code) hs' body')])%list)
               (with_exchanges (fun _ => E) s1)) ->
            exists s',
              on_message tunnelId (JSON_stringify msg) s = (Returned tt, s') /\
              http_out s' = (http_out s ++ [(p_res p, mkHttpResponse (JNum code) hs' body')])%list /\
              heap s' =
                alter (fun t => mkTunnel (t_ws t) (delete reqId (pendingRequests t))) k (heap s) /\
              timers s' =
                match p_timeout p with Some t => delete t (timers s) | None => timers s end).
  { intros hs' body' E Hdel. eexists. split; [|split_and!].
    - unfold on_message. rewrite Hparse.
      unfold Relay.try_catch at 1. unfold Relay.lift. unfold mbind at 1, M_bind at 1, Relay.bind at 1.
      cbn [msg Client.reply_to Client.response_message Js.object omap list_omap fst snd Js.prop
           Js.assoc String.eqb Ascii.eqb Bool.eqb Js.is_string Js.opt_prop
           Client.status Client.headers Client.body].
      rewrite get_eq, Hlook. cbn [pending_get]. rewrite Hp.
      erewrite seq_eq by apply clearTimeout_eq.
      unfold on_pending. erewrite seq_eq by reflexivity. fold s1. rewrite Hdel. reflexivity.
    - reflexivity.
    - reflexivity.
    - reflexivity. }
  destruct (encode_body_read chunks) as [[Hempty Htr]|(Hne & Htr & Hbuf)].
  - rewrite Htr in Hd. destruct Hd as [E Hd].
    unfold html. fold payload in Hempty. rewrite Hempty, andb_false_r, app_nil_r.
    by eapply Hrun.
  - rewrite Htr, Hbuf in Hd. fold payload in Hd, Hne.
    unfold html. apply String.eqb_neq in Hne. rewrite Hne, andb_true_r.
    destruct (includes "text/html" ct).
    + destruct Hd as [E Hd]. eapply Hrun. rewrite <- app_assoc in Hd. exact Hd.
    + destruct Hd as [E Hd]. rewrite app_nil_r. by eapply Hrun.
Qed.

(** A [response] message that finds its pending request hands its fields
    to [deliver], after the timer is cleared and the entry removed. *)
Lemma on_message_delivers (tunnelId data r : string) (fields : list (string * json))
    (k : TunnelRef) (tun : Tunnel) (p : Pending) (s s2 : Server) :
  JSON_parse data = Some (JObj fields) ->
  Js.assoc "type" fields = Some (JStr "response") ->
  Js.assoc "reqId" fields = Some (JStr r) ->
  lookup_tunnel s tunnelId = Some (k, tun) ->
  pendingRequests tun !! r = Some p ->
  deliver tunnelId (p_res p) (Js.assoc "status" fields) (Js.assoc "headers" fields)
    (Js.assoc "body" fields)
    (with_heap (alter (fun t => mkTunnel (t_ws t) (delete r (pendingRequests t))) k)
       (with_timers (fun m => match p_timeout p with Some t => delete t m | None => m end) s))
    = (Returned tt, s2) ->
  on_message tunnelId data s = (Returned tt, s2).
Proof.
  intros Hparse Htype Hreq Hlook Hp Hdel.
  unfold on_message. rewrite Hparse.
  unfold Relay.try_catch at 1. unfold Relay.lift. unfold mbind at 1, M_bind at 1, Relay.bind at 1.
  cbn [Js.prop Js.opt_prop]. rewrite Htype.
  cbn [Js.is_string String.eqb Ascii.eqb Bool.eqb].
  rewrite get_eq, Hlook, Hreq. cbn [pending_get]. rewrite Hp.
  erewrite seq_eq by apply clearTimeout_eq.
  unfold on_pending. erewrite seq_eq by reflexivity. by rewrite Hdel.
Qed.

Lemma forwarded_not_hop (kv : string * json) :
  forwarded kv = true ->
  toLowerCase (fst kv) ∉ ["transfer-encoding"; "connection"; "keep-alive"; "content-length"].
Proof.
  unfold forwarded, skipped, skipHeaders. intros Hf.
  apply andb_prop in Hf as [Hs _]. apply negb_true_iff in Hs.
  intros Hin. apply list_elem_of_In in Hin.
  assert (Hex : existsb (String.eqb (toLowerCase (fst kv)))
                  ["transfer-encoding"; "connection"; "keep-alive"; "content-length"] = true).
  { apply existsb_exists. eexists. split; [exact Hin|]. apply String.eqb_refl. }
  congruence.
Qed.

(** X11. For a response that is not HTML, the headers the relay itself sets
    on the public response with [res.setHeader] are the headers the local
    service gave, in their order, without those named [transfer-encoding],
    [connection], [keep-alive] or [content-length] in any letter case, and
    without those [res.setHeader] refuses; a refused header costs the response
    nothing else.  (What is on the wire besides, Express and [cors] put
    there.) *)
Theorem response_headers_are_filtered (tunnelId reqId : string) (k : TunnelRef)
    (tun : Tunnel) (p : Pending) (s : Server) (code : Z) (hs : list (string * json))
    (chunks : list string) :
  let msg := Client.reply_to reqId code hs chunks in
  JSON_parse (JSON_stringify msg) = Some msg ->
  lookup_tunnel s tunnelId = Some (k, tun) ->
  pendingRequests tun !! reqId = Some p ->
  exchanges s !! p_res p = None ->
  (100 <= code <= 999)%Z ->
  not_html hs = true ->
  exists s' r,
    on_message tunnelId (JSON_stringify msg) s = (Returned tt, s') /\
    http_out s' = (http_out s ++ [(p_res p, r)])%list /\
    resp_headers r = List.filter forwarded hs /\
    Forall (fun kv =>
              toLowerCase (fst kv) ∉
                ["transfer-encoding"; "connection"; "keep-alive"; "content-length"])
      (resp_headers r).
Proof.
  intros msg Hparse Hlook Hp Hfresh Hcode Hplain.
  destruct (plain_content_type hs Hplain) as (ct & Hct & Hinc).
  destruct (reply_delivered tunnelId reqId k tun p s code hs chunks ct
              Hparse Hlook Hp Hcode Hct) as (s' & Hrun & Hout & _).
  rewrite Hinc in Hout. cbn [andb] in Hout.
  unfold exchange_of in Hout. rewrite Hfresh in Hout. cbn in Hout. rewrite app_nil_r in Hout.
  eexists _, _. split; [exact Hrun|]. split; [exact Hout|]. split; [reflexivity|].
  cbn. apply List.Forall_forall. intros kv Hin.
  apply filter_In in Hin as [_ Hf]. by apply forwarded_not_hop.
Qed.

(** X12. A response whose content type contains [text/html], in any letter
    case, and whose body is well-formed UTF-8, is handed to [res.send]
    rewritten, and the [content-length] the relay sets is the length in bytes
    of the rewritten body, not of the original.  With no body there is nothing
    to rewrite: [res.end()] is called, no [<base>] element is made up and no
    [content-length] is set. *)
Theorem html_response_is_rewritten (tunnelId reqId : string) (k : TunnelRef)
    (tun : Tunnel) (p : Pending) (s : Server) (code : Z) (hs : list (string * json))
    (chunks : list string) (contentType : string) :
  let msg := Client.reply_to reqId code hs chunks in
  let payload := String.concat "" chunks in
  JSON_parse (JSON_stringify msg) = Some msg ->
  lookup_tunnel s tunnelId = Some (k, tun) ->
  pendingRequests tun !! reqId = Some p ->
  exchanges s !! p_res p = None ->
  (100 <= code <= 999)%Z ->
  Js.assoc "content-type" hs = Some (JStr contentType) ->
  includes "text/html" (toLowerCase contentType) = true ->
  Premises.valid_utf8 payload = true ->
  exists s' r,
    on_message tunnelId (JSON_stringify msg) s = (Returned tt, s') /\
    http_out s' = (http_out s ++ [(p_res p, r)])%list /\
    resp_status r = JNum code /\
    resp_body r = (if String.eqb payload "" then "" else rewriteHtml payload tunnelId) /\
    resp_headers r =
      (List.filter forwarded hs ++
       if String.eqb payload "" then []
       else [("content-length", JNum (Z.of_nat (String.length (resp_body r))))])%list.
Proof.
  intros msg payload Hparse Hlook Hp Hfresh Hcode Hct Hhtml _.
  assert (Hlow : Js.call_toLowerCase (Js.or_else (Js.assoc "content-type" hs) (JStr ""))
                 = Returned (toLowerCase contentType)).
  { rewrite Hct. unfold Js.or_else.
    destruct (Js.truthy (Some (JStr contentType))) eqn:Htr; [reflexivity|].
    cbn in Htr. apply negb_false_iff, String.eqb_eq in Htr. subst contentType.
    discriminate Hhtml. }
  destruct (reply_delivered tunnelId reqId k tun p s code hs chunks _
              Hparse Hlook Hp Hcode Hlow) as (s' & Hrun & Hout & _).
  rewrite Hhtml in Hout. cbn [andb] in Hout. fold payload in Hout.
  unfold exchange_of in Hout. rewrite Hfresh in Hout. cbn [default new_exchange headers app] in Hout.
  eexists _, _. split; [exact Hrun|]. split; [exact Hout|].
  cbn [resp_status resp_body resp_headers].
  destruct (String.eqb payload "") eqn:E; cbn [negb]; [|done].
  apply String.eqb_eq in E. by rewrite E.
Qed.

(** X13. A [response] message that carries nothing but the id of a pending
    request is delivered all the same: the status defaults to 200, no header
    is set and the body is empty. *)
Theorem bare_response_is_an_empty_200 (tunnelId data r : string)
    (fields : list (string * json)) (k : TunnelRef) (tun : Tunnel) (p : Pending) (s : Server) :
  JSON_parse data = Some (JObj fields) ->
  Js.assoc "type" fields = Some (JStr "response") ->
  Js.assoc "reqId" fields = Some (JStr r) ->
  Js.assoc "status" fields = None ->
  Js.assoc "headers" fields = None ->
  Js.assoc "body" fields = None ->
  lookup_tunnel s tunnelId = Some (k, tun) ->
  pendingRequests tun !! r = Some p ->
  exists s',
    on_message tunnelId data s = (Returned tt, s') /\
    http_out s' =
      (http_out s ++
        [(p_res p, mkHttpResponse (JNum 200) (headers (exchange_of s (p_res p))) "")])%list /\
    pending_has s' k r = false.
Proof.
  intros Hparse Htype Hreq Hst Hhd Hbd Hlook Hp.
  set (s1 := with_heap (alter (fun t => mkTunnel (t_ws t) (delete r (pendingRequests t))) k)
               (with_timers (fun m => match p_timeout p with Some t => delete t m | None => m end) s)).
  assert (Hok : status_ok (Js.or_else None (JNum 200)) = true)
    by (apply status_ok_number; lia).
  pose proof (deliver_writes tunnelId (p_res p) None None None s1 "" eq_refl Hok) as Hd.
  cbn in Hd. rewrite app_nil_r in Hd. destruct Hd as [E Hd].
  eexists. split.
  - eapply on_message_delivers; try eassumption. rewrite Hst, Hhd, Hbd. exact Hd.
  - split; [reflexivity|].
    destruct (lookup_tunnel_Some _ _ _ _ Hlook) as [_ Hheap].
    unfold pending_has. cbn. rewrite lookup_alter_eq, Hheap. cbn.
    rewrite lookup_delete_eq. apply bool_decide_eq_false. by intros [? ?].
Qed.

End Delivery.

Lemma response_headers_are_filtered_witness :
  exists s' r,
    @on_message Examples.node "abc" (Demo.print Examples.chatty_response) Examples.waiting
      = (Returned tt, s') /\
    http_out s' = (http_out Examples.waiting ++ [(1, r)])%list /\
    resp_headers r =
      List.filter (@forwarded Examples.node)
        [("content-type", JStr "text/plain"); ("Connection", JStr "close");
         ("x-powered-by", JStr "Express"); ("content-length", JStr "17")] /\
    Forall (fun kv =>
              toLowerCase (fst kv) ∉
                ["transfer-encoding"; "connection"; "keep-alive"; "content-length"])
      (resp_headers r).
Proof.
  apply (@response_headers_are_filtered Examples.node "abc" "r1" 0
           (mkTunnel 0 {["r1" := mkPending 1 "abc" (Some 0)]})
           (mkPending 1 "abc" (Some 0)) Examples.waiting 200
           [("content-type", JStr "text/plain"); ("Connection", JStr "close");
            ("x-powered-by", JStr "Express"); ("content-length", JStr "17")]
           ["hello from local!"]).
  - vm_compute. reflexivity.
  - vm_compute. reflexivity.
  - vm_compute. reflexivity.
  - vm_compute. reflexivity.
  - lia.
  - vm_compute. reflexivity.
Defined.

Lemma html_response_is_rewritten_witness :
  let s := snd (@run Demo.node Demo.one_request initial) in
  exists s' r,
    @on_message Demo.node "abc" (Demo.print Demo.html_response) s = (Returned tt, s') /\
    http_out s' = (http_out s ++ [(1, r)])%list /\
    resp_status r = JNum 200 /\
    resp_body r =
      (if String.eqb (String.concat "" ["<head>"]) "" then ""
       else rewriteHtml (String.concat "" ["<head>"]) "abc") /\
    resp_headers r =
      (List.filter (@forwarded Demo.node) [("content-type", JStr "text/html; charset=utf-8")] ++
       if String.eqb (String.concat "" ["<head>"]) "" then []
       else [("content-length", JNum (Z.of_nat (String.length (resp_body r))))])%list.
Proof.
  apply (@html_response_is_rewritten Demo.node "abc" "r1" 0
           (mkTunnel 0 {["r1" := mkPending 1 "abc" (Some 0)]})
           (mkPending 1 "abc" (Some 0))
           (snd (@run Demo.node Demo.one_request initial)) 200
           [("content-type", JStr "text/html; charset=utf-8")] ["<head>"]
           "text/html; charset=utf-8").
  - vm_compute. reflexivity.
  - vm_compute. reflexivity.
  - vm_compute. reflexivity.
  - vm_compute. reflexivity.
  - lia.
  - reflexivity.
  - vm_compute. reflexivity.
  - vm_compute. reflexivity.
Defined.

Lemma bare_response_is_an_empty_200_witness :
  exists s',
    @on_message Examples.node "abc" (Demo.print Examples.bare_response) Examples.waiting
      = (Returned tt, s') /\
    http_out s' =
      (http_out Examples.waiting ++
        [(1, mkHttpResponse (JNum 200) (headers (exchange_of Examples.waiting 1)) "")])%list /\
    pending_has s' 0 "r1" = false.
Proof.
  apply (@bare_response_is_an_empty_200 Examples.node "abc"
           (Demo.print Examples.bare_response) "r1"
           [("type", JStr "response"); ("reqId", JStr "r1")] 0
           (mkTunnel 0 {["r1" := mkPending 1 "abc" (Some 0)]})
           (mkPending 1 "abc" (Some 0)) Examples.waiting).
  - vm_compute. reflexivity.
  - reflexivity.
  - reflexivity.
  - reflexivity.
  - reflexivity.
  - reflexivity.
  - vm_compute. reflexivity.
  - vm_compute. reflexivity.
Defined.

End DeliveryFacts.

(** ** The forwarding agent: from the tunnel to the local service and back *)

Module AgentFacts.
Import Client Forwarding.

Lemma set_field_absent (k : string) (v : json) (l : list (string * json)) :
  Forall (fun kv => String.eqb k (fst kv) = false) l ->
  set_field k v l = (l ++ [(k, v)])%list.
Proof.
  induction 1 as [|[k' v'] l Hk _ IH]; [reflexivity|].
  cbn [set_field]. cbn in Hk. rewrite Hk, IH. reflexivity.
Qed.

Lemma filter_host_absent (hs : list (string * json)) :
  Forall (fun kv => String.eqb "host" (fst kv) = false)
    (List.filter (fun kv => negb (String.eqb (fst kv) "host")) hs).
Proof.
  apply List.Forall_forall. intros kv Hin. apply filter_In in Hin as [_ Hf].
  apply negb_true_iff in Hf. by rewrite String.eqb_sym.
Qed.

Lemma filter_passed_on (hs : list (string * json)) :
  List.filter (fun kv => negb (existsb (String.eqb (fst kv)) hop_by_hop))
    (List.filter (fun kv => negb (String.eqb (fst kv) "host")) hs)
  = List.filter passed_on hs.
Proof.
  induction hs as [|kv hs IH]; [reflexivity|].
  cbn [List.filter]. unfold passed_on at 1.
  destruct (negb (String.eqb (fst kv) "host")); cbn [andb List.filter];
    [destruct (negb (existsb _ _))|]; by rewrite IH.
Qed.

Section Agent.
Context `{Runtime}.
Variable localUrl : string.

(** X14. What the local service is asked, for a request the relay has
    dispatched: the method and the path of the public request, on the host and
    port of the local URL (443 or 80 when it names none); the headers of the
    public request without [host], [connection], [transfer-encoding],
    [upgrade] and [keep-alive], followed by a [host] header for the local
    target; and as body the very bytes the public caller sent, or no body at
    all when there were none.  What [forwardToLocal] resolves with is what the
    local service does when asked exactly this: its response with the body in
    base64, 502 without a body for an error on the response stream, 502 with
    the error text for a connection error, a rejection for an exception of
    [lib.request]. *)
Theorem local_service_receives (local : LocalService) (c : Relay.Suspended)
    (chunks : list string) (u : ParsedUrl) (st : State) :
  Relay.method (Relay.su_req c) <> "" ->
  URL_parse (localUrl ++ Relay.rawPath (Relay.su_tunnelId c) (Relay.su_req c)) = Some u ->
  let isHttps := String.eqb (protocol u) "https:" in
  let options :=
    mkOptions (hostname u)
      (match port u with
       | EmptyString => if isHttps then JNum 443 else JNum 80
       | p => JStr p
       end)
      (pathname u ++ search u)
      (JStr (Relay.method (Relay.su_req c)))
      (local_headers (Relay.req_headers (Relay.su_req c)) (host u)) in
  forwardToLocal localUrl local (Relay.request_message c chunks) st =
  match local isHttps options (local_body chunks) with
  | LocalResponse code hs body =>
      (Returned (mkResponse (JNum code) (JObj hs) (encode_body body)), st)
  | LocalResponseError => (Returned (mkResponse (JNum 502) (JObj []) JNull), st)
  | LocalRequestError message =>
      (Returned
         (mkResponse (JNum 502) (JObj [("content-type", JStr "text/plain")])
            (JStr (Base64.encode ("Local server error: " ++ message)))),
       log "err" st)
  | LocalThrows e => (Thrown e, st)
  end.
Proof.
  intros Hm Hurl isHttps options.
  assert (Hpath : Js.to_string
            (Js.or_else (Some (JStr (Relay.rawPath (Relay.su_tunnelId c) (Relay.su_req c))))
               (JStr "/"))
          = Relay.rawPath (Relay.su_tunnelId c) (Relay.su_req c)).
  { rewrite RelayFacts.or_else_truthy; [reflexivity|]. cbn.
    apply negb_true_iff, String.eqb_neq.
    apply (DispatchFacts.rawPath_nonempty (Relay.su_tunnelId c) (Relay.su_req c)). }
  assert (Hmeth : Js.or_else (Some (JStr (Relay.method (Relay.su_req c)))) (JStr "GET")
                  = JStr (Relay.method (Relay.su_req c))).
  { apply RelayFacts.or_else_truthy. cbn. by apply negb_true_iff, String.eqb_neq. }
  assert (Hhs : List.filter (fun kv => negb (existsb (String.eqb (fst kv)) hop_by_hop))
                  (set_field "host" (JStr (host u))
                     (List.filter (fun kv => negb (String.eqb (fst kv) "host"))
                        (Relay.req_headers (Relay.su_req c))))
                = local_headers (Relay.req_headers (Relay.su_req c)) (host u)).
  { rewrite (set_field_absent _ _ _ (filter_host_absent _)).
    rewrite List.filter_app, filter_passed_on. reflexivity. }
  assert (Hw : (if Js.truthy (Some (encode_body chunks))
                then match Buffer_from (Js.or_else (Some (encode_body chunks)) JNull) with
                     | Returned b => Returned (Some b)
                     | Thrown e => Thrown e
                     end
                else Returned None) = Returned (local_body chunks)).
  { unfold local_body.
    destruct (DeliveryFacts.encode_body_read chunks) as [[He Htr]|(Hne & Htr & Hbuf)].
    - rewrite Htr, He. reflexivity.
    - rewrite Htr, Hbuf. apply String.eqb_neq in Hne. by rewrite Hne. }
  unfold forwardToLocal.
  cbn [Relay.request_message Js.opt_prop Js.assoc String.eqb Ascii.eqb Bool.eqb].
  rewrite Hpath, Hurl. cbn zeta.
  change (Js.entries (Js.or_else (Some (JObj ?l)) (JObj []))) with l.
  rewrite Hmeth, Hhs, Hw. reflexivity.
Qed.

(** X15. For a [request] message shaped as the relay builds it (method and
    path strings or absent, body a string, [null] or absent), and a call to
    the local service that settles without an exception of [lib.request], the
    client hands exactly one [response] message to [ws.send], and it carries
    the [reqId] of the request: whether the call gave a response, an error on
    the response stream or a connection error, and also when the target URL
    does not parse, which is answered 400 without a call. *)
Theorem every_request_is_answered (local : LocalService) (data : string)
    (fields : list (string * json)) (s : State) :
  JSON_parse data = Some (JObj fields) ->
  Js.assoc "type" fields = Some (JStr "request") ->
  Premises.is_text (Js.assoc "method" fields) = true ->
  Premises.is_text (Js.assoc "path" fields) = true ->
  Js.is_payload (Js.assoc "body" fields) = true ->
  (forall isHttps options written e, local isHttps options written <> LocalThrows e) ->
  exists r s',
    on_message localUrl local data s = (Returned tt, s') /\
    sent s' = (sent s ++ [JSON_stringify (response_message (Js.assoc "reqId" fields) r)])%list /\
    (URL_parse (localUrl ++ Js.to_string (Js.or_else (Js.assoc "path" fields) (JStr "/")))
       = None -> r = mkResponse (JNum 400) (JObj []) JNull) /\
    reconnectDelay s' = reconnectDelay s /\ reconnects s' = reconnects s.
Proof.
  intros Hparse Htype _ _ Hbody Hlocal.
  destruct (ClientFacts.payload_written _ Hbody) as [w Hw].
  unfold on_message. rewrite Hparse. cbn [Js.prop]. rewrite Htype.
  cbn [Js.is_string String.eqb Ascii.eqb Bool.eqb].
  unfold forwardToLocal. cbn [Js.opt_prop].
  destruct (URL_parse _) as [u|].
  - cbn zeta. rewrite Hw.
    match goal with |- context [local ?a ?b ?c] => destruct (local a b c) as [code hs chunks| |m|e] eqn:E end.
    + eexists _, _. split; [reflexivity|]. split_and!; done.
    + eexists _, _. split; [reflexivity|]. split_and!; done.
    + eexists _, _. split; [reflexivity|]. split_and!; done.
    + by apply Hlocal in E.
  - eexists _, _. split; [reflexivity|]. split_and!; done.
Qed.

End Agent.

Lemma local_service_receives_witness :
  let c := Relay.mkSuspended "abc" 0 "r1" Examples.post_hello in
  let options :=
    mkOptions "localhost" (JStr "4444") ("/hello" ++ "") (JStr "POST")
      (local_headers (Relay.req_headers Examples.post_hello) "localhost:4444") in
  @forwardToLocal Demo.node "http://localhost:4444" Examples.echo
    (Relay.request_message c ["pi"; "ng"]) initial =
  match Examples.echo false options (local_body ["pi"; "ng"]) with
  | LocalResponse code hs body =>
      (Returned (mkResponse (JNum code) (JObj hs) (encode_body body)), initial)
  | LocalResponseError => (Returned (mkResponse (JNum 502) (JObj []) JNull), initial)
  | LocalRequestError message =>
      (Returned
         (mkResponse (JNum 502) (JObj [("content-type", JStr "text/plain")])
            (JStr (Base64.encode ("Local server error: " ++ message)))),
       log "err" initial)
  | LocalThrows e => (Thrown e, initial)
  end.
Proof.
  apply (@local_service_receives Demo.node "http://localhost:4444" Examples.echo
           (Relay.mkSuspended "abc" 0 "r1" Examples.post_hello) ["pi"; "ng"]
           (mkParsedUrl "http:" "localhost" "4444" "localhost:4444" "/hello" "") initial).
  - discriminate.
  - vm_compute. reflexivity.
Defined.

Lemma every_request_is_answered_witness :
  exists r s',
    @on_message Demo.node "http://localhost:4444" Demo.refused
      (Demo.print Demo.hello_request) initial = (Returned tt, s') /\
    sent s' = (sent initial ++ [Demo.print (response_message (Some (JStr "r1")) r)])%list /\
    (Demo.url ("http://localhost:4444" ++ Js.to_string (Js.or_else (Some (JStr "/hello")) (JStr "/")))
       = None -> r = mkResponse (JNum 400) (JObj []) JNull) /\
    reconnectDelay s' = reconnectDelay initial /\ reconnects s' = reconnects initial.
Proof.
  apply (@every_request_is_answered Demo.node "http://localhost:4444" Demo.refused
           (Demo.print Demo.hello_request)
           [("type", JStr "request"); ("reqId", JStr "r1"); ("method", JStr "GET");
            ("path", JStr "/hello"); ("headers", JObj [("accept", JStr "*/*")]);
            ("body", JNull)] initial).
  - vm_compute. reflexivity.
  - reflexivity.
  - reflexivity.
  - reflexivity.
  - reflexivity.
  - intros isHttps options written e Hx. discriminate Hx.
Defined.

End AgentFacts.

(** ** Both programs together *)

Module EndToEnd.
Import Relay Correlation RelayFacts Forwarding.

Section EndToEnd.
Context `{Runtime}.

(** The state of the relay after a dispatch on an open tunnel. *)
Lemma dispatched_state (s : Server) (res : ResId) (tunnelId reqId : string)
    (req : HttpReq) (chunks : list string) (k : TunnelRef) (tun : Tunnel) :
  lookup_tunnel s tunnelId = Some (k, tun) ->
  sockets s !! t_ws tun = Some OPEN ->
  exists s1,
    run [TunnelRequest res tunnelId req reqId; BodyEnd res chunks false] s = (Returned tt, s1) /\
    ws_out s1 =
      (ws_out s ++
        [(t_ws tun,
          JSON_stringify (request_message (mkSuspended tunnelId k reqId req) chunks))])%list /\
    http_out s1 = http_out s /\
    exchanges s1 = exchanges s /\
    lookup_tunnel s1 tunnelId =
      Some (k, mkTunnel (t_ws tun)
                 (<[reqId := mkPending res tunnelId (Some (next_timer s))]>
                    (pendingRequests tun))) /\
    timers s1 = <[next_timer s := mkTimer k reqId res DEADLINE]> (timers s).
Proof.
  intros Hlook Hopen.
  destruct (lookup_tunnel_Some _ _ _ _ Hlook) as [Hreg Hheap].
  set (c := mkSuspended tunnelId k reqId req).
  set (s1 := with_suspended <[res := c]> s).
  assert (H1 : tunnel_request res tunnelId req reqId s = (Returned tt, s1)).
  { unfold tunnel_request. rewrite get_eq, Hlook, Hopen. reflexivity. }
  assert (Hs1 : suspended s1 !! res = Some c) by apply lookup_insert_eq.
  assert (Hh1 : heap s1 !! su_tunnel c = Some tun) by exact Hheap.
  destruct (resume_sent res chunks c tun s1 Hs1 Hh1) as (s' & Hrun & Hcore & Hout).
  assert (Hrest : http_out s' = http_out s /\ exchanges s' = exchanges s).
  { revert Hrun. unfold tunnel_request_resume. rewrite get_eq, Hs1.
    erewrite seq_eq by reflexivity. rewrite Hh1.
    unfold on_pending, setTimeout, ws_send. mrun. by intros [= <-]. }
  destruct Hrest as [Hhttp Hex].
  unfold core in Hcore. injection Hcore as Htun Hheap' _ Htm _ _ _.
  exists s'. split_and!; try done.
  - cbn [run step]. erewrite seq_eq by exact H1. erewrite seq_eq by exact Hrun. reflexivity.
  - unfold lookup_tunnel. rewrite Htun, Hheap'. cbn. rewrite Hreg. cbn.
    by rewrite lookup_insert_eq.
Qed.

(** X16. A public request that the middleware hands to the handler with its
    body unread, for a tunnel whose connection is open, through both
    programs: the relay sends one [request] message; the client, reading it,
    asks the local service and hands one [response] message with the same id
    to [ws.send]; the relay, reading that, hands to Express the status the
    local service gave, sets its headers less the ones the relay holds back,
    and, for a response that is not HTML, passes its body byte for byte to
    [res.send].  The pending entry is gone and the deadline timer is cleared.
    (What Express then writes is its own: a conditional [GET] whose validator
    matches gets 304 without the body.) *)
Theorem request_through_open_tunnel (s : Server) (cst : Client.State)
    (localUrl : string) (local : Client.LocalService)
    (res : ResId) (tunnelId reqId : string) (req : HttpReq) (chunks : list string)
    (k : TunnelRef) (tun : Tunnel) (u : ParsedUrl)
    (code : Z) (hs : list (string * json)) (body : list string) :
  let request := request_message (mkSuspended tunnelId k reqId req) chunks in
  let response := Client.reply_to reqId code hs body in
  Premises.passes_middleware req = true ->
  lookup_tunnel s tunnelId = Some (k, tun) ->
  sockets s !! t_ws tun = Some OPEN ->
  exchanges s !! res = None ->
  JSON_parse (JSON_stringify request) = Some request ->
  JSON_parse (JSON_stringify response) = Some response ->
  URL_parse (localUrl ++ rawPath tunnelId req) = Some u ->
  (forall isHttps options written, local isHttps options written
     = Client.LocalResponse code hs body) ->
  (100 <= code <= 999)%Z ->
  not_html hs = true ->
  exists s1 c1 s2,
    run [TunnelRequest res tunnelId req reqId; BodyEnd res chunks false] s = (Returned tt, s1) /\
    ws_out s1 = (ws_out s ++ [(t_ws tun, JSON_stringify request)])%list /\
    Client.on_message localUrl local (JSON_stringify request) cst = (Returned tt, c1) /\
    Client.sent c1 = (Client.sent cst ++ [JSON_stringify response])%list /\
    on_message tunnelId (JSON_stringify response) s1 = (Returned tt, s2) /\
    http_out s2 =
      (http_out s ++
        [(res, mkHttpResponse (JNum code) (List.filter forwarded hs)
                 (String.concat "" body))])%list /\
    pending_has s2 k reqId = false /\
    timers s2 !! next_timer s = None.
Proof.
  intros request response _ Hlook Hopen Hfresh Hpreq Hpresp Hurl Hlocal Hcode Hplain.
  destruct (dispatched_state s res tunnelId reqId req chunks k tun Hlook Hopen)
    as (s1 & Hrun1 & Hws & Hhttp & Hex & Hlook1 & Htm).
  assert (Hpath : Js.to_string (Js.or_else (Some (JStr (rawPath tunnelId req))) (JStr "/"))
                  = rawPath tunnelId req).
  { rewrite or_else_truthy; [reflexivity|]. cbn.
    apply negb_true_iff, String.eqb_neq, DispatchFacts.rawPath_nonempty. }
  destruct (ClientFacts.local_response_is_relayed localUrl local (JSON_stringify request) reqId
              [("type", JStr "request"); ("reqId", JStr reqId); ("method", JStr (method req));
               ("path", JStr (rawPath tunnelId req));
               ("headers",
                 JObj (List.filter (fun kv => negb (String.eqb (fst kv) "host"))
                         (req_headers req)));
               ("body", encode_body chunks)]
              u code hs body cst) as (c1 & Hrun2 & Hsent); try done.
  { cbn [Js.assoc String.eqb Ascii.eqb Bool.eqb]. by rewrite Hpath. }
  { cbn [Js.assoc String.eqb Ascii.eqb Bool.eqb]. unfold encode_body. by destruct chunks. }
  destruct (plain_content_type hs Hplain) as (ct & Hct & Hinc).
  destruct (DeliveryFacts.reply_delivered tunnelId reqId k _
              (mkPending res tunnelId (Some (next_timer s))) s1 code hs body ct
              Hpresp Hlook1 (lookup_insert_eq _ _ _) Hcode Hct)
    as (s2 & Hrun3 & Hout & Hheap & Htm2).
  exists s1, c1, s2. split_and!; try done.
  - rewrite Hout, Hhttp, Hinc. cbn [andb p_res].
    unfold exchange_of. rewrite Hex, Hfresh. cbn. by rewrite app_nil_r.
  - unfold pending_has. rewrite Hheap.
    destruct (lookup_tunnel_Some _ _ _ _ Hlook1) as [_ Hh1].
    rewrite lookup_alter_eq, Hh1. cbn. rewrite lookup_delete_eq.
    apply bool_decide_eq_false. by intros [? ?].
  - rewrite Htm2. cbn. apply lookup_delete_eq.
Qed.

End EndToEnd.

Lemma request_through_open_tunnel_witness :
  let node := Demo.runtime [Demo.hello_request; Examples.test_response] in
  let s := snd (@run node [Connection 0 (Some "abc")] initial) in
  let req := mkHttpReq "GET" "/t/abc/hello" [("accept", JStr "*/*")] in
  let request := request_message (mkSuspended "abc" 0 "r1" req) [] in
  exists s1 c1 s2,
    @run node [TunnelRequest 1 "abc" req "r1"; BodyEnd 1 [] false] s = (Returned tt, s1) /\
    ws_out s1 = (ws_out s ++ [(0, Demo.print request)])%list /\
    @Client.on_message node "http://localhost:4444" Examples.test_server
      (Demo.print request) Client.initial = (Returned tt, c1) /\
    Client.sent c1 = (Client.sent Client.initial ++ [Demo.print Examples.test_response])%list /\
    @on_message node "abc" (Demo.print Examples.test_response) s1 = (Returned tt, s2) /\
    http_out s2 =
      (http_out s ++
        [(1, mkHttpResponse (JNum 200)
               (List.filter (@forwarded node) Examples.test_headers)
               (String.concat "" ["hello from local server!"]))])%list /\
    pending_has s2 0 "r1" = false /\
    timers s2 !! next_timer s = None.
Proof.
  apply (@request_through_open_tunnel
           (Demo.runtime [Demo.hello_request; Examples.test_response])
           (snd (@run (Demo.runtime [Demo.hello_request; Examples.test_response])
                   [Connection 0 (Some "abc")] initial))
           Client.initial "http://localhost:4444" Examples.test_server
           1 "abc" "r1" (mkHttpReq "GET" "/t/abc/hello" [("accept", JStr "*/*")]) []
           0 (mkTunnel 0 ∅)
           (mkParsedUrl "http:" "localhost" "4444" "localhost:4444" "/hello" "")
           200 Examples.test_headers ["hello from local server!"]).
  - vm_compute. reflexivity.
  - vm_compute. reflexivity.
  - vm_compute. reflexivity.
  - vm_compute. reflexivity.
  - vm_compute. reflexivity.
  - vm_compute. reflexivity.
  - vm_compute. reflexivity.
  - reflexivity.
  - lia.
  - vm_compute. reflexivity.
Defined.

End EndToEnd.

(** ** The rewriter on a document with nothing to rewrite *)

Module PassThroughFacts.

(** X17. A document in which none of the three patterns matches, no quoted
    root-relative attribute, no root-relative [url(] and no tag that starts
    with [<head], comes out of the rewriter as it went in, whatever the
    tunnel id is, a [$] in it included. *)
Theorem rewriteHtml_identity (html tunnelId : string) :
  no_match match_attr html ->
  no_match match_url html ->
  no_match match_head html ->
  rewriteHtml html tunnelId = html.
Proof.
  intros Ha Hu Hh. rewrite (RewriterFacts.rewriteHtml_without_references _ _ Ha Hu).
  unfold replace_first. by apply RewriterFacts.replace_first_no_match.
Qed.

Lemma rewriteHtml_identity_witness :
  rewriteHtml "<p>$1</p>" "$&" = "<p>$1</p>".
Proof.
  apply (rewriteHtml_identity "<p>$1</p>" "$&");
    intros n; do 10 (destruct n as [|n]; [reflexivity|]); by destruct n.
Defined.

End PassThroughFacts.

(** ** Issuing tunnel ids *)

Module IssueFacts.
Import Relay Api.

Lemma take_length (n : nat) (s : string) :
  String.length (take n s) = Nat.min n (String.length s).
Proof.
  revert s. induction n as [|n IH]; intros [|c r]; cbn [take String.length Nat.min]; try done.
  by rewrite IH.
Qed.

Section Issue.
Context `{Runtime}.

(** X18. The id the relay issues is the first eight characters of the UUID
    it drew, or the whole of it when it is shorter.  Issuing an id registers
    nothing: the registry and the tunnel objects are as they were, and the
    status of every id, the new one included, is what it was before. *)
Theorem issued_id_is_a_prefix (s : Server) (res : ResId) (uuid : string) :
  exchanges s !! res = None ->
  exists s' id,
    api_new res uuid s = (Returned tt, s') /\
    http_out s' =
      (http_out s ++
        [(res, mkHttpResponse (JNum 200) []
                 (JSON_stringify (JObj [("tunnelId", JStr id)])))])%list /\
    String.length id = Nat.min 8 (String.length uuid) /\
    uuid = id ++ drop 8 uuid /\
    tunnels s' = tunnels s /\ heap s' = heap s /\
    (forall tunnelId, connected s' tunnelId = connected s tunnelId).
Proof.
  intros Hex.
  pose proof (take_length 8 uuid) as Hlen.
  pose proof (eq_sym (RewriterFacts.take_drop_string 8 uuid)) as Hpre.
  unfold api_new, res_json, res_send, exchange_of.
  rewrite RelayFacts.get_eq, Hex.
  generalize dependent (take 8 uuid). intros id Hlen Hpre. cbn.
  rewrite status_ok_number by lia. eexists _, id. split; [reflexivity|]. cbn.
  split_and!; done.
Qed.

End Issue.

Lemma issued_id_is_a_prefix_witness :
  exists s' id,
    @api_new Demo.node 5 "3f2b8c1e-9d4a-4f6b-8e2a-1c3d5e7f9a0b" initial = (Returned tt, s') /\
    http_out s' =
      (http_out initial ++
        [(5, mkHttpResponse (JNum 200) [] (Demo.print (JObj [("tunnelId", JStr id)])))])%list /\
    String.length id = Nat.min 8 (String.length "3f2b8c1e-9d4a-4f6b-8e2a-1c3d5e7f9a0b") /\
    "3f2b8c1e-9d4a-4f6b-8e2a-1c3d5e7f9a0b" = id ++ drop 8 "3f2b8c1e-9d4a-4f6b-8e2a-1c3d5e7f9a0b" /\
    tunnels s' = tunnels initial /\ heap s' = heap initial /\
    (forall tunnelId, connected s' tunnelId = connected initial tunnelId).
Proof.
  apply (@issued_id_is_a_prefix Demo.node initial 5 "3f2b8c1e-9d4a-4f6b-8e2a-1c3d5e7f9a0b").
  reflexivity.
Defined.

End IssueFacts.

(** ** The event loop as a whole *)

Module LoopFacts.
Import Relay Correlation RelayFacts Registry.

Lemma alter_is_Some {A} (f : A -> A) (m : gmap nat A) (k j : nat) :
  is_Some (alter f k m !! j) <-> is_Some (m !! j).
Proof.
  destruct (decide (k = j)) as [->|Hne].
  - by rewrite lookup_alter_eq, fmap_is_Some.
  - by rewrite lookup_alter_ne.
Qed.

(** A state that differs from a well-formed one by entries of existing
    tunnel objects only is well formed. *)
Lemma well_formed_frame (s s' : Server) :
  tunnels s' = tunnels s ->
  (forall k, is_Some (heap s !! k) -> is_Some (heap s' !! k)) ->
  well_formed s -> well_formed s'.
Proof.
  intros Ht Hh [He Hr]. split; [by rewrite Ht|].
  intros tid k Hk. rewrite Ht in Hk. by eapply Hh, Hr.
Qed.

Section Loop.
Context `{Runtime}.

Lemma resume_returns res chunks b s :
  exists s',
    tunnel_request_resume res chunks b s = (Returned tt, s') /\
    tunnels s' = tunnels s /\
    forall k, is_Some (heap s !! k) -> is_Some (heap s' !! k).
Proof.
  unfold tunnel_request_resume. rewrite get_eq.
  destruct (suspended s !! res) as [c|]; [|by exists s].
  erewrite seq_eq by reflexivity.
  destruct (heap s !! su_tunnel c) as [tunnel|]; [|by eexists].
  destruct b.
  - unfold on_pending, setTimeout, ws_send, clearTimeout, res_status, res_send, exchange_of. mrun.
    rewrite lookup_insert_eq. cbn. rewrite status_ok_number by lia.
    eexists. split; [reflexivity|]. cbn. split; [done|].
    intros k Hk. by rewrite !alter_is_Some.
  - unfold on_pending, setTimeout, ws_send. mrun.
    eexists. split; [reflexivity|]. cbn. split; [done|].
    intros k Hk. by rewrite !alter_is_Some.
Qed.

Lemma step_returns e s :
  exists s', step e s = (Returned tt, s') /\ (well_formed s -> well_formed s').
Proof.
  destruct e as [ws tid|ws rs|ws data|ws|res tid req reqId|res chunks b|t]; cbn [step].
  - unfold on_connection. destruct tid as [id|]; [|by eexists].
    destruct (String.eqb id "") eqn:E; [by eexists|].
    apply String.eqb_neq in E.
    unfold ws_send. mrun. eexists. split; [reflexivity|].
    intros [He Hr]. split; cbn.
    + by rewrite lookup_insert_ne.
    + intros tid k Hk. destruct (decide (tid = id)) as [->|Hne].
      * rewrite lookup_insert_eq in Hk. injection Hk as <-. by rewrite lookup_insert_eq.
      * rewrite lookup_insert_ne in Hk by done.
        destruct (decide (next_ref s = k)) as [<-|Hk'].
        -- by rewrite lookup_insert_eq.
        -- rewrite lookup_insert_ne by done. by eapply Hr.
  - by eexists.
  - rewrite get_eq. destruct (handlers s !! ws) as [tid|]; [|by exists s].
    destruct (on_message_effect tid data s) as (s' & Hrun & Hc).
    exists s'. split; [done|]. apply well_formed_frame.
    + destruct Hc as [Hc|(k & tun & r & p & wr & _ & _ & Hc & _)];
        unfold core, claimed in Hc; by injection Hc as -> _ _ _ _ _ _.
    + intros k Hk.
      destruct Hc as [Hc|(k0 & tun & r & p & wr & _ & _ & Hc & _)];
        unfold core, claimed in Hc; cbn in Hc; injection Hc as _ -> _ _ _ _ _;
        by rewrite ?alter_is_Some.
  - erewrite seq_eq by reflexivity. rewrite get_eq. cbn [handlers with_sockets].
    destruct (handlers s !! ws) as [tid|]; [|by eexists].
    destruct (on_close_effect tid (with_sockets <[ws:=CLOSED]> s)) as (s' & Hrun & Hc).
    exists s'. split; [done|].
    destruct (lookup_tunnel (with_sockets <[ws:=CLOSED]> s) tid) as [[k tun]|].
    + unfold core in Hc. cbn in Hc. injection Hc as Ht Hh _ _ _ _ _.
      intros [He Hr]. split.
      * rewrite Ht. destruct (decide (tid = "")) as [->|Hne];
          [apply lookup_delete_eq | by rewrite lookup_delete_ne].
      * intros tid' k' Hk'. rewrite Ht in Hk'. rewrite Hh.
        apply lookup_delete_Some in Hk' as [_ Hk']. by eapply Hr.
    + by subst s'.
  - destruct (tunnel_request_effect res tid req reqId s) as (s' & Hrun & Hc).
    exists s'. split; [done|]. apply well_formed_frame.
    + destruct (offline s tid); [by subst s'|]. by destruct Hc as (k & tun & _ & ->).
    + intros k Hk. destruct (offline s tid); [by subst s'|].
      by destruct Hc as (k0 & tun & _ & ->).
  - destruct (resume_returns res chunks b s) as (s' & Hrun & Ht & Hh).
    exists s'. split; [done|]. by apply well_formed_frame.
  - rewrite get_eq. destruct (timers s !! t) as [tm|]; [|by exists s].
    erewrite seq_eq by reflexivity.
    destruct (pending_has (with_timers (delete t) s) (tm_tunnel tm) (tm_reqId tm)) eqn:E.
    + rewrite (on_timeout_present _ _ E). eexists. split; [reflexivity|].
      apply well_formed_frame; [done|]. intros k Hk. cbn. by rewrite alter_is_Some.
    + rewrite (on_timeout_absent _ _ E). by eexists.
Qed.

(** X19. No sequence of events, in any state, makes a handler of the relay
    throw out into the event loop: a connection with or without an id, a
    message of any content, a close, a public request, the end of its body
    with or without a failing send, the firing of a timer.  Whatever goes
    wrong inside a handler is caught there. *)
Theorem event_loop_never_throws (evs : list event) (s : Server) :
  exists s', run evs s = (Returned tt, s').
Proof.
  revert s. induction evs as [|e evs IH]; intros s; [by exists s|].
  destruct (step_returns e s) as (s1 & H1 & _).
  destruct (IH s1) as (s' & Hrun). exists s'.
  cbn [run]. by erewrite seq_eq by exact H1.
Qed.

(** X20. In every state the relay reaches from its start, the empty id is
    not registered and every registered id leads to a tunnel object, so the
    status endpoint says connected for exactly the ids a request handler
    finds a tunnel for. *)
Theorem registry_stays_well_formed (evs : list event) :
  exists s,
    run evs initial = (Returned tt, s) /\
    well_formed s /\
    forall tunnelId, connected s tunnelId = true <-> is_Some (lookup_tunnel s tunnelId).
Proof.
  assert (Hgen : forall s0, well_formed s0 ->
            exists s, run evs s0 = (Returned tt, s) /\ well_formed s).
  { induction evs as [|e evs IH]; intros s0 Hwf; [by exists s0|].
    destruct (step_returns e s0) as (s1 & H1 & Hk).
    destruct (IH s1 (Hk Hwf)) as (s & Hrun & Hwf'). exists s. split; [|done].
    cbn [run]. by erewrite seq_eq by exact H1. }
  destruct (Hgen initial) as (s & Hrun & Hwf); [by split|].
  exists s. split; [done|]. split; [done|].
  intros tid. unfold connected, lookup_tunnel. destruct Hwf as [_ Hr].
  destruct (tunnels s !! tid) as [k|] eqn:E.
  - destruct (Hr tid k E) as [tun Htun]. rewrite Htun. split; [by eexists | done].
  - split; [done | by intros [? ?]].
Qed.

End Loop.

End LoopFacts.

(** ** A request whose tunnel closes while its body is still arriving *)

Module OrphanFacts.
Import Relay Correlation RelayFacts.

Section Orphan.
Context `{Runtime}.

(** A message for an id that is not registered writes nothing and touches
    no timer and no tunnel object. *)
Lemma on_message_unregistered tid data s :
  tunnels s !! tid = None ->
  exists s',
    on_message tid data s = (Returned tt, s') /\
    http_out s' = http_out s /\ timers s' = timers s /\ heap s' = heap s /\
    tunnels s' = tunnels s.
Proof.
  intros Hreg.
  assert (Hlook : lookup_tunnel s tid = None) by (unfold lookup_tunnel; by rewrite Hreg).
  unfold on_message.
  destruct (JSON_parse data) as [msg|].
  2: { eexists. split; [reflexivity|]. done. }
  destruct (Js.prop (Some msg) "type") as [type|e] eqn:Etype.
  2: { eexists. split; [unfold console_error; mrun; reflexivity|]. done. }
  destruct (Js.is_string type "response") eqn:Eresp.
  2: { eexists. split; [mrun; rewrite Eresp; reflexivity|]. done. }
  eexists. split; [mrun; rewrite Eresp; cbn; rewrite Hlook; reflexivity|]. done.
Qed.

(** X21. When the id has left the registry by the time the body of a request
    has arrived, the handler goes on with the tunnel object it had found: the
    pending request is filed there and the deadline armed, and nothing is
    written yet.  No message for that id can answer the request any more; the
    public caller gets its answer, 504 "Gateway Timeout", when the deadline
    fires. *)
Theorem dispatch_after_close_waits_for_deadline (s : Server) (res : ResId)
    (chunks : list string) (c : Suspended) (tunnel : Tunnel) :
  suspended s !! res = Some c ->
  heap s !! su_tunnel c = Some tunnel ->
  tunnels s !! su_tunnelId c = None ->
  exists s1,
    tunnel_request_resume res chunks false s = (Returned tt, s1) /\
    http_out s1 = http_out s /\
    pending_has s1 (su_tunnel c) (su_reqId c) = true /\
    (forall data, exists s2,
       on_message (su_tunnelId c) data s1 = (Returned tt, s2) /\
       http_out s2 = http_out s1 /\ timers s2 = timers s1 /\
       pending_has s2 (su_tunnel c) (su_reqId c) = true) /\
    exists s3,
      step (TimerFires (next_timer s)) s1 = (Returned tt, s3) /\
      http_out s3 =
        (http_out s ++
          [(res, mkHttpResponse (JNum 504) (headers (exchange_of s res)) "Gateway Timeout")])%list.
Proof.
  intros Hs Hh Hreg.
  destruct (resume_sent res chunks c tunnel s Hs Hh) as (s1 & Hrun & Hcore & _).
  assert (Hrest : http_out s1 = http_out s /\ exchanges s1 = exchanges s).
  { revert Hrun. unfold tunnel_request_resume. rewrite get_eq, Hs.
    erewrite seq_eq by reflexivity. rewrite Hh.
    unfold on_pending, setTimeout, ws_send. mrun. by intros [= <-]. }
  destruct Hrest as [Hhttp Hex].
  unfold core in Hcore. injection Hcore as Htun Hheap _ Htm _ _ _.
  assert (Hpend : forall s0, heap s0 = heap s1 ->
            pending_has s0 (su_tunnel c) (su_reqId c) = true).
  { intros s0 E. unfold pending_has. rewrite E, Hheap, lookup_insert_eq. cbn.
    rewrite lookup_insert_eq. by apply bool_decide_eq_true. }
  exists s1. split_and!; try done.
  - by apply Hpend.
  - intros data.
    destruct (on_message_unregistered (su_tunnelId c) data s1) as (s2 & Hm & Ho & Ht & Hhp & _).
    { by rewrite Htun. }
    exists s2. split_and!; try done. by apply Hpend.
  - assert (Ht : timers s1 !! next_timer s
                 = Some (mkTimer (su_tunnel c) (su_reqId c) res DEADLINE)).
    { rewrite Htm. apply lookup_insert_eq. }
    rewrite (step_timer_armed _ _ _ Ht).
    rewrite on_timeout_present by (by apply Hpend).
    eexists. split; [reflexivity|].
    unfold answer, exchange_of. cbn. by rewrite Hhttp, Hex.
Qed.

End Orphan.

Lemma dispatch_after_close_waits_for_deadline_witness :
  let s := snd (@run Demo.node [Connection 0 (Some "abc");
                                TunnelRequest 1 "abc" Demo.get_hello "r1";
                                Close 0] initial) in
  let c := mkSuspended "abc" 0 "r1" Demo.get_hello in
  exists s1,
    @tunnel_request_resume Demo.node 1 [] false s = (Returned tt, s1) /\
    http_out s1 = http_out s /\
    pending_has s1 (su_tunnel c) (su_reqId c) = true /\
    (forall data, exists s2,
       @on_message Demo.node (su_tunnelId c) data s1 = (Returned tt, s2) /\
       http_out s2 = http_out s1 /\ timers s2 = timers s1 /\
       pending_has s2 (su_tunnel c) (su_reqId c) = true) /\
    exists s3,
      @step Demo.node (TimerFires (next_timer s)) s1 = (Returned tt, s3) /\
      http_out s3 =
        (http_out s ++
          [(1, mkHttpResponse (JNum 504) (headers (exchange_of s 1)) "Gateway Timeout")])%list.
Proof.
  apply (@dispatch_after_close_waits_for_deadline Demo.node
           (snd (@run Demo.node [Connection 0 (Some "abc");
                                 TunnelRequest 1 "abc" Demo.get_hello "r1";
                                 Close 0] initial))
           1 [] (mkSuspended "abc" 0 "r1" Demo.get_hello) (mkTunnel 0 ∅)).
  - vm_compute. reflexivity.
  - vm_compute. reflexivity.
  - vm_compute. reflexivity.
Defined.

End OrphanFacts.

(** ** The web page and the client agree on the public address *)

Module FrontendFacts.
Import Cli.

(** X22. The command the page shows ends with the [ws] form of the page's
    server URL, as the server argument of the client.  When that URL, given
    with an [http] or [https] scheme, does not end in a slash, the address the
    client prints for that argument is the address the page shows; when it
    does end in a slash, the page shows that slash doubled before [t/] and
    the client does not. *)
Theorem page_and_client_addresses (rest trimmed tunnelId : string) :
  let SERVER_URL := "http" ++ rest in
  let serverArg := "ws" ++ rest in
  Frontend.cliCommand SERVER_URL trimmed tunnelId
    = "node client/index.js " ++ trimmed ++ " " ++ tunnelId ++ " " ++ serverArg /\
  ((forall b, rest <> b ++ "/") ->
   publicUrl serverArg tunnelId = Frontend.publicUrl SERVER_URL tunnelId) /\
  (forall b, rest = b ++ "/" ->
   publicUrl serverArg tunnelId = "http" ++ b ++ "/t/" ++ tunnelId ++ "/" /\
   Frontend.publicUrl SERVER_URL tunnelId = "http" ++ b ++ "//t/" ++ tunnelId ++ "/").
Proof.
  cbn zeta. unfold Frontend.cliCommand, Frontend.wsBase, http_to_ws.
  rewrite (CliFacts.strip_prefix "http" rest).
  assert (Hpub : publicUrl ("ws" ++ rest) tunnelId
                 = "http" ++ strip_trailing_slash rest ++ "/t/" ++ tunnelId ++ "/").
  { unfold publicUrl, httpBase, wsBase, http_to_ws, ws_to_http.
    replace (strip "http" ("ws" ++ rest)) with (@None string) by reflexivity.
    change ("ws" ++ rest) with (String "w" (String "s" rest)).
    rewrite !CliFacts.strip_trailing_slash_cons by reflexivity.
    change (String "w" (String "s" ?x)) with ("ws" ++ x).
    rewrite (CliFacts.strip_prefix "ws"). by rewrite !RewriterFacts.append_assoc. }
  split; [reflexivity|]. split.
  - intros Hno. rewrite Hpub. unfold Frontend.publicUrl.
    rewrite (CliFacts.strip_trailing_slash_keeps rest Hno).
    by rewrite !RewriterFacts.append_assoc.
  - intros b ->. rewrite Hpub, CliFacts.strip_trailing_slash_snoc. split; [reflexivity|].
    unfold Frontend.publicUrl. by rewrite !RewriterFacts.append_assoc.
Qed.

End FrontendFacts.
